(** * Fluidic channel controller: embedding of fluidics.c and its properties

    The development follows src/test-2/fluidics.c (the state machine of one
    fluidic channel), src/test-2/fluidics.h (its types and constants) and
    src/test-3/fluidicsConfig.c (the per-channel default parameter bundles).

    Conventions of the embedding:
    - a C [float] is the rational ([Q]) it denotes, and every arithmetic
      operation on floats rounds its result to single precision
      ([f32_add], [f32_sub], [f32_mul]);
    - [uint32_t] counters are [Z] with the wrap-around written out ([wrap32]);
    - the object [me] is threaded through a small state monad [M];
    - everything the object sends out (published events, piezo and
      electrochemistry driver calls, timer commands, error reports) is
      recorded in the [log] field, newest first, and so is every store to
      the table of positions at an index outside it;
    - what the external drivers answer is an input: the record [Drivers];
    - ASSERT and LOG_TRACE leave the object unchanged and are not modelled. *)

From Stdlib Require Import ZArith QArith Qabs Bool List Lia.
Import ListNotations.

Local Open Scope Z_scope.

(** ** Enumerations *)

(** Modelled from the spec: fluidicsTypes.h is not among the sources.  The
    positions are the ones of the data model, in the order in which it lists
    them; [BC_POS_HOME] is the enumerator with value zero. *)
Inductive eFluidicPositions_t : Type :=
| BC_POS_HOME
| BC_POS_DOWN
| BC_POS_FLUID_A
| BC_POS_FLUID_B
| BC_POS_FLUID_C
| BC_POS_UNKNOWN
| BC_NONE.

(** Modelled from the spec: the integer value of each position enumerator.
    The five valid positions index [positionLimits], whose size is
    [BC_VALID_POS_COUNT]; the two sentinels lie above it. *)
Definition posIndex (p : eFluidicPositions_t) : Z :=
  match p with
  | BC_POS_HOME => 0
  | BC_POS_DOWN => 1
  | BC_POS_FLUID_A => 2
  | BC_POS_FLUID_B => 3
  | BC_POS_FLUID_C => 4
  | BC_POS_UNKNOWN => 6
  | BC_NONE => 7
  end.

Definition BC_VALID_POS_COUNT : Z := 5.

(** The positions that index a cell of [positionLimits]. *)
Definition posInTable (p : eFluidicPositions_t) : bool :=
  posIndex p <? BC_VALID_POS_COUNT.

Definition pos_eqb (a b : eFluidicPositions_t) : bool := posIndex a =? posIndex b.
Definition pos_geb (a b : eFluidicPositions_t) : bool := posIndex b <=? posIndex a.
Definition pos_gtb (a b : eFluidicPositions_t) : bool := posIndex b <? posIndex a.

(** [(uint32_t)pos - 1] used as an index of [positionLimits]; from
    [BC_POS_HOME] the subtraction wraps and the index is out of range. *)
Definition posPred (p : eFluidicPositions_t) : eFluidicPositions_t :=
  match p with
  | BC_POS_HOME => BC_NONE
  | BC_POS_DOWN => BC_POS_HOME
  | BC_POS_FLUID_A => BC_POS_DOWN
  | BC_POS_FLUID_B => BC_POS_FLUID_A
  | BC_POS_FLUID_C => BC_POS_FLUID_B
  | BC_POS_UNKNOWN => BC_POS_FLUID_C
  | BC_NONE => BC_POS_UNKNOWN
  end.

(** Direction of the fluid movement.  The third value is the "return" swing
    that the source still dispatches on. *)
Inductive eFluidicMoveDirection_t : Type :=
| FLUID_MOVE_FWD
| FLUID_MOVE_REV
| FLUID_MOVE_RETURN.

Definition dir_eqb (a b : eFluidicMoveDirection_t) : bool :=
  match a, b with
  | FLUID_MOVE_FWD, FLUID_MOVE_FWD => true
  | FLUID_MOVE_REV, FLUID_MOVE_REV => true
  | FLUID_MOVE_RETURN, FLUID_MOVE_RETURN => true
  | _, _ => false
  end.

(** Overshoot compensation modes; [FLUID_OVERSHOOT_COMP_NUM] is the count
    enumerator and stands for every value that is not a mode. *)
Inductive eFluidOvershootCompensation_t : Type :=
| FLUID_OVERSHOOT_COMP_NONE
| FLUID_OVERSHOOT_COMP_PIEZO_VOLTS
| FLUID_OVERSHOOT_COMP_BREAK_REMAKE
| FLUID_OVERSHOOT_COMP_NUM.

Definition compIndex (c : eFluidOvershootCompensation_t) : Z :=
  match c with
  | FLUID_OVERSHOOT_COMP_NONE => 0
  | FLUID_OVERSHOOT_COMP_PIEZO_VOLTS => 1
  | FLUID_OVERSHOOT_COMP_BREAK_REMAKE => 2
  | FLUID_OVERSHOOT_COMP_NUM => 3
  end.

Inductive eFluidMixingType_t : Type :=
| FLUID_MIX_DUAL_POINT_LOOP
| FLUID_MIX_SINGLE_POINT_LOOP
| FLUID_MIX_OPEN_LOOP.

Definition mix_eqb (a b : eFluidMixingType_t) : bool :=
  match a, b with
  | FLUID_MIX_DUAL_POINT_LOOP, FLUID_MIX_DUAL_POINT_LOOP => true
  | FLUID_MIX_SINGLE_POINT_LOOP, FLUID_MIX_SINGLE_POINT_LOOP => true
  | FLUID_MIX_OPEN_LOOP, FLUID_MIX_OPEN_LOOP => true
  | _, _ => false
  end.

Inductive eFluidicHysterisisChangeType_t : Type :=
| FLUID_HYST_INC
| FLUID_HYST_DEC.

(** Readings of the fluid-front detector, totally ordered by [fdIndex]. *)
Inductive eEcFluidDetectPosition_t : Type :=
| FD_DATA_INVALID
| NO_STRIP_DETECTED
| NO_FLUID_DETECTED
| FLUID_DETECTED
| FLUID_POSITION_A
| FLUID_POSITION_B
| FLUID_POSITION_C.

Definition fdIndex (f : eEcFluidDetectPosition_t) : Z :=
  match f with
  | FD_DATA_INVALID => 0
  | NO_STRIP_DETECTED => 1
  | NO_FLUID_DETECTED => 2
  | FLUID_DETECTED => 3
  | FLUID_POSITION_A => 4
  | FLUID_POSITION_B => 5
  | FLUID_POSITION_C => 6
  end.

Definition FLD_POS_NUM : Z := 7.

Definition fd_eqb (a b : eEcFluidDetectPosition_t) : bool := fdIndex a =? fdIndex b.
Definition fd_leb (a b : eEcFluidDetectPosition_t) : bool := fdIndex a <=? fdIndex b.

Inductive eElectrochemicalChannel : Type :=
| EC_STRIP_CHAN_1
| EC_STRIP_CHAN_2
| EC_STRIP_CHAN_3
| EC_STRIP_CHAN_4.

Definition chan_eqb (a b : eElectrochemicalChannel) : bool :=
  match a, b with
  | EC_STRIP_CHAN_1, EC_STRIP_CHAN_1 => true
  | EC_STRIP_CHAN_2, EC_STRIP_CHAN_2 => true
  | EC_STRIP_CHAN_3, EC_STRIP_CHAN_3 => true
  | EC_STRIP_CHAN_4, EC_STRIP_CHAN_4 => true
  | _, _ => false
  end.

Inductive eElectrochemicalChannelPos : Type :=
| EC_CHAN_POS_NONE
| EC_CHAN_POS_A
| EC_CHAN_POS_B
| EC_CHAN_POS_C.

(** The error codes that fluidics.c and fluidics.h name; [ERROR_UNLISTED]
    stands for any other code a driver or a message can carry. *)
Inductive eErrorCode : Type :=
| OK_STATUS
| OK_COMMAND_ACCEPTED
| ERROR_NULL_PTR
| ERROR_BAD_ARGS
| ERROR_OBJECT_NOT_READY
| ERROR_COMMAND_TIMEOUT
| ERROR_DXRUNNER_FMIX_TIMEOUT
| ERROR_DXRUNNER_FMOV_TIMEOUT
| ERROR_FLUIDIC_ERR_CNT
| ERROR_FLUIDIC_UNEXPECTED_MSG_PIEZO
| ERROR_FLUIDIC_UNKNOWN_MSG_FROM_EC
| ERROR_FLUID_CHANNEL_ECHEM_BUSY
| ERROR_FLUID_CHANNEL_FLUID_FRONT
| ERROR_FLUID_CHANNEL_INVALID_MOVE
| ERROR_FLUID_INVALID_PARAMS
| ERROR_FLUID_NO_STRIP
| ERROR_FLUID_SPEED
| ERROR_PIEZO_UNKNOWN
| ERROR_UNLISTED (code : Z).

Definition is_OK_STATUS (e : eErrorCode) : bool :=
  match e with OK_STATUS => true | _ => false end.

Definition is_OK_COMMAND_ACCEPTED (e : eErrorCode) : bool :=
  match e with OK_COMMAND_ACCEPTED => true | _ => false end.

(** fluidics.h, FLUIDIC_CIRITICAL_ERR: the errors that force the error state. *)
Definition FLUIDIC_CIRITICAL_ERR (errorCode : eErrorCode) : bool :=
  match errorCode with
  | ERROR_FLUID_CHANNEL_ECHEM_BUSY => true
  | ERROR_FLUID_CHANNEL_FLUID_FRONT => true
  | ERROR_PIEZO_UNKNOWN => true
  | ERROR_FLUIDIC_ERR_CNT => true
  | _ => false
  end.

(** The leaf states; each stands for the state handler of the same name. *)
Inductive LeafState : Type :=
| S_Init
| S_Idle
| S_CheckForStrip
| S_MoveContact
| S_MoveOther
| S_LiftUpBladder
| S_WaitForContact
| S_WaitForPiezoStop
| S_MixContactControlled
| S_MixPiezoControlled
| S_MixWaitContinue
| S_MonitorFluidBreach
| S_Err.

Definition leaf_eqb (a b : LeafState) : bool :=
  match a, b with
  | S_Init, S_Init | S_Idle, S_Idle | S_CheckForStrip, S_CheckForStrip
  | S_MoveContact, S_MoveContact | S_MoveOther, S_MoveOther
  | S_LiftUpBladder, S_LiftUpBladder | S_WaitForContact, S_WaitForContact
  | S_WaitForPiezoStop, S_WaitForPiezoStop
  | S_MixContactControlled, S_MixContactControlled
  | S_MixPiezoControlled, S_MixPiezoControlled
  | S_MixWaitContinue, S_MixWaitContinue
  | S_MonitorFluidBreach, S_MonitorFluidBreach | S_Err, S_Err => true
  | _, _ => false
  end.

(** Return codes of a state handler. *)
Inductive XState : Type :=
| X_RET_HANDLED
| X_RET_IGNORED
| X_RET_TRAN.

(** ** Constants of fluidics.h *)

Definition FLUID_NUM_MIXING_STAGES_PER_CYCLE : Z := 2.
Definition FLUID_SPEED_LOW_DEFAULT_V_PER_S : Q := 25 # 10.
(** [1.1f] and [0.9f] are no binary fractions: the constants are the
    single-precision values nearest to them. *)
Definition FLUID_HYST_MULTIPLIER_INC_DEFAULT : Q := 9227469 # 8388608.
Definition FLUID_HYST_MULTIPLIER_DEC_DEFAULT : Q := 7549747 # 8388608.
Definition FLUIDIC_DEFAULT_TARGET_POSITION : Q := 60 # 1.
Definition FLUIDIC_DEFAULT_HYSTERISIS_V : Q := 5 # 1.
Definition FLUIDIC_POS_A_HYSTERISIS_V : Q := 10 # 1.
Definition FLUIDIC_HYSTERISIS_NONE : Q := 0 # 1.
Definition FLUIDIC_DEFAULT_TIMEOUT_30S : Z := 1000 * 30.
Definition FLUIDIC_DEFAULT_MIX_FREQ : Q := 1 # 1.
Definition FLUIDIC_HYSETRISIS_MAX : Q := 10 # 1.
Definition FLUIDIC_HYSETRISIS_MIN : Q := 1 # 1.
Definition FLUIDIC_MAX_VOLTS_BEFORE_LIFT : Q := 50 # 1.
Definition FLUIDIC_TIMER_COUNT_MS : Z := 20.
Definition FLUIDIC_MAX_MIX_TIMEOUT_DEFAULT_MS : Z := 3600 * 1000.
Definition FLUIDIC_MAX_COMPENSATION_FACTOR : Q := 1 # 1.
Definition FLUID_RETURN_SPEED_REDUCTION_FACTOR : Q := 2 # 1.

(** electrochemical.h *)
Definition ECHEM_UPDATE_PERIOD_MS : Z := 80.

(** The constants of piezo.h, which is not among the sources, are taken as
    parameters, of type [float] like the values they are compared and added
    to. *)
Class PiezoConsts : Type := {
  PIEZO_RAMP_MAX : Q;
  PIEZO_MIN_VOLTAGE : Q;
  PIEZO_VOLT_MAX : Q
}.

(** [uint32_t] arithmetic. *)
Definition wrap32 (z : Z) : Z := z mod 2 ^ 32.

(** ** Single-precision arithmetic

    A [float] is modelled by the rational it denotes.  Comparisons of floats
    are comparisons of these rationals.  The result of an addition, a
    subtraction or a multiplication is the exact result rounded to the
    nearest single-precision value, ties to even: the arithmetic of IEEE 754
    binary32 in its default rounding mode, gradual underflow included, each
    operation of an expression rounded on its own as the source has every
    operand and every literal of type [float].  Infinities and NaN denote no
    rational: the exponent has no upper bound here, and [finite32] tells the
    results that binary32 holds. *)

(** Comparisons of [float] values. *)
Definition Qgtb (a b : Q) : bool := negb (Qle_bool a b).
Definition Qgeb (a b : Q) : bool := Qle_bool b a.
Definition Qltb (a b : Q) : bool := negb (Qle_bool b a).

(** Digits of the significand, and exponent of the last place of the
    subnormal numbers. *)
Definition FLT_MANT_DIG : Z := 24.
Definition FLT_DENORM_MIN_EXP : Z := -149.

(** The largest finite value, (2^24 - 1) * 2^104. *)
Definition FLT_MAX : Q := ((2 ^ 24 - 1) * 2 ^ 104) # 1.

(** The integer nearest to [n / d], the even one of two that are equally
    near ([0 <= n], [0 < d]). *)
Definition div_nearest_even (n d : Z) : Z :=
  let q := n / d in
  match 2 * (n mod d) ?= d with
  | Lt => q
  | Gt => q + 1
  | Eq => if Z.even q then q else q + 1
  end.

(** The integer part of the binary logarithm of [n / d] ([0 < n], [0 < d]). *)
Definition log2_ratio (n d : Z) : Z :=
  let k := Z.log2 n - Z.log2 d in
  if (if 0 <=? k then d * 2 ^ k <=? n else d <=? n * 2 ^ (- k)) then k else k - 1.

(** Rounding to single precision: the significand is the nearest integer of
    24 bits, fewer below the normal range. *)
Definition round32 (x : Q) : Q :=
  let n := Z.abs (Qnum x) in
  let d := Z.pos (Qden x) in
  if n =? 0 then 0%Q
  else
    let e := Z.max (log2_ratio n d - (FLT_MANT_DIG - 1)) FLT_DENORM_MIN_EXP in
    let m := if 0 <=? e then div_nearest_even n (d * 2 ^ e)
             else div_nearest_even (n * 2 ^ (- e)) d in
    let m := if Qnum x <? 0 then - m else m in
    Qred (if 0 <=? e then (m * 2 ^ e) # 1 else m # Z.to_pos (2 ^ (- e))).

(** [a + b], [a - b] and [a * b] on [float] operands. *)
Definition f32_add (a b : Q) : Q := round32 (a + b).
Definition f32_sub (a b : Q) : Q := round32 (a - b).
Definition f32_mul (a b : Q) : Q := round32 (a * b).

Arguments round32 x : simpl never.
Arguments f32_add a b : simpl never.
Arguments f32_sub a b : simpl never.
Arguments f32_mul a b : simpl never.

(** The results that are finite in binary32. *)
Definition finite32 (x : Q) : Prop := (Qabs x <= FLT_MAX)%Q.

(** ** Messages *)

(** fluidics.h, FluidicMovePositionMsg_tag; FluidicLiftUpBladderMsg_tag has
    the same members and its handler reads it through this type. *)
Record FluidicMovePositionMsg_t : Type := {
  mv_eTargetPos : eFluidicPositions_t;
  mv_rampSpeedVoltsPerSec : Q;
  mv_eOvershootComp : eFluidOvershootCompensation_t;
  mv_overshootCompProportion : Q;
  mv_timeout_ms : Z
}.

(** fluidics.h, FluidicMixMsg_tag. *)
Record FluidicMixMsg_t : Type := {
  mx_eTargetPos : eFluidicPositions_t;
  mx_mixFrequency : Q;
  mx_mixTime : Z;
  mx_mixCycles : Z;
  mx_eMixType : eFluidMixingType_t;
  mx_openLoopCompensationFactor : Q;
  mx_mixDownstrokeProportion : Q
}.

(** The events a state handler receives, with the payload it reads. *)
Inductive XEvent : Type :=
| X_EV_ENTRY
| X_EV_EXIT
| X_EV_TIMER
| XMSG_FLUID_CHANNEL_MOVE_TO (m : FluidicMovePositionMsg_t)
| XMSG_FLUID_LIFT_UP_BLADDER (m : FluidicMovePositionMsg_t)
| XMSG_FLUID_MIX (m : FluidicMixMsg_t)
| XMSG_FLUID_WAIT_FOR_CONTACT (eTarget : eFluidicPositions_t) (timeoutMs : Z)
| XMSG_FLUID_CHANNEL_CANCEL
| XMSG_GLOBAL_HALT
| XMSG_DOOR_OPENED
| XMSG_FLUID_ERR_CLEAR
| XMSG_FLUID_MIX_CONTINUE
| XMSG_PIEZO_MOVE_COMPLTE (chan : Z) (volts : Q)
| XMSG_PIEZO_STOPPED (chan : Z) (volts : Q)
| XMSG_PEIZO_MOVE_FAIL (chan : Z) (error : eErrorCode)
| XMSG_EC_FLUID_STATUS_CHANGED
    (fluidPositions : eElectrochemicalChannel -> eEcFluidDetectPosition_t)
| XMSG_EC_ERROR (error : eErrorCode)
| XMSG_FLUID_CHANNEL_NEW_PARAMS (flAVal flBVal flCVal : Q)
| XMSG_FLUID_ENABLE_BREACH_DETECT (monitorFluidPosition : bool)
| XMSG_EC_A1_BLDR_UP
| XMSG_EC_B2_BLDR_UP
| XMSG_EC_A3_BLDR_UP
| XMSG_EC_B4_BLDR_UP
| XMSG_EC_A1_BLDR_DOWN
| XMSG_EC_B2_BLDR_DOWN
| XMSG_EC_A3_BLDR_DOWN
| XMSG_EC_B4_BLDR_DOWN
| XMSG_UNSUBSCRIBED.

(** The message objects the controller publishes, named after the members
    of [Fluidic_t] that hold them, with the members written before the
    publication. *)
Inductive Published : Type :=
| Pub_moveSuccessMsg (eChan : eElectrochemicalChannel)
    (eRestPosition : eFluidicPositions_t) (completionTimeMs : Z) (piezoVolts : Q)
| Pub_moveFailMsg (eChan : eElectrochemicalChannel)
    (eTargetPosition : eFluidicPositions_t)
| Pub_cmdFail (eError : eErrorCode)
| Pub_mixCmpltMsg (eChan : eElectrochemicalChannel)
    (eRestPosition : eFluidicPositions_t)
| Pub_stageCompelteMsg
| Pub_breachDetectedMsg
| Pub_errorMsg (error : eErrorCode)
| Pub_fcStartBladderDetectMsg
| Pub_fcStopBladderDetectMsg.

(** Argument of piezoVoltageSet. *)
Record peizoMoveParams_t : Type := {
  targetVoltage : Q;
  rampSpeed : Q;
  publishCompletion : bool
}.

(** Everything the object sends to its collaborators.  The last constructor
    is no message: it records a store to [positionLimits] at an index the
    table does not have (see [modify_limits]). *)
Inductive Output : Type :=
| OutPublish (msg : Published)
| OutPiezoVoltageSet (p : peizoMoveParams_t)
| OutPiezoStop
| OutPiezoHome
| OutEcDisable (ch : eElectrochemicalChannel)
| OutEcSetModeFillDetect (ch : eElectrochemicalChannel)
    (minimumPosition : eElectrochemicalChannelPos)
| OutTimerStart
| OutTimerStop
| OutErrorCheck (err : eErrorCode)
| OutOfTableStore (index : eFluidicPositions_t).

(** What the collaborators answer while one event is handled: the piezo
    object behind [me->pPiezo] and the electrochemistry object behind
    [me->pEchem]. *)
Record Drivers : Type := {
  piezoChan : Z;
  maxRampRate : Q;
  currentVoltage : Q;
  r_piezoVoltageSet : peizoMoveParams_t -> eErrorCode;
  r_piezoStop : eErrorCode;
  r_piezoHome : eErrorCode;
  r_ecDisable : eElectrochemicalChannel -> eErrorCode;
  r_ecSetModeFillDetect :
    eElectrochemicalChannel -> eElectrochemicalChannelPos -> eErrorCode;
  r_ecGetFluidPosition : eElectrochemicalChannel -> eEcFluidDetectPosition_t
}.

(** ** The object *)

(** fluidics.h, FluidicPositionLimits_tag. *)
Record FluidicPositionLimits_t : Type := {
  targetVolts : Q;
  posHysterisis : Q;
  echemRequirements : eFluidicMoveDirection_t -> eEcFluidDetectPosition_t
}.

(** Status information of a fluidic object (fluidics.h, FluididStatus_tag). *)
Record FluididStatus_t : Type := Build_FluididStatus_t {
  eFluidFrontPosition : eEcFluidDetectPosition_t;
  piezoVoltage : Q;
  mixComplete : bool;
  mixingStagesCompleted : Z;
  eMoveDirection : eFluidicMoveDirection_t
}.
Definition set_eFluidFrontPosition (v : eEcFluidDetectPosition_t) (st : FluididStatus_t) : FluididStatus_t :=
  {| eFluidFrontPosition := v; piezoVoltage := piezoVoltage st;
     mixComplete := mixComplete st;
     mixingStagesCompleted := mixingStagesCompleted st;
     eMoveDirection := eMoveDirection st |}.

Arguments set_eFluidFrontPosition v !st /.

Definition set_piezoVoltage (v : Q) (st : FluididStatus_t) : FluididStatus_t :=
  {| eFluidFrontPosition := eFluidFrontPosition st; piezoVoltage := v;
     mixComplete := mixComplete st;
     mixingStagesCompleted := mixingStagesCompleted st;
     eMoveDirection := eMoveDirection st |}.

Arguments set_piezoVoltage v !st /.

Definition set_mixComplete (v : bool) (st : FluididStatus_t) : FluididStatus_t :=
  {| eFluidFrontPosition := eFluidFrontPosition st;
     piezoVoltage := piezoVoltage st; mixComplete := v;
     mixingStagesCompleted := mixingStagesCompleted st;
     eMoveDirection := eMoveDirection st |}.

Arguments set_mixComplete v !st /.

Definition set_mixingStagesCompleted (v : Z) (st : FluididStatus_t) : FluididStatus_t :=
  {| eFluidFrontPosition := eFluidFrontPosition st;
     piezoVoltage := piezoVoltage st; mixComplete := mixComplete st;
     mixingStagesCompleted := v; eMoveDirection := eMoveDirection st |}.

Arguments set_mixingStagesCompleted v !st /.

Definition set_eMoveDirection (v : eFluidicMoveDirection_t) (st : FluididStatus_t) : FluididStatus_t :=
  {| eFluidFrontPosition := eFluidFrontPosition st;
     piezoVoltage := piezoVoltage st; mixComplete := mixComplete st;
     mixingStagesCompleted := mixingStagesCompleted st; eMoveDirection := v |}.

Arguments set_eMoveDirection v !st /.

(** Parameters used by a fluidics instance (fluidics.h, FluidicParams_tag).
    The array [positionLimits] is a table indexed by position; its entries at
    [BC_POS_UNKNOWN] and [BC_NONE] stand for the cells an out-of-range index
    would touch, which the source excludes by its ASSERTs. *)
Record FluidicParams_t : Type := Build_FluidicParams_t {
  positionLimits : eFluidicPositions_t -> FluidicPositionLimits_t;
  eChannel : eElectrochemicalChannel;
  timeout_ms : Z;
  mixFrequency_Hz : Q;
  mixTimeout_ms : Z;
  targetMixCycles : Z;
  rampSpeedVoltsPerSec : Q;
  mixTimeoutMax_ms : Z;
  eMixEndPosition : eFluidicPositions_t;
  hysterisisMultipliersVolts : eFluidicHysterisisChangeType_t -> Q;
  eOvershootCompensationType : eFluidOvershootCompensation_t;
  compensationProportion : Q;
  returnSpeedRedcutionFactor : Q;
  eMixType : eFluidMixingType_t;
  openLoopCompensationFactor : Q;
  mixDownstrokeProportion : Q;
  monitorBreachAfterMove : bool
}.
Definition set_positionLimits (v : eFluidicPositions_t -> FluidicPositionLimits_t) (p : FluidicParams_t) : FluidicParams_t :=
  {| positionLimits := v; eChannel := eChannel p; timeout_ms := timeout_ms p;
     mixFrequency_Hz := mixFrequency_Hz p; mixTimeout_ms := mixTimeout_ms p;
     targetMixCycles := targetMixCycles p;
     rampSpeedVoltsPerSec := rampSpeedVoltsPerSec p;
     mixTimeoutMax_ms := mixTimeoutMax_ms p;
     eMixEndPosition := eMixEndPosition p;
     hysterisisMultipliersVolts := hysterisisMultipliersVolts p;
     eOvershootCompensationType := eOvershootCompensationType p;
     compensationProportion := compensationProportion p;
     returnSpeedRedcutionFactor := returnSpeedRedcutionFactor p;
     eMixType := eMixType p;
     openLoopCompensationFactor := openLoopCompensationFactor p;
     mixDownstrokeProportion := mixDownstrokeProportion p;
     monitorBreachAfterMove := monitorBreachAfterMove p |}.

Arguments set_positionLimits v !p /.

Definition set_timeout_ms (v : Z) (p : FluidicParams_t) : FluidicParams_t :=
  {| positionLimits := positionLimits p; eChannel := eChannel p;
     timeout_ms := v; mixFrequency_Hz := mixFrequency_Hz p;
     mixTimeout_ms := mixTimeout_ms p; targetMixCycles := targetMixCycles p;
     rampSpeedVoltsPerSec := rampSpeedVoltsPerSec p;
     mixTimeoutMax_ms := mixTimeoutMax_ms p;
     eMixEndPosition := eMixEndPosition p;
     hysterisisMultipliersVolts := hysterisisMultipliersVolts p;
     eOvershootCompensationType := eOvershootCompensationType p;
     compensationProportion := compensationProportion p;
     returnSpeedRedcutionFactor := returnSpeedRedcutionFactor p;
     eMixType := eMixType p;
     openLoopCompensationFactor := openLoopCompensationFactor p;
     mixDownstrokeProportion := mixDownstrokeProportion p;
     monitorBreachAfterMove := monitorBreachAfterMove p |}.

Arguments set_timeout_ms v !p /.

Definition set_mixFrequency_Hz (v : Q) (p : FluidicParams_t) : FluidicParams_t :=
  {| positionLimits := positionLimits p; eChannel := eChannel p;
     timeout_ms := timeout_ms p; mixFrequency_Hz := v;
     mixTimeout_ms := mixTimeout_ms p; targetMixCycles := targetMixCycles p;
     rampSpeedVoltsPerSec := rampSpeedVoltsPerSec p;
     mixTimeoutMax_ms := mixTimeoutMax_ms p;
     eMixEndPosition := eMixEndPosition p;
     hysterisisMultipliersVolts := hysterisisMultipliersVolts p;
     eOvershootCompensationType := eOvershootCompensationType p;
     compensationProportion := compensationProportion p;
     returnSpeedRedcutionFactor := returnSpeedRedcutionFactor p;
     eMixType := eMixType p;
     openLoopCompensationFactor := openLoopCompensationFactor p;
     mixDownstrokeProportion := mixDownstrokeProportion p;
     monitorBreachAfterMove := monitorBreachAfterMove p |}.

Arguments set_mixFrequency_Hz v !p /.

Definition set_mixTimeout_ms (v : Z) (p : FluidicParams_t) : FluidicParams_t :=
  {| positionLimits := positionLimits p; eChannel := eChannel p;
     timeout_ms := timeout_ms p; mixFrequency_Hz := mixFrequency_Hz p;
     mixTimeout_ms := v; targetMixCycles := targetMixCycles p;
     rampSpeedVoltsPerSec := rampSpeedVoltsPerSec p;
     mixTimeoutMax_ms := mixTimeoutMax_ms p;
     eMixEndPosition := eMixEndPosition p;
     hysterisisMultipliersVolts := hysterisisMultipliersVolts p;
     eOvershootCompensationType := eOvershootCompensationType p;
     compensationProportion := compensationProportion p;
     returnSpeedRedcutionFactor := returnSpeedRedcutionFactor p;
     eMixType := eMixType p;
     openLoopCompensationFactor := openLoopCompensationFactor p;
     mixDownstrokeProportion := mixDownstrokeProportion p;
     monitorBreachAfterMove := monitorBreachAfterMove p |}.

Arguments set_mixTimeout_ms v !p /.

Definition set_targetMixCycles (v : Z) (p : FluidicParams_t) : FluidicParams_t :=
  {| positionLimits := positionLimits p; eChannel := eChannel p;
     timeout_ms := timeout_ms p; mixFrequency_Hz := mixFrequency_Hz p;
     mixTimeout_ms := mixTimeout_ms p; targetMixCycles := v;
     rampSpeedVoltsPerSec := rampSpeedVoltsPerSec p;
     mixTimeoutMax_ms := mixTimeoutMax_ms p;
     eMixEndPosition := eMixEndPosition p;
     hysterisisMultipliersVolts := hysterisisMultipliersVolts p;
     eOvershootCompensationType := eOvershootCompensationType p;
     compensationProportion := compensationProportion p;
     returnSpeedRedcutionFactor := returnSpeedRedcutionFactor p;
     eMixType := eMixType p;
     openLoopCompensationFactor := openLoopCompensationFactor p;
     mixDownstrokeProportion := mixDownstrokeProportion p;
     monitorBreachAfterMove := monitorBreachAfterMove p |}.

Arguments set_targetMixCycles v !p /.

Definition set_rampSpeedVoltsPerSec (v : Q) (p : FluidicParams_t) : FluidicParams_t :=
  {| positionLimits := positionLimits p; eChannel := eChannel p;
     timeout_ms := timeout_ms p; mixFrequency_Hz := mixFrequency_Hz p;
     mixTimeout_ms := mixTimeout_ms p; targetMixCycles := targetMixCycles p;
     rampSpeedVoltsPerSec := v; mixTimeoutMax_ms := mixTimeoutMax_ms p;
     eMixEndPosition := eMixEndPosition p;
     hysterisisMultipliersVolts := hysterisisMultipliersVolts p;
     eOvershootCompensationType := eOvershootCompensationType p;
     compensationProportion := compensationProportion p;
     returnSpeedRedcutionFactor := returnSpeedRedcutionFactor p;
     eMixType := eMixType p;
     openLoopCompensationFactor := openLoopCompensationFactor p;
     mixDownstrokeProportion := mixDownstrokeProportion p;
     monitorBreachAfterMove := monitorBreachAfterMove p |}.

Arguments set_rampSpeedVoltsPerSec v !p /.

Definition set_eMixEndPosition (v : eFluidicPositions_t) (p : FluidicParams_t) : FluidicParams_t :=
  {| positionLimits := positionLimits p; eChannel := eChannel p;
     timeout_ms := timeout_ms p; mixFrequency_Hz := mixFrequency_Hz p;
     mixTimeout_ms := mixTimeout_ms p; targetMixCycles := targetMixCycles p;
     rampSpeedVoltsPerSec := rampSpeedVoltsPerSec p;
     mixTimeoutMax_ms := mixTimeoutMax_ms p; eMixEndPosition := v;
     hysterisisMultipliersVolts := hysterisisMultipliersVolts p;
     eOvershootCompensationType := eOvershootCompensationType p;
     compensationProportion := compensationProportion p;
     returnSpeedRedcutionFactor := returnSpeedRedcutionFactor p;
     eMixType := eMixType p;
     openLoopCompensationFactor := openLoopCompensationFactor p;
     mixDownstrokeProportion := mixDownstrokeProportion p;
     monitorBreachAfterMove := monitorBreachAfterMove p |}.

Arguments set_eMixEndPosition v !p /.

Definition set_eOvershootCompensationType (v : eFluidOvershootCompensation_t) (p : FluidicParams_t) : FluidicParams_t :=
  {| positionLimits := positionLimits p; eChannel := eChannel p;
     timeout_ms := timeout_ms p; mixFrequency_Hz := mixFrequency_Hz p;
     mixTimeout_ms := mixTimeout_ms p; targetMixCycles := targetMixCycles p;
     rampSpeedVoltsPerSec := rampSpeedVoltsPerSec p;
     mixTimeoutMax_ms := mixTimeoutMax_ms p;
     eMixEndPosition := eMixEndPosition p;
     hysterisisMultipliersVolts := hysterisisMultipliersVolts p;
     eOvershootCompensationType := v;
     compensationProportion := compensationProportion p;
     returnSpeedRedcutionFactor := returnSpeedRedcutionFactor p;
     eMixType := eMixType p;
     openLoopCompensationFactor := openLoopCompensationFactor p;
     mixDownstrokeProportion := mixDownstrokeProportion p;
     monitorBreachAfterMove := monitorBreachAfterMove p |}.

Arguments set_eOvershootCompensationType v !p /.

Definition set_compensationProportion (v : Q) (p : FluidicParams_t) : FluidicParams_t :=
  {| positionLimits := positionLimits p; eChannel := eChannel p;
     timeout_ms := timeout_ms p; mixFrequency_Hz := mixFrequency_Hz p;
     mixTimeout_ms := mixTimeout_ms p; targetMixCycles := targetMixCycles p;
     rampSpeedVoltsPerSec := rampSpeedVoltsPerSec p;
     mixTimeoutMax_ms := mixTimeoutMax_ms p;
     eMixEndPosition := eMixEndPosition p;
     hysterisisMultipliersVolts := hysterisisMultipliersVolts p;
     eOvershootCompensationType := eOvershootCompensationType p;
     compensationProportion := v;
     returnSpeedRedcutionFactor := returnSpeedRedcutionFactor p;
     eMixType := eMixType p;
     openLoopCompensationFactor := openLoopCompensationFactor p;
     mixDownstrokeProportion := mixDownstrokeProportion p;
     monitorBreachAfterMove := monitorBreachAfterMove p |}.

Arguments set_compensationProportion v !p /.

Definition set_eMixType (v : eFluidMixingType_t) (p : FluidicParams_t) : FluidicParams_t :=
  {| positionLimits := positionLimits p; eChannel := eChannel p;
     timeout_ms := timeout_ms p; mixFrequency_Hz := mixFrequency_Hz p;
     mixTimeout_ms := mixTimeout_ms p; targetMixCycles := targetMixCycles p;
     rampSpeedVoltsPerSec := rampSpeedVoltsPerSec p;
     mixTimeoutMax_ms := mixTimeoutMax_ms p;
     eMixEndPosition := eMixEndPosition p;
     hysterisisMultipliersVolts := hysterisisMultipliersVolts p;
     eOvershootCompensationType := eOvershootCompensationType p;
     compensationProportion := compensationProportion p;
     returnSpeedRedcutionFactor := returnSpeedRedcutionFactor p;
     eMixType := v;
     openLoopCompensationFactor := openLoopCompensationFactor p;
     mixDownstrokeProportion := mixDownstrokeProportion p;
     monitorBreachAfterMove := monitorBreachAfterMove p |}.

Arguments set_eMixType v !p /.

Definition set_openLoopCompensationFactor (v : Q) (p : FluidicParams_t) : FluidicParams_t :=
  {| positionLimits := positionLimits p; eChannel := eChannel p;
     timeout_ms := timeout_ms p; mixFrequency_Hz := mixFrequency_Hz p;
     mixTimeout_ms := mixTimeout_ms p; targetMixCycles := targetMixCycles p;
     rampSpeedVoltsPerSec := rampSpeedVoltsPerSec p;
     mixTimeoutMax_ms := mixTimeoutMax_ms p;
     eMixEndPosition := eMixEndPosition p;
     hysterisisMultipliersVolts := hysterisisMultipliersVolts p;
     eOvershootCompensationType := eOvershootCompensationType p;
     compensationProportion := compensationProportion p;
     returnSpeedRedcutionFactor := returnSpeedRedcutionFactor p;
     eMixType := eMixType p; openLoopCompensationFactor := v;
     mixDownstrokeProportion := mixDownstrokeProportion p;
     monitorBreachAfterMove := monitorBreachAfterMove p |}.

Arguments set_openLoopCompensationFactor v !p /.

Definition set_mixDownstrokeProportion (v : Q) (p : FluidicParams_t) : FluidicParams_t :=
  {| positionLimits := positionLimits p; eChannel := eChannel p;
     timeout_ms := timeout_ms p; mixFrequency_Hz := mixFrequency_Hz p;
     mixTimeout_ms := mixTimeout_ms p; targetMixCycles := targetMixCycles p;
     rampSpeedVoltsPerSec := rampSpeedVoltsPerSec p;
     mixTimeoutMax_ms := mixTimeoutMax_ms p;
     eMixEndPosition := eMixEndPosition p;
     hysterisisMultipliersVolts := hysterisisMultipliersVolts p;
     eOvershootCompensationType := eOvershootCompensationType p;
     compensationProportion := compensationProportion p;
     returnSpeedRedcutionFactor := returnSpeedRedcutionFactor p;
     eMixType := eMixType p;
     openLoopCompensationFactor := openLoopCompensationFactor p;
     mixDownstrokeProportion := v;
     monitorBreachAfterMove := monitorBreachAfterMove p |}.

Arguments set_mixDownstrokeProportion v !p /.

Definition set_monitorBreachAfterMove (v : bool) (p : FluidicParams_t) : FluidicParams_t :=
  {| positionLimits := positionLimits p; eChannel := eChannel p;
     timeout_ms := timeout_ms p; mixFrequency_Hz := mixFrequency_Hz p;
     mixTimeout_ms := mixTimeout_ms p; targetMixCycles := targetMixCycles p;
     rampSpeedVoltsPerSec := rampSpeedVoltsPerSec p;
     mixTimeoutMax_ms := mixTimeoutMax_ms p;
     eMixEndPosition := eMixEndPosition p;
     hysterisisMultipliersVolts := hysterisisMultipliersVolts p;
     eOvershootCompensationType := eOvershootCompensationType p;
     compensationProportion := compensationProportion p;
     returnSpeedRedcutionFactor := returnSpeedRedcutionFactor p;
     eMixType := eMixType p;
     openLoopCompensationFactor := openLoopCompensationFactor p;
     mixDownstrokeProportion := mixDownstrokeProportion p;
     monitorBreachAfterMove := v |}.

Arguments set_monitorBreachAfterMove v !p /.

(** The fluidic object (fluidics.h, Fluidic_tag).  [state] is the current leaf
    state kept by the framework base class, [errorCode] the error stored by
    X_TRAN_ERROR, [evQueue] the events posted to the object and not yet handled, oldest
    first, and [log] the outputs of the object, newest first. *)
Record Fluidic_t : Type := Build_Fluidic_t {
  state : LeafState;
  errorCode : eErrorCode;
  eLastKnownPos : eFluidicPositions_t;
  eTargetPos : eFluidicPositions_t;
  pParams : FluidicParams_t;
  timeoutTimer : Z;
  mixTimer : Z;
  status : FluididStatus_t;
  publishCompletionEvent : bool;
  chTargetPosReached : bool;
  liftUpBlddrMsg : FluidicMovePositionMsg_t;
  mixMsg : FluidicMixMsg_t;
  moveMsg : FluidicMovePositionMsg_t;
  evQueue : list XEvent;
  log : list Output
}.
Definition set_state (v : LeafState) (me : Fluidic_t) : Fluidic_t :=
  {| state := v; errorCode := errorCode me;
     eLastKnownPos := eLastKnownPos me; eTargetPos := eTargetPos me;
     pParams := pParams me; timeoutTimer := timeoutTimer me;
     mixTimer := mixTimer me; status := status me;
     publishCompletionEvent := publishCompletionEvent me;
     chTargetPosReached := chTargetPosReached me;
     liftUpBlddrMsg := liftUpBlddrMsg me; mixMsg := mixMsg me;
     moveMsg := moveMsg me; evQueue := evQueue me; log := log me |}.

Arguments set_state v !me /.

Definition set_errorCode (v : eErrorCode) (me : Fluidic_t) : Fluidic_t :=
  {| state := state me; errorCode := v; eLastKnownPos := eLastKnownPos me;
     eTargetPos := eTargetPos me; pParams := pParams me;
     timeoutTimer := timeoutTimer me; mixTimer := mixTimer me;
     status := status me;
     publishCompletionEvent := publishCompletionEvent me;
     chTargetPosReached := chTargetPosReached me;
     liftUpBlddrMsg := liftUpBlddrMsg me; mixMsg := mixMsg me;
     moveMsg := moveMsg me; evQueue := evQueue me; log := log me |}.

Arguments set_errorCode v !me /.

Definition set_eLastKnownPos (v : eFluidicPositions_t) (me : Fluidic_t) : Fluidic_t :=
  {| state := state me; errorCode := errorCode me; eLastKnownPos := v;
     eTargetPos := eTargetPos me; pParams := pParams me;
     timeoutTimer := timeoutTimer me; mixTimer := mixTimer me;
     status := status me;
     publishCompletionEvent := publishCompletionEvent me;
     chTargetPosReached := chTargetPosReached me;
     liftUpBlddrMsg := liftUpBlddrMsg me; mixMsg := mixMsg me;
     moveMsg := moveMsg me; evQueue := evQueue me; log := log me |}.

Arguments set_eLastKnownPos v !me /.

Definition set_eTargetPos (v : eFluidicPositions_t) (me : Fluidic_t) : Fluidic_t :=
  {| state := state me; errorCode := errorCode me;
     eLastKnownPos := eLastKnownPos me; eTargetPos := v;
     pParams := pParams me; timeoutTimer := timeoutTimer me;
     mixTimer := mixTimer me; status := status me;
     publishCompletionEvent := publishCompletionEvent me;
     chTargetPosReached := chTargetPosReached me;
     liftUpBlddrMsg := liftUpBlddrMsg me; mixMsg := mixMsg me;
     moveMsg := moveMsg me; evQueue := evQueue me; log := log me |}.

Arguments set_eTargetPos v !me /.

Definition set_pParams (v : FluidicParams_t) (me : Fluidic_t) : Fluidic_t :=
  {| state := state me; errorCode := errorCode me;
     eLastKnownPos := eLastKnownPos me; eTargetPos := eTargetPos me;
     pParams := v; timeoutTimer := timeoutTimer me; mixTimer := mixTimer me;
     status := status me;
     publishCompletionEvent := publishCompletionEvent me;
     chTargetPosReached := chTargetPosReached me;
     liftUpBlddrMsg := liftUpBlddrMsg me; mixMsg := mixMsg me;
     moveMsg := moveMsg me; evQueue := evQueue me; log := log me |}.

Arguments set_pParams v !me /.

Definition set_timeoutTimer (v : Z) (me : Fluidic_t) : Fluidic_t :=
  {| state := state me; errorCode := errorCode me;
     eLastKnownPos := eLastKnownPos me; eTargetPos := eTargetPos me;
     pParams := pParams me; timeoutTimer := v; mixTimer := mixTimer me;
     status := status me;
     publishCompletionEvent := publishCompletionEvent me;
     chTargetPosReached := chTargetPosReached me;
     liftUpBlddrMsg := liftUpBlddrMsg me; mixMsg := mixMsg me;
     moveMsg := moveMsg me; evQueue := evQueue me; log := log me |}.

Arguments set_timeoutTimer v !me /.

Definition set_mixTimer (v : Z) (me : Fluidic_t) : Fluidic_t :=
  {| state := state me; errorCode := errorCode me;
     eLastKnownPos := eLastKnownPos me; eTargetPos := eTargetPos me;
     pParams := pParams me; timeoutTimer := timeoutTimer me; mixTimer := v;
     status := status me;
     publishCompletionEvent := publishCompletionEvent me;
     chTargetPosReached := chTargetPosReached me;
     liftUpBlddrMsg := liftUpBlddrMsg me; mixMsg := mixMsg me;
     moveMsg := moveMsg me; evQueue := evQueue me; log := log me |}.

Arguments set_mixTimer v !me /.

Definition set_status (v : FluididStatus_t) (me : Fluidic_t) : Fluidic_t :=
  {| state := state me; errorCode := errorCode me;
     eLastKnownPos := eLastKnownPos me; eTargetPos := eTargetPos me;
     pParams := pParams me; timeoutTimer := timeoutTimer me;
     mixTimer := mixTimer me; status := v;
     publishCompletionEvent := publishCompletionEvent me;
     chTargetPosReached := chTargetPosReached me;
     liftUpBlddrMsg := liftUpBlddrMsg me; mixMsg := mixMsg me;
     moveMsg := moveMsg me; evQueue := evQueue me; log := log me |}.

Arguments set_status v !me /.

Definition set_publishCompletionEvent (v : bool) (me : Fluidic_t) : Fluidic_t :=
  {| state := state me; errorCode := errorCode me;
     eLastKnownPos := eLastKnownPos me; eTargetPos := eTargetPos me;
     pParams := pParams me; timeoutTimer := timeoutTimer me;
     mixTimer := mixTimer me; status := status me;
     publishCompletionEvent := v;
     chTargetPosReached := chTargetPosReached me;
     liftUpBlddrMsg := liftUpBlddrMsg me; mixMsg := mixMsg me;
     moveMsg := moveMsg me; evQueue := evQueue me; log := log me |}.

Arguments set_publishCompletionEvent v !me /.

Definition set_chTargetPosReached (v : bool) (me : Fluidic_t) : Fluidic_t :=
  {| state := state me; errorCode := errorCode me;
     eLastKnownPos := eLastKnownPos me; eTargetPos := eTargetPos me;
     pParams := pParams me; timeoutTimer := timeoutTimer me;
     mixTimer := mixTimer me; status := status me;
     publishCompletionEvent := publishCompletionEvent me;
     chTargetPosReached := v; liftUpBlddrMsg := liftUpBlddrMsg me;
     mixMsg := mixMsg me; moveMsg := moveMsg me; evQueue := evQueue me;
     log := log me |}.

Arguments set_chTargetPosReached v !me /.

Definition set_liftUpBlddrMsg (v : FluidicMovePositionMsg_t) (me : Fluidic_t) : Fluidic_t :=
  {| state := state me; errorCode := errorCode me;
     eLastKnownPos := eLastKnownPos me; eTargetPos := eTargetPos me;
     pParams := pParams me; timeoutTimer := timeoutTimer me;
     mixTimer := mixTimer me; status := status me;
     publishCompletionEvent := publishCompletionEvent me;
     chTargetPosReached := chTargetPosReached me; liftUpBlddrMsg := v;
     mixMsg := mixMsg me; moveMsg := moveMsg me; evQueue := evQueue me;
     log := log me |}.

Arguments set_liftUpBlddrMsg v !me /.

Definition set_mixMsg (v : FluidicMixMsg_t) (me : Fluidic_t) : Fluidic_t :=
  {| state := state me; errorCode := errorCode me;
     eLastKnownPos := eLastKnownPos me; eTargetPos := eTargetPos me;
     pParams := pParams me; timeoutTimer := timeoutTimer me;
     mixTimer := mixTimer me; status := status me;
     publishCompletionEvent := publishCompletionEvent me;
     chTargetPosReached := chTargetPosReached me;
     liftUpBlddrMsg := liftUpBlddrMsg me; mixMsg := v; moveMsg := moveMsg me;
     evQueue := evQueue me; log := log me |}.

Arguments set_mixMsg v !me /.

Definition set_moveMsg (v : FluidicMovePositionMsg_t) (me : Fluidic_t) : Fluidic_t :=
  {| state := state me; errorCode := errorCode me;
     eLastKnownPos := eLastKnownPos me; eTargetPos := eTargetPos me;
     pParams := pParams me; timeoutTimer := timeoutTimer me;
     mixTimer := mixTimer me; status := status me;
     publishCompletionEvent := publishCompletionEvent me;
     chTargetPosReached := chTargetPosReached me;
     liftUpBlddrMsg := liftUpBlddrMsg me; mixMsg := mixMsg me; moveMsg := v;
     evQueue := evQueue me; log := log me |}.

Arguments set_moveMsg v !me /.

Definition set_evQueue (v : list XEvent) (me : Fluidic_t) : Fluidic_t :=
  {| state := state me; errorCode := errorCode me;
     eLastKnownPos := eLastKnownPos me; eTargetPos := eTargetPos me;
     pParams := pParams me; timeoutTimer := timeoutTimer me;
     mixTimer := mixTimer me; status := status me;
     publishCompletionEvent := publishCompletionEvent me;
     chTargetPosReached := chTargetPosReached me;
     liftUpBlddrMsg := liftUpBlddrMsg me; mixMsg := mixMsg me;
     moveMsg := moveMsg me; evQueue := v; log := log me |}.

Arguments set_evQueue v !me /.

Definition set_log (v : list Output) (me : Fluidic_t) : Fluidic_t :=
  {| state := state me; errorCode := errorCode me;
     eLastKnownPos := eLastKnownPos me; eTargetPos := eTargetPos me;
     pParams := pParams me; timeoutTimer := timeoutTimer me;
     mixTimer := mixTimer me; status := status me;
     publishCompletionEvent := publishCompletionEvent me;
     chTargetPosReached := chTargetPosReached me;
     liftUpBlddrMsg := liftUpBlddrMsg me; mixMsg := mixMsg me;
     moveMsg := moveMsg me; evQueue := evQueue me; log := v |}.

Arguments set_log v !me /.

Definition set_targetVolts (v : Q) (l : FluidicPositionLimits_t)
  : FluidicPositionLimits_t :=
  {| targetVolts := v; posHysterisis := posHysterisis l;
     echemRequirements := echemRequirements l |}.

Arguments set_targetVolts v !l /.

Definition set_posHysterisis (v : Q) (l : FluidicPositionLimits_t)
  : FluidicPositionLimits_t :=
  {| targetVolts := targetVolts l; posHysterisis := v;
     echemRequirements := echemRequirements l |}.

Arguments set_posHysterisis v !l /.

(** The table [positionLimits] after an assignment to the cell of [p].  The
    array of the source has the [BC_VALID_POS_COUNT] cells of the positions in
    [posInTable].  The function has a value at the two sentinels as well: it
    stands for whatever the source finds in memory behind the array, of
    which nothing is known, so that a property that depends on the contents
    of a cell is stated for the positions of the table. *)
Definition upd_limits (p : eFluidicPositions_t)
    (f : FluidicPositionLimits_t -> FluidicPositionLimits_t)
    (tbl : eFluidicPositions_t -> FluidicPositionLimits_t)
  : eFluidicPositions_t -> FluidicPositionLimits_t :=
  fun q => if pos_eqb p q then f (tbl q) else tbl q.

(** ** A state monad over the object *)

Definition M (A : Type) : Type := Fluidic_t -> A * Fluidic_t.

Definition ret {A : Type} (a : A) : M A := fun me => (a, me).

Definition bind {A B : Type} (c : M A) (k : A -> M B) : M B :=
  fun me => let (a, me') := c me in k a me'.

Declare Scope fl_scope.
Delimit Scope fl_scope with fl.
Notation "x <- c ;; k" := (bind c (fun x => k))
  (at level 61, c at next level, right associativity) : fl_scope.
Notation "c ;; k" := (bind c (fun _ => k))
  (at level 61, right associativity) : fl_scope.
Local Open Scope fl_scope.

Definition get : M Fluidic_t := fun me => (me, me).
Definition gets {A : Type} (f : Fluidic_t -> A) : M A := fun me => (f me, me).
Definition modify (f : Fluidic_t -> Fluidic_t) : M unit := fun me => (tt, f me).
Definition when (b : bool) (c : M unit) : M unit := if b then c else ret tt.

Definition modify_params (f : FluidicParams_t -> FluidicParams_t) : M unit :=
  modify (fun me => set_pParams (f (pParams me)) me).

Definition modify_status (f : FluididStatus_t -> FluididStatus_t) : M unit :=
  modify (fun me => set_status (f (status me)) me).

Definition emit (o : Output) : M unit :=
  modify (fun me => set_log (o :: log me) me).

(** An assignment [me->pParams->positionLimits[p].member = v].  With an index
    outside the table the source writes to other memory: the model records
    the event, and from then on the object of the model tells what the code
    has done up to the store, not the state of the memory after it. *)
Definition modify_limits (p : eFluidicPositions_t)
    (f : FluidicPositionLimits_t -> FluidicPositionLimits_t) : M unit :=
  when (negb (posInTable p)) (emit (OutOfTableStore p)) ;;
  modify_params (fun ps => set_positionLimits (upd_limits p f (positionLimits ps)) ps).

Arguments ret {A} a me /.
Arguments bind {A B} c k me /.
Arguments get me /.
Arguments gets {A} f me /.
Arguments modify f me /.
Arguments modify_params f me /.
Arguments modify_status f me /.
Arguments emit o me /.
Arguments modify_limits p f me /.

(** Result and final object of a computation. *)
Definition exec {A : Type} (c : M A) (me : Fluidic_t) : Fluidic_t := snd (c me).
Definition eval {A : Type} (c : M A) (me : Fluidic_t) : A := fst (c me).

(** ** The framework *)

(** Modelled from the spec: the XActive framework (xActive.h) is not among
    the sources.  A transition macro stores the target as the current state
    and yields the transition code, so that a later [XFSM_IS_STATE] in the
    same handler sees a transition to the error state already under way;
    [X_TRAN_ERROR] also stores the error code; the dispatcher ([XDispatch]
    below) sends the exit event to the source and the entry event to the
    target. *)
Definition X_TRAN (target : LeafState) : M XState :=
  modify (set_state target) ;; ret X_RET_TRAN.

Definition X_TRAN_ERROR (target : LeafState) (err : eErrorCode) : M XState :=
  modify (set_errorCode err) ;; X_TRAN target.

Definition XFSM_IS_STATE (s : LeafState) : M bool :=
  gets (fun me => leaf_eqb (state me) s).

Definition X_PUBLISH (msg : Published) : M unit := emit (OutPublish msg).
Definition XTimerStart : M unit := emit OutTimerStart.
Definition XTimerStop : M unit := emit OutTimerStop.
Definition ERROR_CHECK (err : eErrorCode) : M unit := emit (OutErrorCheck err).

Definition XActivePost (ev : XEvent) : M unit :=
  modify (fun me => set_evQueue (evQueue me ++ [ev]) me).

Arguments X_TRAN target me /.
Arguments X_TRAN_ERROR target err me /.
Arguments XFSM_IS_STATE s me /.
Arguments X_PUBLISH msg me /.
Arguments XTimerStart me /.
Arguments XTimerStop me /.
Arguments ERROR_CHECK err me /.
Arguments XActivePost ev me /.

(** ** Helpers of fluidics.c *)

Section Handlers.

Context {pc : PiezoConsts}.
Variable d : Drivers.

(** fluidics.h: high speed moves use the maximum ramp rate. *)
Definition FLUID_SPEED_HIGH_DEFAULT_V_PER_S : Q := PIEZO_RAMP_MAX.

(** Calls into the piezo and electrochemistry objects. *)
Definition piezoVoltageSet (p : peizoMoveParams_t) : M eErrorCode :=
  emit (OutPiezoVoltageSet p) ;; ret (r_piezoVoltageSet d p).

Definition piezoStop : M eErrorCode := emit OutPiezoStop ;; ret (r_piezoStop d).
Definition piezoHome : M eErrorCode := emit OutPiezoHome ;; ret (r_piezoHome d).
Definition piezoVoltageGet : M Q := ret (currentVoltage d).

Definition ecDisable (ch : eElectrochemicalChannel) : M eErrorCode :=
  emit (OutEcDisable ch) ;; ret (r_ecDisable d ch).

Definition ecSetModeFillDetect (ch : eElectrochemicalChannel)
    (minimumPosition : eElectrochemicalChannelPos) : M eErrorCode :=
  emit (OutEcSetModeFillDetect ch minimumPosition) ;;
  ret (r_ecSetModeFillDetect d ch minimumPosition).

Definition ecGetFluidPosition (ch : eElectrochemicalChannel)
  : M eEcFluidDetectPosition_t := ret (r_ecGetFluidPosition d ch).

Definition FluidicSetCurrentAndTargetPositions
    (eCurrent eTarget : eFluidicPositions_t) : M unit :=
  modify (set_eLastKnownPos eCurrent) ;;
  modify (set_eTargetPos eTarget).

(** fluidics.c, bladderControlCheckValidPosChange. *)
Definition bladderControlCheckValidPosChange
    (eCurrentPos eTargetPos : eFluidicPositions_t) : bool :=
  if pos_eqb eCurrentPos BC_NONE || pos_eqb eCurrentPos BC_POS_UNKNOWN then
    if negb (pos_eqb eTargetPos BC_POS_HOME) then false else true
  else if pos_eqb eCurrentPos BC_POS_HOME then
    if pos_eqb eTargetPos BC_POS_DOWN || pos_eqb eTargetPos BC_POS_HOME
    then true else false
  else
    if negb (pos_eqb eTargetPos BC_POS_UNKNOWN) && negb (pos_eqb eTargetPos BC_NONE)
    then true else false.

(** fluidics.c, bladderControlCheckMoveValid. *)
Definition bladderControlCheckMoveValid (me : Fluidic_t)
    (eTargetPos : eFluidicPositions_t) : bool :=
  let eCurrentPos := eLastKnownPos me in
  if pos_eqb BC_POS_HOME eTargetPos then true
  else bladderControlCheckValidPosChange eCurrentPos eTargetPos.

(** fluidics.c, FluidCheckMoveParams; the timeout is not looked at. *)
Definition FluidCheckMoveParams (me : Fluidic_t)
    (eTarget : eFluidicPositions_t) (rampSpeedVoltsPerSec : Q) (timeout_ms : Z)
    (eOvershootCompMode : eFluidOvershootCompensation_t)
    (compensationProportion : Q) : eErrorCode :=
  let moveValid := bladderControlCheckMoveValid me eTarget in
  let error := OK_STATUS in
  if moveValid then
    let error :=
      if Qgtb rampSpeedVoltsPerSec PIEZO_RAMP_MAX then ERROR_FLUID_SPEED else error in
    let error :=
      if compIndex FLUID_OVERSHOOT_COMP_NUM <=? compIndex eOvershootCompMode
      then ERROR_BAD_ARGS else error in
    let error :=
      if Qgtb compensationProportion FLUIDIC_MAX_COMPENSATION_FACTOR
      then ERROR_BAD_ARGS else error in
    error
  else ERROR_FLUID_CHANNEL_INVALID_MOVE.

(** fluidics.c, isFrequencyOk. *)
Definition isFrequencyOk (me : Fluidic_t) (eTargetPos : eFluidicPositions_t)
    (mixFrequency_Hz : Q) : bool :=
  let eLastPos := eLastKnownPos me in
  let targetPosVoltage := targetVolts (positionLimits (pParams me) eTargetPos) in
  let currentPosVoltage := targetVolts (positionLimits (pParams me) eLastPos) in
  let rampRateForMix :=
    f32_mul (Qabs (f32_sub currentPosVoltage targetPosVoltage)) mixFrequency_Hz in
  if Qgeb rampRateForMix (maxRampRate d) then false
  else if Qeq_bool mixFrequency_Hz 0 then false
  else true.

(** fluidics.c, isMixTimeoutOk. *)
Definition isMixTimeoutOk (me : Fluidic_t) (mixTimeout_ms : Z) : bool :=
  if mixTimeoutMax_ms (pParams me) <? mixTimeout_ms then false
  else if mixTimeout_ms =? 0 then false
  else true.

(** fluidics.c, isMixPositionOk. *)
Definition isMixPositionOk (me : Fluidic_t) (eTargetPos : eFluidicPositions_t)
  : bool :=
  let eLastPosition := eLastKnownPos me in
  if pos_geb eTargetPos eLastPosition || pos_eqb BC_POS_HOME eTargetPos then false
  else if pos_eqb BC_POS_UNKNOWN eTargetPos || pos_eqb BC_NONE eTargetPos then false
  else true.

(** fluidics.c, FluidCheckMixParams. *)
Definition FluidCheckMixParams (me : Fluidic_t)
    (eTarget : eFluidicPositions_t) (mixFrequency_Hz : Q) (mixTimeout_ms : Z)
    (numCycles : Z) (eMixType : eFluidMixingType_t)
    (openLoopCompensationFactor mixDownstrokeProportion : Q) : eErrorCode :=
  let error := ERROR_BAD_ARGS in
  let freqOk := isFrequencyOk me eTarget mixFrequency_Hz in
  let posOk := isMixPositionOk me eTarget in
  let timeoutOk := isMixTimeoutOk me mixTimeout_ms in
  let error :=
    if freqOk && posOk && timeoutOk then
      if negb (mix_eqb eMixType FLUID_MIX_DUAL_POINT_LOOP) then
        if Qgtb mixDownstrokeProportion 0 then OK_STATUS else error
      else OK_STATUS
    else error in
  if negb posOk then ERROR_FLUID_CHANNEL_INVALID_MOVE else error.

(** fluidics.c, FluidicStateCanAcceptCommand. *)
Definition FluidicStateCanAcceptCommand (me : Fluidic_t) : bool :=
  leaf_eqb (state me) S_Idle || leaf_eqb (state me) S_MonitorFluidBreach.

(** fluidics.c, FluidicsErrorSet. *)
Definition FluidicsErrorSet (err : eErrorCode) (retCode : XState) : M XState :=
  if negb (is_OK_STATUS err) then
    ERROR_CHECK err ;;
    inErr <- XFSM_IS_STATE S_Err ;;
    if FLUIDIC_CIRITICAL_ERR err && negb inErr
    then X_TRAN_ERROR S_Err err
    else ret retCode
  else ret retCode.

Definition FluidicStopMove : M eErrorCode := piezoStop.

(** fluidics.c, FluidicHomeMoveBegin. *)
Definition FluidicHomeMoveBegin : M eErrorCode :=
  modify_limits BC_POS_FLUID_A (set_targetVolts FLUIDIC_MAX_VOLTS_BEFORE_LIFT) ;;
  modify_limits BC_POS_FLUID_B (set_targetVolts FLUIDIC_MAX_VOLTS_BEFORE_LIFT) ;;
  modify_limits BC_POS_FLUID_C (set_targetVolts FLUIDIC_MAX_VOLTS_BEFORE_LIFT) ;;
  piezoHome.

(** fluidics.c, FluidicOnMoveCompleteMsg.  The publication is unconditional:
    [publishCompletionEvent] is written here and never read. *)
Definition FluidicOnMoveCompleteMsg : M unit :=
  tgt <- gets eTargetPos ;;
  FluidicSetCurrentAndTargetPositions tgt BC_NONE ;;
  me <- get ;;
  volts <- piezoVoltageGet ;;
  X_PUBLISH (Pub_moveSuccessMsg (eChannel (pParams me)) (eLastKnownPos me)
               (timeoutTimer me) volts) ;;
  modify (set_publishCompletionEvent true).

(** fluidics.c, FluidicOnMoveFailMsg. *)
Definition FluidicOnMoveFailMsg (pos : eFluidicPositions_t) (eError : eErrorCode)
  : M unit :=
  ch <- gets (fun me => eChannel (pParams me)) ;;
  X_PUBLISH (Pub_moveFailMsg ch pos) ;;
  X_PUBLISH (Pub_cmdFail eError).

(** fluidics.c, FluidicOnMixComplete. *)
Definition FluidicOnMixComplete : M unit :=
  modify (set_mixTimer 0) ;;
  modify_status (set_mixComplete true) ;;
  me <- get ;;
  FluidicSetCurrentAndTargetPositions (eTargetPos me) (eMixEndPosition (pParams me)) ;;
  X_PUBLISH (Pub_mixCmpltMsg (eChannel (pParams me)) (eMixEndPosition (pParams me))).

(** fluidics.c, fluidGetEchemRequirement. *)
Definition fluidGetEchemRequirement (me : Fluidic_t) (isMoving : bool)
  : eEcFluidDetectPosition_t :=
  let ePosition := if isMoving then eTargetPos me else eLastKnownPos me in
  let eDirection :=
    if isMoving then
      if dir_eqb (eMoveDirection (status me)) FLUID_MOVE_REV
      then FLUID_MOVE_REV else FLUID_MOVE_FWD
    else FLUID_MOVE_FWD in
  echemRequirements (positionLimits (pParams me) ePosition) eDirection.

(** fluidics.c, FluidOnPiezoStop and FluidOnPiezoMoveComplete. *)
Definition FluidOnPiezoStop (chan : Z) (volts : Q) : M eErrorCode :=
  when (chan =? piezoChan d) (modify_status (set_piezoVoltage volts)) ;;
  ret OK_STATUS.

Definition FluidOnPiezoMoveComplete (chan : Z) (volts : Q) : M eErrorCode :=
  when (chan =? piezoChan d) (modify_status (set_piezoVoltage volts)) ;;
  ret OK_STATUS.

(** fluidics.c, FluidOnEchemStatusChange. *)
Definition FluidOnEchemStatusChange
    (fluidPositions : eElectrochemicalChannel -> eEcFluidDetectPosition_t)
  : M eErrorCode :=
  ch <- gets (fun me => eChannel (pParams me)) ;;
  modify_status (set_eFluidFrontPosition (fluidPositions ch)) ;;
  ret OK_STATUS.

(** fluidics.c, FluidicBeginPiezoMoveToTarget. *)
Definition FluidicBeginPiezoMoveToTarget : M eErrorCode :=
  me <- get ;;
  let eTarget := eTargetPos me in
  let lim := positionLimits (pParams me) eTarget in
  let volts :=
    if dir_eqb (eMoveDirection (status me)) FLUID_MOVE_REV
    then PIEZO_MIN_VOLTAGE
    else f32_add (targetVolts lim) (posHysterisis lim) in
  piezoVoltageSet {| targetVoltage := volts;
                     rampSpeed := rampSpeedVoltsPerSec (pParams me);
                     publishCompletion := false |}.

(** fluidics.c, FluidicBeginPiezoMoveToLift. *)
Definition FluidicBeginPiezoMoveToLift : M eErrorCode :=
  me <- get ;;
  let eTarget := eTargetPos me in
  let lim := positionLimits (pParams me) eTarget in
  piezoVoltageSet {| targetVoltage := f32_add PIEZO_RAMP_MAX (posHysterisis lim);
                     rampSpeed := rampSpeedVoltsPerSec (pParams me);
                     publishCompletion := false |}.

(** fluidics.c, fluidicMixingCalculaterampSpeedVoltsPerSec. *)
Definition fluidicMixingCalculaterampSpeedVoltsPerSec (startVolts endVolts : Q)
  : M unit :=
  modify_params (fun ps =>
    set_rampSpeedVoltsPerSec
      (f32_mul (f32_mul (Qabs (f32_sub startVolts endVolts)) 2) (mixFrequency_Hz ps))
      ps).

(** fluidics.c, AdjustHysterisisVoltage. *)
Definition AdjustHysterisisVoltage (multiplierType : eFluidicHysterisisChangeType_t)
  : M unit :=
  me <- get ;;
  let hystVoltage := posHysterisis (positionLimits (pParams me) (eTargetPos me)) in
  let hystVoltage :=
    f32_mul hystVoltage (hysterisisMultipliersVolts (pParams me) multiplierType) in
  let hystVoltage :=
    if Qltb FLUIDIC_HYSETRISIS_MAX hystVoltage then FLUIDIC_HYSETRISIS_MAX
    else if Qgtb FLUIDIC_HYSETRISIS_MIN hystVoltage then FLUIDIC_HYSETRISIS_MIN
    else hystVoltage in
  modify_limits (eTargetPos me) (set_posHysterisis hystVoltage).

(** fluidics.c, FluidicMixCalculateDownStrokeMixProportion. *)
Definition FluidicMixCalculateDownStrokeMixProportion (me : Fluidic_t) : Q :=
  let endVolts := targetVolts (positionLimits (pParams me) (eTargetPos me)) in
  let startVolts := piezoVoltage (status me) in
  let endVolts := f32_sub startVolts endVolts in
  let endVolts := f32_mul endVolts (mixDownstrokeProportion (pParams me)) in
  let endVolts := f32_sub startVolts endVolts in
  endVolts.

(** fluidics.c, FluidMixOnStageComplete. *)
Definition FluidMixOnStageComplete : M XState :=
  modify_status (fun st =>
    set_mixingStagesCompleted (wrap32 (mixingStagesCompleted st + 1)) st) ;;
  me <- get ;;
  if targetMixCycles (pParams me)
       <=? mixingStagesCompleted (status me) / FLUID_NUM_MIXING_STAGES_PER_CYCLE
  then
    FluidicOnMixComplete ;;
    X_TRAN S_Idle
  else
    X_TRAN S_MixWaitContinue.

(** fluidics.c, FluidMixMovementContinue. *)
Definition FluidMixMovementContinue : M XState :=
  me <- get ;;
  FluidicSetCurrentAndTargetPositions (eTargetPos me) (eLastKnownPos me) ;;
  (if dir_eqb (eMoveDirection (status me)) FLUID_MOVE_REV
   then modify_status (set_eMoveDirection FLUID_MOVE_FWD)
   else modify_status (set_eMoveDirection FLUID_MOVE_REV)) ;;
  me <- get ;;
  if mix_eqb (eMixType (pParams me)) FLUID_MIX_DUAL_POINT_LOOP then
    X_TRAN S_MixContactControlled
  else if mix_eqb (eMixType (pParams me)) FLUID_MIX_SINGLE_POINT_LOOP then
    if dir_eqb (eMoveDirection (status me)) FLUID_MOVE_FWD
    then X_TRAN S_MixContactControlled
    else X_TRAN S_MixPiezoControlled
  else
    X_TRAN S_MixPiezoControlled.

(** fluidics.c, FluidicMixContactControlled_OnEntry. *)
Definition FluidicMixContactControlled_OnEntry : M eErrorCode :=
  me <- get ;;
  let ps := pParams me in
  let rev := dir_eqb (eMoveDirection (status me)) FLUID_MOVE_REV in
  volts <- piezoVoltageGet ;;
  let '(startVolts, endVolts) :=
    if mix_eqb (eMixType ps) FLUID_MIX_DUAL_POINT_LOOP then
      let startVolts := targetVolts (positionLimits ps (eLastKnownPos me)) in
      let endVolts := targetVolts (positionLimits ps (eTargetPos me)) in
      if rev
      then (startVolts, f32_sub endVolts (posHysterisis (positionLimits ps (eTargetPos me))))
      else (startVolts, f32_add endVolts (posHysterisis (positionLimits ps (eTargetPos me))))
    else
      if rev
      then (targetVolts (positionLimits ps (eLastKnownPos me)),
            FluidicMixCalculateDownStrokeMixProportion me)
      else (volts,
            f32_add (targetVolts (positionLimits ps (eTargetPos me)))
                    (posHysterisis (positionLimits ps (eTargetPos me)))) in
  XTimerStart ;;
  fluidicMixingCalculaterampSpeedVoltsPerSec startVolts endVolts ;;
  error <- ecSetModeFillDetect (eChannel ps) EC_CHAN_POS_A ;;
  if is_OK_STATUS error then FluidicBeginPiezoMoveToTarget else ret error.

(** fluidics.c, FluidicMixPiezoControlled_OnEntry. *)
Definition FluidicMixPiezoControlled_OnEntry : M eErrorCode :=
  me <- get ;;
  let startVolts := piezoVoltage (status me) in
  let endVolts :=
    if dir_eqb (eMoveDirection (status me)) FLUID_MOVE_REV then
      let endVolts := FluidicMixCalculateDownStrokeMixProportion me in
      if (mixingStagesCompleted (status me) =? 1)
         && mix_eqb (eMixType (pParams me)) FLUID_MIX_OPEN_LOOP
      then f32_sub endVolts (f32_mul endVolts (openLoopCompensationFactor (pParams me)))
      else endVolts
    else targetVolts (positionLimits (pParams me) (eTargetPos me)) in
  XTimerStart ;;
  fluidicMixingCalculaterampSpeedVoltsPerSec startVolts endVolts ;;
  ramp <- gets (fun me => rampSpeedVoltsPerSec (pParams me)) ;;
  piezoVoltageSet {| targetVoltage := endVolts; rampSpeed := ramp;
                     publishCompletion := false |}.

(** fluidics.c, FluidicMixContactControlled_OnTick. *)
Definition FluidicMixContactControlled_OnTick : M XState :=
  eTargetFrontPosition <- gets (fun me => fluidGetEchemRequirement me true) ;;
  modify (fun me => set_mixTimer (wrap32 (mixTimer me + FLUIDIC_TIMER_COUNT_MS)) me) ;;
  me <- get ;;
  r <- (if mixTimeout_ms (pParams me) <=? mixTimer me then
          FluidicOnMoveFailMsg (eTargetPos me) ERROR_DXRUNNER_FMIX_TIMEOUT ;;
          modify (set_eTargetPos (eMixEndPosition (pParams me))) ;;
          retCode <- X_TRAN S_MoveContact ;;
          ret (retCode, false)
        else
          let front := eFluidFrontPosition (status me) in
          let dir := eMoveDirection (status me) in
          if fd_leb eTargetFrontPosition front && dir_eqb dir FLUID_MOVE_FWD
          then ret (X_RET_HANDLED, true)
          else if fd_leb front eTargetFrontPosition && dir_eqb dir FLUID_MOVE_REV
          then ret (X_RET_HANDLED, true)
          else ret (X_RET_HANDLED, false)) ;;
  let '(retCode, fluidInCorrectPos) := r in
  retCode <- (if fluidInCorrectPos then
                volts <- piezoVoltageGet ;;
                tgt <- gets eTargetPos ;;
                modify_limits tgt (set_targetVolts volts) ;;
                AdjustHysterisisVoltage FLUID_HYST_DEC ;;
                FluidMixOnStageComplete
              else ret retCode) ;;
  FluidicsErrorSet OK_STATUS retCode.

(** fluidics.c, FluidicMoveContact_OnTick. *)
Definition FluidicMoveContact_OnTick : M XState :=
  me <- get ;;
  let eRequirement := fluidGetEchemRequirement me true in
  let eFluidFrontPos := eFluidFrontPosition (status me) in
  r <- (if (fdIndex eFluidFrontPos <? fdIndex FLUID_DETECTED)
           || (FLD_POS_NUM <=? fdIndex eFluidFrontPos) then
          FluidicOnMoveFailMsg (eTargetPos me) ERROR_FLUIDIC_UNKNOWN_MSG_FROM_EC ;;
          retCode <- X_TRAN S_Idle ;;
          ret (OK_STATUS, retCode)
        else if fd_eqb eRequirement eFluidFrontPos then
          error <- FluidicStopMove ;;
          retCode <- X_TRAN S_WaitForPiezoStop ;;
          ret (error, retCode)
        else ret (OK_STATUS, X_RET_HANDLED)) ;;
  let '(error, retCode) := r in
  modify (fun me => set_timeoutTimer (wrap32 (timeoutTimer me + FLUIDIC_TIMER_COUNT_MS)) me) ;;
  me <- get ;;
  retCode <- (if timeout_ms (pParams me) <=? timeoutTimer me then
                FluidicOnMoveFailMsg (eTargetPos me) ERROR_DXRUNNER_FMOV_TIMEOUT ;;
                X_TRAN S_Idle
              else ret retCode) ;;
  FluidicsErrorSet error retCode.

(** fluidics.c, Fluidic_OnIdleEntry. *)
Definition Fluidic_OnIdleEntry : M eErrorCode :=
  ch <- gets (fun me => eChannel (pParams me)) ;;
  error <- ecDisable ch ;;
  XTimerStop ;;
  error <- (if is_OK_STATUS error then FluidicStopMove else ret error) ;;
  modify_status (set_eFluidFrontPosition FD_DATA_INVALID) ;;
  modify_status (set_eMoveDirection FLUID_MOVE_FWD) ;;
  last <- gets eLastKnownPos ;;
  FluidicSetCurrentAndTargetPositions last BC_NONE ;;
  ret error.

(** fluidics.c, Fluidic_OnErrorStateEntry. *)
Definition Fluidic_OnErrorStateEntry : M unit :=
  ch <- gets (fun me => eChannel (pParams me)) ;;
  error <- ecDisable ch ;;
  ERROR_CHECK error ;;
  error <- FluidicStopMove ;;
  ERROR_CHECK error ;;
  modify_status (set_eFluidFrontPosition FD_DATA_INVALID) ;;
  FluidicSetCurrentAndTargetPositions BC_POS_UNKNOWN BC_NONE ;;
  code <- gets errorCode ;;
  X_PUBLISH (Pub_errorMsg code).

(** fluidics.c, OnFluidMoveContact_Entry. *)
Definition OnFluidMoveContact_Entry : M eErrorCode :=
  ch <- gets (fun me => eChannel (pParams me)) ;;
  XTimerStart ;;
  eTarget <- gets eTargetPos ;;
  modify (set_timeoutTimer 0) ;;
  error <- ecSetModeFillDetect ch EC_CHAN_POS_A ;;
  if is_OK_STATUS error then FluidicBeginPiezoMoveToTarget
  else FluidicOnMoveFailMsg eTarget error ;; ret error.

(** fluidics.c, OnFluidMoveOther_Entry. *)
Definition OnFluidMoveOther_Entry : M eErrorCode :=
  modify (set_timeoutTimer 0) ;;
  XTimerStart ;;
  me <- get ;;
  if pos_eqb (eTargetPos me) BC_POS_HOME then FluidicHomeMoveBegin
  else
    err <- ecDisable (eChannel (pParams me)) ;;
    err <- (if is_OK_STATUS err then
              err <- FluidicBeginPiezoMoveToTarget ;;
              ret (if is_OK_COMMAND_ACCEPTED err then OK_STATUS else err)
            else ret err) ;;
    if negb (is_OK_STATUS err)
    then FluidicOnMoveFailMsg (eTargetPos me) err ;; ret err
    else ret OK_STATUS.

(** fluidics.c, OnLiftUpBladders_Entry. *)
Definition OnLiftUpBladders_Entry : M eErrorCode :=
  modify (set_timeoutTimer 0) ;;
  XTimerStart ;;
  err <- FluidicBeginPiezoMoveToLift ;;
  tgt <- gets eTargetPos ;;
  when (negb (is_OK_COMMAND_ACCEPTED err)) (FluidicOnMoveFailMsg tgt err) ;;
  ret err.

(** fluidics.c, OnMsgBladderControlMoveToPos. *)
Definition OnMsgBladderControlMoveToPos (pBCMsg : FluidicMovePositionMsg_t)
  : M XState :=
  me <- get ;;
  if pos_eqb BC_POS_HOME (mv_eTargetPos pBCMsg) then
    modify (set_eTargetPos (mv_eTargetPos pBCMsg)) ;;
    modify_params (set_rampSpeedVoltsPerSec FLUID_SPEED_HIGH_DEFAULT_V_PER_S) ;;
    modify_params (set_timeout_ms 1000) ;;
    modify_params (set_compensationProportion 0) ;;
    modify_params (set_eOvershootCompensationType FLUID_OVERSHOOT_COMP_NONE) ;;
    X_TRAN S_MoveOther
  else if is_OK_STATUS
            (FluidCheckMoveParams me (mv_eTargetPos pBCMsg)
               (mv_rampSpeedVoltsPerSec pBCMsg) (mv_timeout_ms pBCMsg)
               (mv_eOvershootComp pBCMsg) (mv_overshootCompProportion pBCMsg))
  then
    modify (set_eTargetPos (mv_eTargetPos pBCMsg)) ;;
    modify_params (set_rampSpeedVoltsPerSec (mv_rampSpeedVoltsPerSec pBCMsg)) ;;
    modify_params (set_timeout_ms (mv_timeout_ms pBCMsg)) ;;
    modify_params (set_compensationProportion (mv_overshootCompProportion pBCMsg)) ;;
    modify_params (set_eOvershootCompensationType (mv_eOvershootComp pBCMsg)) ;;
    when (pos_geb (eLastKnownPos me) (mv_eTargetPos pBCMsg))
         (modify_status (set_eMoveDirection FLUID_MOVE_REV)) ;;
    X_TRAN S_CheckForStrip
  else
    FluidicOnMoveFailMsg (mv_eTargetPos pBCMsg) ERROR_FLUID_CHANNEL_INVALID_MOVE ;;
    ret X_RET_IGNORED.

(** fluidics.c, OnMsgLiftUpBladders. *)
Definition OnMsgLiftUpBladders (pBCMsg : FluidicMovePositionMsg_t) : M XState :=
  me <- get ;;
  if is_OK_STATUS
       (FluidCheckMoveParams me (mv_eTargetPos pBCMsg)
          (mv_rampSpeedVoltsPerSec pBCMsg) (mv_timeout_ms pBCMsg)
          (mv_eOvershootComp pBCMsg) (mv_overshootCompProportion pBCMsg))
  then
    modify (set_eTargetPos (mv_eTargetPos pBCMsg)) ;;
    modify_params (set_rampSpeedVoltsPerSec (mv_rampSpeedVoltsPerSec pBCMsg)) ;;
    modify_params (set_timeout_ms (mv_timeout_ms pBCMsg)) ;;
    modify_params (set_compensationProportion (mv_overshootCompProportion pBCMsg)) ;;
    modify_params (set_eOvershootCompensationType (mv_eOvershootComp pBCMsg)) ;;
    when (pos_geb (eLastKnownPos me) (mv_eTargetPos pBCMsg))
         (modify_status (set_eMoveDirection FLUID_MOVE_REV)) ;;
    X_TRAN S_LiftUpBladder
  else ret X_RET_IGNORED.

(** fluidics.c, OnMsgBladderControlMix. *)
Definition OnMsgBladderControlMix (pBCMsg : FluidicMixMsg_t) : M XState :=
  me <- get ;;
  if is_OK_STATUS
       (FluidCheckMixParams me (mx_eTargetPos pBCMsg) (mx_mixFrequency pBCMsg)
          (mx_mixTime pBCMsg) (mx_mixCycles pBCMsg) (mx_eMixType pBCMsg)
          (mx_openLoopCompensationFactor pBCMsg)
          (mx_mixDownstrokeProportion pBCMsg))
  then
    modify_params (set_mixFrequency_Hz (mx_mixFrequency pBCMsg)) ;;
    modify (set_eTargetPos (mx_eTargetPos pBCMsg)) ;;
    modify_params (set_mixTimeout_ms (mx_mixTime pBCMsg)) ;;
    modify_params (set_targetMixCycles (mx_mixCycles pBCMsg)) ;;
    modify_params (set_eMixType (mx_eMixType pBCMsg)) ;;
    modify_params (set_mixDownstrokeProportion (mx_mixDownstrokeProportion pBCMsg)) ;;
    modify_params (set_openLoopCompensationFactor (mx_openLoopCompensationFactor pBCMsg)) ;;
    modify_status (set_eMoveDirection FLUID_MOVE_REV) ;;
    modify_params (set_eMixEndPosition (eLastKnownPos me)) ;;
    modify_status (set_mixingStagesCompleted 0) ;;
    modify (set_mixTimer 0) ;;
    if mix_eqb (mx_eMixType pBCMsg) FLUID_MIX_DUAL_POINT_LOOP
    then X_TRAN S_MixContactControlled
    else X_TRAN S_MixPiezoControlled
  else ret X_RET_IGNORED.

(** fluidics.c, OnMsgUpdateParams. *)
Definition OnMsgUpdateParams (flAVal flBVal flCVal : Q) : M unit :=
  modify_limits BC_POS_FLUID_A (set_targetVolts flAVal) ;;
  modify_limits BC_POS_FLUID_B (set_targetVolts flBVal) ;;
  modify_limits BC_POS_FLUID_C (set_targetVolts flCVal).

(** fluidics.c, OnMsgWaitForFluidAtContact. *)
Definition OnMsgWaitForFluidAtContact (eTarget : eFluidicPositions_t)
    (timeoutMs : Z) : M XState :=
  modify (set_eTargetPos eTarget) ;;
  modify_params (set_timeout_ms timeoutMs) ;;
  X_TRAN S_WaitForContact.

(** fluidics.c, ConvertFluidPosToEchemPos. *)
Definition ConvertFluidPosToEchemPos (eFluidPos : eFluidicPositions_t)
  : eElectrochemicalChannelPos :=
  match eFluidPos with
  | BC_POS_FLUID_A => EC_CHAN_POS_A
  | BC_POS_FLUID_B => EC_CHAN_POS_B
  | BC_POS_FLUID_C => EC_CHAN_POS_C
  | _ => EC_CHAN_POS_NONE
  end.

(** The strip channel a bladder event belongs to, and whether it reports the
    bladder up; [None] for an event that is not a bladder event. *)
Definition bladderEvent (ev : XEvent) : option (eElectrochemicalChannel * bool) :=
  match ev with
  | XMSG_EC_A1_BLDR_UP => Some (EC_STRIP_CHAN_1, true)
  | XMSG_EC_B2_BLDR_UP => Some (EC_STRIP_CHAN_2, true)
  | XMSG_EC_A3_BLDR_UP => Some (EC_STRIP_CHAN_3, true)
  | XMSG_EC_B4_BLDR_UP => Some (EC_STRIP_CHAN_4, true)
  | XMSG_EC_A1_BLDR_DOWN => Some (EC_STRIP_CHAN_1, false)
  | XMSG_EC_B2_BLDR_DOWN => Some (EC_STRIP_CHAN_2, false)
  | XMSG_EC_A3_BLDR_DOWN => Some (EC_STRIP_CHAN_3, false)
  | XMSG_EC_B4_BLDR_DOWN => Some (EC_STRIP_CHAN_4, false)
  | _ => None
  end.

(** fluidics.c, FluidicMonitorBladderDetection: the two switches, one per
    awaited end, stop the piezo on the event of the own channel that reports
    the awaited end and leave every other bladder event alone. *)
Definition FluidicMonitorBladderDetection (eventId : XEvent) : M eErrorCode :=
  me <- get ;;
  if negb (chTargetPosReached me) then
    let awaitUp := negb (pos_eqb BC_POS_DOWN (eTargetPos me)) in
    match bladderEvent eventId with
    | Some (ch, up) =>
        if Bool.eqb up awaitUp && chan_eqb ch (eChannel (pParams me)) then
          error <- piezoStop ;;
          modify (set_chTargetPosReached true) ;;
          ret error
        else ret OK_STATUS
    | None => ret ERROR_FLUIDIC_UNKNOWN_MSG_FROM_EC
    end
  else ret OK_STATUS.

(** fluidics.c, FluidicState_CheckForStrip_OnTick. *)
Definition FluidicState_CheckForStrip_OnTick : M XState :=
  modify (fun me => set_timeoutTimer (wrap32 (timeoutTimer me + FLUIDIC_TIMER_COUNT_MS)) me) ;;
  ch <- gets (fun me => eChannel (pParams me)) ;;
  front <- ecGetFluidPosition ch ;;
  modify_status (set_eFluidFrontPosition front) ;;
  me <- get ;;
  r <- (if (ECHEM_UPDATE_PERIOD_MS <? timeoutTimer me)
           && negb (fd_eqb (eFluidFrontPosition (status me)) FD_DATA_INVALID) then
          front <- ecGetFluidPosition ch ;;
          modify_status (set_eFluidFrontPosition front) ;;
          if pos_eqb (eTargetPos me) BC_POS_DOWN && fd_leb NO_FLUID_DETECTED front then
            retCode <- X_TRAN S_MoveOther ;; ret (OK_STATUS, retCode)
          else if fd_leb FLUID_DETECTED front && pos_gtb (eTargetPos me) BC_POS_DOWN then
            retCode <- X_TRAN S_MoveContact ;;
            modify (set_timeoutTimer 0) ;;
            ret (OK_STATUS, retCode)
          else if fd_eqb front NO_STRIP_DETECTED then
            retCode <- X_TRAN S_Idle ;; ret (ERROR_FLUID_NO_STRIP, retCode)
          else
            retCode <- X_TRAN S_Idle ;; ret (ERROR_FLUID_CHANNEL_INVALID_MOVE, retCode)
        else ret (OK_STATUS, X_RET_HANDLED)) ;;
  me <- get ;;
  r <- (if timeout_ms (pParams me) <=? timeoutTimer me then
          retCode <- X_TRAN S_Idle ;; ret (ERROR_COMMAND_TIMEOUT, retCode)
        else ret r) ;;
  let '(error, retCode) := r in
  tgt <- gets eTargetPos ;;
  when (negb (is_OK_STATUS error)) (FluidicOnMoveFailMsg tgt error) ;;
  FluidicsErrorSet error retCode.

(** Where a completed move to a contact goes. *)
Definition tranAfterMove : M XState :=
  monitor <- gets (fun me => monitorBreachAfterMove (pParams me)) ;;
  if monitor then X_TRAN S_MonitorFluidBreach else X_TRAN S_Idle.

(** fluidics.c, FluidicStateWaitForPiezoStop_OnPiezoStop.  After
    [FluidicOnMoveCompleteMsg] the target position is [BC_NONE], and the
    assignment of the stop voltage that follows it is indexed with it: a
    store outside the table. *)
Definition FluidicStateWaitForPiezoStop_OnPiezoStop (chan : Z) (volts : Q)
  : M XState :=
  error <- FluidOnPiezoStop chan volts ;;
  eCompType <- gets (fun me => eOvershootCompensationType (pParams me)) ;;
  tgt <- gets eTargetPos ;;
  modify (set_eLastKnownPos tgt) ;;
  now <- piezoVoltageGet ;;
  modify_limits tgt (set_targetVolts now) ;;
  dir <- gets (fun me => eMoveDirection (status me)) ;;
  let publishAndStore : M unit :=
    FluidicOnMoveCompleteMsg ;;
    me <- get ;;
    modify_limits (eTargetPos me) (set_targetVolts (piezoVoltage (status me))) in
  r <- (if dir_eqb dir FLUID_MOVE_FWD then
          match eCompType with
          | FLUID_OVERSHOOT_COMP_NONE =>
              publishAndStore ;; ret (error, X_RET_HANDLED, true)
          | FLUID_OVERSHOOT_COMP_PIEZO_VOLTS =>
              me <- get ;;
              let lowerPos := posPred (eTargetPos me) in
              let tbl := positionLimits (pParams me) in
              let overshootPiezoVoltage :=
                f32_mul (f32_sub (targetVolts (tbl (eTargetPos me)))
                                 (targetVolts (tbl lowerPos)))
                        (compensationProportion (pParams me)) in
              let target :=
                f32_sub (targetVolts (tbl (eTargetPos me))) overshootPiezoVoltage in
              modify_limits (eTargetPos me) (set_targetVolts target) ;;
              error <- piezoVoltageSet {| targetVoltage := target;
                                          rampSpeed := PIEZO_RAMP_MAX;
                                          publishCompletion := false |} ;;
              ret (error, X_RET_HANDLED, false)
          | _ =>
              modify_status (set_eMoveDirection FLUID_MOVE_REV) ;;
              retCode <- X_TRAN S_MoveContact ;;
              ret (error, retCode, false)
          end
        else
          publishAndStore ;; ret (error, X_RET_HANDLED, true)) ;;
  let '(error, retCode, movementIsComplete) := r in
  retCode <- (if movementIsComplete then tranAfterMove else ret retCode) ;;
  FluidicsErrorSet error retCode.

(** fluidics.c, Fluidic_defaultEvents. *)
Definition Fluidic_defaultEvents (pEv : XEvent) : M XState :=
  r <- match pEv with
       | XMSG_FLUID_CHANNEL_CANCEL | XMSG_GLOBAL_HALT =>
           tgt <- gets eTargetPos ;;
           when (negb (pos_eqb tgt BC_NONE))
                (FluidicOnMoveCompleteMsg ;;
                 FluidicSetCurrentAndTargetPositions BC_POS_UNKNOWN BC_NONE) ;;
           modify_status (set_eFluidFrontPosition FD_DATA_INVALID) ;;
           retCode <- X_TRAN S_Idle ;;
           ret (OK_STATUS, retCode)
       | XMSG_DOOR_OPENED =>
           modify (set_eTargetPos BC_POS_HOME) ;;
           modify (set_publishCompletionEvent false) ;;
           retCode <- X_TRAN S_MoveOther ;;
           ret (OK_STATUS, retCode)
       | XMSG_FLUID_CHANNEL_MOVE_TO pFMoveEv =>
           if pos_eqb (mv_eTargetPos pFMoveEv) BC_POS_HOME then
             retCode <- OnMsgBladderControlMoveToPos pFMoveEv ;;
             ret (OK_STATUS, retCode)
           else ret (OK_STATUS, X_RET_HANDLED)
       | XMSG_FLUID_MIX _ | XMSG_FLUID_ERR_CLEAR => ret (OK_STATUS, X_RET_IGNORED)
       | XMSG_PIEZO_MOVE_COMPLTE chan volts =>
           error <- FluidOnPiezoMoveComplete chan volts ;; ret (error, X_RET_HANDLED)
       | XMSG_PIEZO_STOPPED chan volts =>
           error <- FluidOnPiezoStop chan volts ;; ret (error, X_RET_HANDLED)
       | XMSG_EC_FLUID_STATUS_CHANGED fluidPositions =>
           error <- FluidOnEchemStatusChange fluidPositions ;; ret (error, X_RET_HANDLED)
       | XMSG_FLUID_CHANNEL_NEW_PARAMS flAVal flBVal flCVal =>
           OnMsgUpdateParams flAVal flBVal flCVal ;; ret (OK_STATUS, X_RET_HANDLED)
       | XMSG_PEIZO_MOVE_FAIL chan error =>
           if chan =? piezoChan d then ret (error, X_RET_HANDLED)
           else ret (OK_STATUS, X_RET_HANDLED)
       | XMSG_EC_ERROR error => ret (error, X_RET_HANDLED)
       | X_EV_EXIT => XTimerStop ;; ret (OK_STATUS, X_RET_HANDLED)
       | XMSG_FLUID_ENABLE_BREACH_DETECT monitorFluidPosition =>
           modify_params (set_monitorBreachAfterMove monitorFluidPosition) ;;
           ret (OK_STATUS, X_RET_HANDLED)
       | _ => ret (OK_STATUS, X_RET_IGNORED)
       end ;;
  let '(error, retCode) := r in
  FluidicsErrorSet error retCode.

(** ** The state handlers *)

(** fluidics.c, FluidicState_Init. *)
Definition FluidicState_Init (pEv : XEvent) : M XState :=
  retCode <- X_TRAN S_Idle ;;
  FluidicSetCurrentAndTargetPositions BC_POS_UNKNOWN BC_NONE ;;
  modify_status (set_eFluidFrontPosition FD_DATA_INVALID) ;;
  ret retCode.

(** fluidics.c, FluidicState_Idle. *)
Definition FluidicState_Idle (pEv : XEvent) : M XState :=
  r <- match pEv with
       | X_EV_ENTRY =>
           modify (set_timeoutTimer 0) ;;
           error <- Fluidic_OnIdleEntry ;; ret (error, X_RET_HANDLED)
       | XMSG_FLUID_CHANNEL_MOVE_TO m =>
           retCode <- OnMsgBladderControlMoveToPos m ;; ret (OK_STATUS, retCode)
       | XMSG_FLUID_LIFT_UP_BLADDER m =>
           retCode <- OnMsgLiftUpBladders m ;; ret (OK_STATUS, retCode)
       | XMSG_FLUID_MIX m =>
           retCode <- OnMsgBladderControlMix m ;; ret (OK_STATUS, retCode)
       | XMSG_FLUID_WAIT_FOR_CONTACT eTarget timeoutMs =>
           retCode <- OnMsgWaitForFluidAtContact eTarget timeoutMs ;;
           ret (OK_STATUS, retCode)
       | _ => retCode <- Fluidic_defaultEvents pEv ;; ret (OK_STATUS, retCode)
       end ;;
  let '(error, retCode) := r in
  FluidicsErrorSet error retCode.

(** fluidics.c, FluidicState_MoveContact. *)
Definition FluidicState_MoveContact (pEv : XEvent) : M XState :=
  r <- match pEv with
       | X_EV_ENTRY =>
           modify (set_timeoutTimer 0) ;;
           error <- OnFluidMoveContact_Entry ;; ret (error, X_RET_HANDLED)
       | X_EV_TIMER =>
           retCode <- FluidicMoveContact_OnTick ;; ret (OK_STATUS, retCode)
       | XMSG_PIEZO_MOVE_COMPLTE _ _ => ret (OK_STATUS, X_RET_HANDLED)
       | _ => retCode <- Fluidic_defaultEvents pEv ;; ret (OK_STATUS, retCode)
       end ;;
  let '(error, retCode) := r in
  FluidicsErrorSet error retCode.

(** The timer case shared by the two moves to a bladder end: count the tick,
    fail on timeout, and ask for bladder detection 20 ms into the move. *)
Definition bladderMoveTick (timeoutError : eErrorCode) (stopDetect : bool)
    (awaited : eFluidicPositions_t) : M XState :=
  modify (fun me => set_timeoutTimer (wrap32 (timeoutTimer me + FLUIDIC_TIMER_COUNT_MS)) me) ;;
  me <- get ;;
  retCode <- (if timeout_ms (pParams me) <=? timeoutTimer me then
                FluidicOnMoveFailMsg (eTargetPos me) timeoutError ;;
                when stopDetect (X_PUBLISH Pub_fcStopBladderDetectMsg) ;;
                modify (set_eLastKnownPos BC_POS_UNKNOWN) ;;
                X_TRAN S_Idle
              else ret X_RET_HANDLED) ;;
  me <- get ;;
  when ((20 =? timeoutTimer me) && pos_eqb awaited (eTargetPos me))
       (X_PUBLISH Pub_fcStartBladderDetectMsg) ;;
  ret retCode.

(** fluidics.c, FluidicState_MoveOther.  The stop voltage is stored for
    [BC_POS_DOWN] only when the target still is [BC_POS_DOWN] after
    [FluidicOnMoveCompleteMsg], which has set it to [BC_NONE]. *)
Definition FluidicState_MoveOther (pEv : XEvent) : M XState :=
  r <- match pEv with
       | X_EV_ENTRY =>
           modify (set_chTargetPosReached false) ;;
           error <- OnFluidMoveOther_Entry ;; ret (error, X_RET_HANDLED)
       | X_EV_TIMER =>
           retCode <- bladderMoveTick ERROR_DXRUNNER_FMOV_TIMEOUT true BC_POS_DOWN ;;
           ret (OK_STATUS, retCode)
       | XMSG_EC_A1_BLDR_UP | XMSG_EC_B2_BLDR_UP | XMSG_EC_A3_BLDR_UP
       | XMSG_EC_B4_BLDR_UP | XMSG_EC_A1_BLDR_DOWN | XMSG_EC_B2_BLDR_DOWN
       | XMSG_EC_A3_BLDR_DOWN | XMSG_EC_B4_BLDR_DOWN =>
           error <- FluidicMonitorBladderDetection pEv ;; ret (error, X_RET_HANDLED)
       | XMSG_PIEZO_STOPPED chan volts | XMSG_PIEZO_MOVE_COMPLTE chan volts =>
           if chan =? piezoChan d then
             modify_status (set_piezoVoltage volts) ;;
             FluidicOnMoveCompleteMsg ;;
             tgt <- gets eTargetPos ;;
             now <- piezoVoltageGet ;;
             when (pos_eqb BC_POS_DOWN tgt) (modify_limits tgt (set_targetVolts now)) ;;
             retCode <- X_TRAN S_Idle ;;
             ret (OK_STATUS, retCode)
           else ret (OK_STATUS, X_RET_HANDLED)
       | _ => retCode <- Fluidic_defaultEvents pEv ;; ret (OK_STATUS, retCode)
       end ;;
  let '(error, retCode) := r in
  FluidicsErrorSet error retCode.

(** fluidics.c, FluidicState_LiftUpBladder. *)
Definition FluidicState_LiftUpBladder (pEv : XEvent) : M XState :=
  r <- match pEv with
       | X_EV_ENTRY =>
           modify (set_chTargetPosReached false) ;;
           error <- OnLiftUpBladders_Entry ;; ret (error, X_RET_HANDLED)
       | X_EV_TIMER =>
           retCode <- bladderMoveTick ERROR_COMMAND_TIMEOUT false BC_POS_HOME ;;
           ret (OK_STATUS, retCode)
       | XMSG_EC_A1_BLDR_UP | XMSG_EC_B2_BLDR_UP | XMSG_EC_A3_BLDR_UP
       | XMSG_EC_B4_BLDR_UP | XMSG_EC_A1_BLDR_DOWN | XMSG_EC_B2_BLDR_DOWN
       | XMSG_EC_A3_BLDR_DOWN | XMSG_EC_B4_BLDR_DOWN =>
           error <- FluidicMonitorBladderDetection pEv ;; ret (error, X_RET_HANDLED)
       | XMSG_PIEZO_STOPPED chan volts | XMSG_PIEZO_MOVE_COMPLTE chan volts =>
           if chan =? piezoChan d then
             modify (set_eTargetPos BC_POS_DOWN) ;;
             modify_status (set_piezoVoltage volts) ;;
             FluidicOnMoveCompleteMsg ;;
             retCode <- X_TRAN S_Idle ;;
             ret (OK_STATUS, retCode)
           else ret (OK_STATUS, X_RET_HANDLED)
       | _ => retCode <- Fluidic_defaultEvents pEv ;; ret (OK_STATUS, retCode)
       end ;;
  let '(error, retCode) := r in
  FluidicsErrorSet error retCode.

(** fluidics.c, FluidicState_WaitForContact. *)
Definition FluidicState_WaitForContact (pEv : XEvent) : M XState :=
  r <- match pEv with
       | X_EV_ENTRY =>
           ch <- gets (fun me => eChannel (pParams me)) ;;
           XTimerStart ;;
           modify (set_timeoutTimer 0) ;;
           error <- ecSetModeFillDetect ch EC_CHAN_POS_A ;;
           ret (error, X_RET_HANDLED)
       | X_EV_TIMER =>
           modify (fun me => set_timeoutTimer (wrap32 (timeoutTimer me + FLUIDIC_TIMER_COUNT_MS)) me) ;;
           me <- get ;;
           let eRequirement := fluidGetEchemRequirement me true in
           let eFluidFrontPos := eFluidFrontPosition (status me) in
           if fd_eqb eRequirement eFluidFrontPos then
             FluidicOnMoveCompleteMsg ;;
             retCode <- X_TRAN S_Idle ;; ret (OK_STATUS, retCode)
           else if timeout_ms (pParams me) <=? timeoutTimer me then
             FluidicOnMoveFailMsg (eTargetPos me) ERROR_COMMAND_TIMEOUT ;;
             retCode <- X_TRAN S_Idle ;; ret (OK_STATUS, retCode)
           else ret (OK_STATUS, X_RET_HANDLED)
       | XMSG_PIEZO_STOPPED chan _ | XMSG_PIEZO_MOVE_COMPLTE chan _ =>
           if chan =? piezoChan d then
             tgt <- gets eTargetPos ;;
             FluidicOnMoveFailMsg tgt ERROR_FLUIDIC_UNEXPECTED_MSG_PIEZO ;;
             retCode <- X_TRAN S_Idle ;; ret (OK_STATUS, retCode)
           else ret (OK_STATUS, X_RET_HANDLED)
       | _ => retCode <- Fluidic_defaultEvents pEv ;; ret (OK_STATUS, retCode)
       end ;;
  let '(error, retCode) := r in
  FluidicsErrorSet error retCode.

(** fluidics.c, FluidicState_CheckForStrip. *)
Definition FluidicState_CheckForStrip (pEv : XEvent) : M XState :=
  r <- match pEv with
       | X_EV_ENTRY =>
           modify (set_timeoutTimer 0) ;;
           XTimerStart ;;
           ch <- gets (fun me => eChannel (pParams me)) ;;
           error <- ecSetModeFillDetect ch EC_CHAN_POS_A ;;
           ret (error, X_RET_HANDLED)
       | X_EV_TIMER =>
           retCode <- FluidicState_CheckForStrip_OnTick ;; ret (OK_STATUS, retCode)
       | _ => retCode <- Fluidic_defaultEvents pEv ;; ret (OK_STATUS, retCode)
       end ;;
  let '(error, retCode) := r in
  FluidicsErrorSet error retCode.

(** fluidics.c, FluidicState_WaitForPiezoStop. *)
Definition FluidicState_WaitForPiezoStop (pEv : XEvent) : M XState :=
  retCode <- match pEv with
             | XMSG_PIEZO_STOPPED chan volts =>
                 if chan =? piezoChan d
                 then FluidicStateWaitForPiezoStop_OnPiezoStop chan volts
                 else ret X_RET_HANDLED
             | XMSG_PIEZO_MOVE_COMPLTE chan volts =>
                 if chan =? piezoChan d then
                   modify_status (set_piezoVoltage volts) ;;
                   FluidicOnMoveCompleteMsg ;;
                   tranAfterMove
                 else ret X_RET_HANDLED
             | _ => Fluidic_defaultEvents pEv
             end ;;
  FluidicsErrorSet OK_STATUS retCode.

(** The cancel case of the three mixing states. *)
Definition mixCancel : M XState :=
  rest <- gets (fun me => eMixEndPosition (pParams me)) ;;
  modify (set_eTargetPos rest) ;;
  modify_status (set_mixComplete true) ;;
  X_TRAN S_MoveContact.

(** The timer case of the piezo-controlled and the waiting mixing states. *)
Definition mixTimeoutTick : M XState :=
  modify (fun me => set_mixTimer (wrap32 (mixTimer me + FLUIDIC_TIMER_COUNT_MS)) me) ;;
  me <- get ;;
  if mixTimeout_ms (pParams me) <=? mixTimer me then
    FluidicOnMoveFailMsg (eTargetPos me) ERROR_DXRUNNER_FMIX_TIMEOUT ;;
    modify (set_eTargetPos (eMixEndPosition (pParams me))) ;;
    X_TRAN S_MoveContact
  else ret X_RET_HANDLED.

(** fluidics.c, FluidicState_MixContactControlled. *)
Definition FluidicState_MixContactControlled (pEv : XEvent) : M XState :=
  r <- match pEv with
       | X_EV_ENTRY =>
           error <- FluidicMixContactControlled_OnEntry ;; ret (error, X_RET_HANDLED)
       | X_EV_TIMER =>
           retCode <- FluidicMixContactControlled_OnTick ;; ret (OK_STATUS, retCode)
       | XMSG_PIEZO_MOVE_COMPLTE chan volts =>
           if chan =? piezoChan d then
             AdjustHysterisisVoltage FLUID_HYST_INC ;;
             modify_status (set_piezoVoltage volts) ;;
             retCode <- FluidMixOnStageComplete ;; ret (OK_STATUS, retCode)
           else ret (OK_STATUS, X_RET_HANDLED)
       | XMSG_FLUID_CHANNEL_CANCEL =>
           retCode <- mixCancel ;; ret (OK_STATUS, retCode)
       | _ => retCode <- Fluidic_defaultEvents pEv ;; ret (OK_STATUS, retCode)
       end ;;
  let '(error, retCode) := r in
  FluidicsErrorSet error retCode.

(** fluidics.c, FluidicState_MixPiezoControlled. *)
Definition FluidicState_MixPiezoControlled (pEv : XEvent) : M XState :=
  r <- match pEv with
       | X_EV_ENTRY =>
           error <- FluidicMixPiezoControlled_OnEntry ;; ret (error, X_RET_HANDLED)
       | X_EV_TIMER =>
           retCode <- mixTimeoutTick ;; ret (OK_STATUS, retCode)
       | XMSG_PIEZO_MOVE_COMPLTE chan volts =>
           if chan =? piezoChan d then
             modify_status (set_piezoVoltage volts) ;;
             retCode <- FluidMixOnStageComplete ;; ret (OK_STATUS, retCode)
           else ret (OK_STATUS, X_RET_HANDLED)
       | XMSG_FLUID_CHANNEL_CANCEL =>
           retCode <- mixCancel ;; ret (OK_STATUS, retCode)
       | _ => retCode <- Fluidic_defaultEvents pEv ;; ret (OK_STATUS, retCode)
       end ;;
  let '(error, retCode) := r in
  FluidicsErrorSet error retCode.

(** fluidics.c, FluidicState_MixWaitContinue. *)
Definition FluidicState_MixWaitContinue (pEv : XEvent) : M XState :=
  r <- match pEv with
       | X_EV_ENTRY =>
           piezoStop ;;
           X_PUBLISH Pub_stageCompelteMsg ;;
           ret (OK_STATUS, X_RET_HANDLED)
       | X_EV_TIMER =>
           retCode <- mixTimeoutTick ;; ret (OK_STATUS, retCode)
       | XMSG_FLUID_MIX_CONTINUE =>
           retCode <- FluidMixMovementContinue ;; ret (OK_STATUS, retCode)
       | XMSG_PIEZO_MOVE_COMPLTE chan volts =>
           error <- FluidOnPiezoMoveComplete chan volts ;; ret (error, X_RET_HANDLED)
       | XMSG_FLUID_CHANNEL_CANCEL =>
           retCode <- mixCancel ;; ret (OK_STATUS, retCode)
       | _ => retCode <- Fluidic_defaultEvents pEv ;; ret (OK_STATUS, retCode)
       end ;;
  let '(error, retCode) := r in
  FluidicsErrorSet error retCode.

(** fluidics.c, FluidicState_MonitorFluidBreach.  The handler returns its
    code directly: there is no closing [FluidicsErrorSet], and the breach
    error is handed to [FluidicOnMoveFailMsg] only. *)
Definition FluidicState_MonitorFluidBreach (pEv : XEvent) : M XState :=
  ecChan <- gets (fun me => eChannel (pParams me)) ;;
  match pEv with
  | X_EV_ENTRY =>
      last <- gets eLastKnownPos ;;
      ecSetModeFillDetect ecChan (ConvertFluidPosToEchemPos last) ;;
      ret X_RET_HANDLED
  | XMSG_EC_FLUID_STATUS_CHANGED fluidPositions =>
      FluidOnEchemStatusChange fluidPositions ;;
      me <- get ;;
      if negb (fd_eqb (eFluidFrontPosition (status me))
                      (fluidGetEchemRequirement me false)) then
        X_PUBLISH Pub_breachDetectedMsg ;;
        FluidicOnMoveFailMsg (eLastKnownPos me) ERROR_FLUID_CHANNEL_FLUID_FRONT ;;
        X_TRAN S_Idle
      else ret X_RET_HANDLED
  | XMSG_FLUID_CHANNEL_MOVE_TO m => OnMsgBladderControlMoveToPos m
  | XMSG_FLUID_MIX m => OnMsgBladderControlMix m
  | _ => Fluidic_defaultEvents pEv
  end.

(** fluidics.c, FluidicState_Err. *)
Definition FluidicState_Err (pEv : XEvent) : M XState :=
  match pEv with
  | X_EV_ENTRY => Fluidic_OnErrorStateEntry ;; ret X_RET_HANDLED
  | XMSG_FLUID_ERR_CLEAR => X_TRAN S_Idle
  | _ => Fluidic_defaultEvents pEv
  end.

(** The state handler behind each leaf state. *)
Definition handlerOf (s : LeafState) : XEvent -> M XState :=
  match s with
  | S_Init => FluidicState_Init
  | S_Idle => FluidicState_Idle
  | S_CheckForStrip => FluidicState_CheckForStrip
  | S_MoveContact => FluidicState_MoveContact
  | S_MoveOther => FluidicState_MoveOther
  | S_LiftUpBladder => FluidicState_LiftUpBladder
  | S_WaitForContact => FluidicState_WaitForContact
  | S_WaitForPiezoStop => FluidicState_WaitForPiezoStop
  | S_MixContactControlled => FluidicState_MixContactControlled
  | S_MixPiezoControlled => FluidicState_MixPiezoControlled
  | S_MixWaitContinue => FluidicState_MixWaitContinue
  | S_MonitorFluidBreach => FluidicState_MonitorFluidBreach
  | S_Err => FluidicState_Err
  end.

(** Modelled from the spec: the dispatcher of the XActive framework, which is
    not among the sources.  A handler that answers with a transition has
    stored the target; the source gets the exit event, the target the entry
    event, and a transition asked for by an entry handler (a critical error
    on entry) is taken in the same way.  [fuel] bounds the chain of entries;
    the only transition an entry handler asks for is the one into the error
    state, whose entry asks for none, so two entries are the longest chain. *)
Fixpoint XTransition (fuel : nat) (source : LeafState) (me : Fluidic_t)
  : Fluidic_t :=
  let target := state me in
  let me := exec (handlerOf source X_EV_EXIT) me in
  let '(retCode, me) := handlerOf target X_EV_ENTRY me in
  match retCode, fuel with
  | X_RET_TRAN, S fuel' => XTransition fuel' target me
  | _, _ => me
  end.

Definition XDispatch (ev : XEvent) (me : Fluidic_t) : Fluidic_t :=
  let source := state me in
  let '(retCode, me) := handlerOf source ev me in
  match retCode with
  | X_RET_TRAN => XTransition 2 source me
  | _ => me
  end.

(** The initial transition taken when the object is started: the initial
    handler runs and its target is entered. *)
Definition XActiveStart (me : Fluidic_t) : Fluidic_t :=
  let '(retCode, me) := handlerOf (state me) X_EV_ENTRY me in
  match retCode with
  | X_RET_TRAN =>
      let target := state me in
      let '(retCode, me) := handlerOf target X_EV_ENTRY me in
      match retCode with
      | X_RET_TRAN => XTransition 1 target me
      | _ => me
      end
  | _ => me
  end.


(** ** The API calls *)

Definition set_mv_eTargetPos (v : eFluidicPositions_t)
    (m : FluidicMovePositionMsg_t) : FluidicMovePositionMsg_t :=
  {| mv_eTargetPos := v;
     mv_rampSpeedVoltsPerSec := mv_rampSpeedVoltsPerSec m;
     mv_eOvershootComp := mv_eOvershootComp m;
     mv_overshootCompProportion := mv_overshootCompProportion m;
     mv_timeout_ms := mv_timeout_ms m |}.

Arguments set_mv_eTargetPos v !m /.

Definition set_mv_ramp_timeout (ramp : Q) (timeout : Z)
    (m : FluidicMovePositionMsg_t) : FluidicMovePositionMsg_t :=
  {| mv_eTargetPos := mv_eTargetPos m;
     mv_rampSpeedVoltsPerSec := ramp;
     mv_eOvershootComp := mv_eOvershootComp m;
     mv_overshootCompProportion := mv_overshootCompProportion m;
     mv_timeout_ms := timeout |}.

Arguments set_mv_ramp_timeout ramp timeout !m /.

(** fluidics.c, FluidicErrorClear and FluidicStop. *)
Definition FluidicErrorClear : M eErrorCode :=
  XActivePost XMSG_FLUID_ERR_CLEAR ;; ret OK_COMMAND_ACCEPTED.

Definition FluidicStop : M eErrorCode :=
  XActivePost XMSG_FLUID_CHANNEL_CANCEL ;; ret OK_COMMAND_ACCEPTED.

(** fluidics.c, FluidicParamsSet. *)
Definition FluidicParamsSet (pParams' : FluidicParams_t) : M eErrorCode :=
  let flAVal := targetVolts (positionLimits pParams' BC_POS_FLUID_A) in
  let flBVal := targetVolts (positionLimits pParams' BC_POS_FLUID_B) in
  let flCVal := targetVolts (positionLimits pParams' BC_POS_FLUID_C) in
  if Qltb flAVal flBVal && Qltb flBVal flCVal then
    XActivePost (XMSG_FLUID_CHANNEL_NEW_PARAMS flAVal flBVal flCVal) ;;
    ret OK_COMMAND_ACCEPTED
  else ret ERROR_FLUID_INVALID_PARAMS.

(** fluidics.c, FluidicMove, for a non-null [me].  A homing move writes
    the target of [moveMsg] only and posts the message as it then is. *)
Definition FluidicMove (eTarget : eFluidicPositions_t) (rampSpeedVoltsPerSec : Q)
    (timeout_ms : Z) (eOvershootComp : eFluidOvershootCompensation_t)
    (overshootCompProportion : Q) : M eErrorCode :=
  if pos_eqb eTarget BC_POS_HOME then
    modify (fun me => set_moveMsg (set_mv_eTargetPos BC_POS_HOME (moveMsg me)) me) ;;
    m <- gets moveMsg ;;
    XActivePost (XMSG_FLUID_CHANNEL_MOVE_TO m) ;;
    ret OK_COMMAND_ACCEPTED
  else
    me <- get ;;
    let error :=
      FluidCheckMoveParams me eTarget rampSpeedVoltsPerSec timeout_ms
        eOvershootComp overshootCompProportion in
    let isReady := FluidicStateCanAcceptCommand me in
    if isReady then
      if is_OK_STATUS error then
        modify (set_moveMsg
                  {| mv_eTargetPos := eTarget;
                     mv_rampSpeedVoltsPerSec := rampSpeedVoltsPerSec;
                     mv_eOvershootComp := eOvershootComp;
                     mv_overshootCompProportion := overshootCompProportion;
                     mv_timeout_ms := timeout_ms |}) ;;
        m <- gets moveMsg ;;
        XActivePost (XMSG_FLUID_CHANNEL_MOVE_TO m) ;;
        ret OK_COMMAND_ACCEPTED
      else ret error
    else ret ERROR_OBJECT_NOT_READY.

(** fluidics.c, FluidicLiftUpBladder.  The target position of the object is
    written first; the target member of [liftUpBlddrMsg] is never written. *)
Definition FluidicLiftUpBladder (rampSpeedVoltsPerSec : Q) (timeout_ms : Z)
  : M eErrorCode :=
  modify (set_eTargetPos BC_POS_HOME) ;;
  modify (fun me =>
    set_liftUpBlddrMsg
      (set_mv_ramp_timeout rampSpeedVoltsPerSec timeout_ms (liftUpBlddrMsg me)) me) ;;
  me <- get ;;
  let error :=
    FluidCheckMoveParams me BC_POS_DOWN rampSpeedVoltsPerSec timeout_ms
      FLUID_OVERSHOOT_COMP_NONE 0 in
  let isReady := FluidicStateCanAcceptCommand me in
  if is_OK_STATUS error then
    if isReady then
      XActivePost (XMSG_FLUID_LIFT_UP_BLADDER (liftUpBlddrMsg me)) ;;
      ret OK_COMMAND_ACCEPTED
    else ret ERROR_OBJECT_NOT_READY
  else ret error.

(** fluidics.c, FluidicMix, for a non-null [me]. *)
Definition FluidicMix (eTarget : eFluidicPositions_t) (mixFreq : Q)
    (mixTimeout cycles : Z) (eMixType : eFluidMixingType_t)
    (openLoopCompensationFactor mixDownstrokeProportion : Q) : M eErrorCode :=
  me <- get ;;
  let error :=
    FluidCheckMixParams me eTarget mixFreq mixTimeout cycles eMixType
      openLoopCompensationFactor mixDownstrokeProportion in
  if FluidicStateCanAcceptCommand me then
    if is_OK_STATUS error then
      modify (set_mixMsg
                {| mx_eTargetPos := eTarget;
                   mx_mixFrequency := mixFreq;
                   mx_mixTime := mixTimeout;
                   mx_mixCycles := cycles;
                   mx_eMixType := eMixType;
                   mx_openLoopCompensationFactor := openLoopCompensationFactor;
                   mx_mixDownstrokeProportion := mixDownstrokeProportion |}) ;;
      m <- gets mixMsg ;;
      XActivePost (XMSG_FLUID_MIX m) ;;
      ret OK_COMMAND_ACCEPTED
    else ret error
  else ret ERROR_OBJECT_NOT_READY.

(** fluidics.c, FluidicEnableBreachMonitoring. *)
Definition FluidicEnableBreachMonitoring (enable : bool) : M eErrorCode :=
  XActivePost (XMSG_FLUID_ENABLE_BREACH_DETECT enable) ;; ret OK_STATUS.

(** fluidics.c, FluidicWaitForFluidAtContact, for a non-null [me]. *)
Definition FluidicWaitForFluidAtContact (eTarget : eFluidicPositions_t)
    (timeoutMs : Z) : M eErrorCode :=
  me <- get ;;
  let canAcceptCommand := FluidicStateCanAcceptCommand me in
  let moveValid := bladderControlCheckMoveValid me eTarget in
  if pos_geb eTarget BC_POS_FLUID_A && moveValid then
    if canAcceptCommand then
      XActivePost (XMSG_FLUID_WAIT_FOR_CONTACT eTarget timeoutMs) ;;
      ret OK_COMMAND_ACCEPTED
    else ret ERROR_OBJECT_NOT_READY
  else ret ERROR_BAD_ARGS.

(** ** Construction *)

Definition zeroMoveMsg : FluidicMovePositionMsg_t :=
  {| mv_eTargetPos := BC_POS_HOME; mv_rampSpeedVoltsPerSec := 0;
     mv_eOvershootComp := FLUID_OVERSHOOT_COMP_NONE;
     mv_overshootCompProportion := 0; mv_timeout_ms := 0 |}.

Definition zeroMixMsg : FluidicMixMsg_t :=
  {| mx_eTargetPos := BC_POS_HOME; mx_mixFrequency := 0; mx_mixTime := 0;
     mx_mixCycles := 0; mx_eMixType := FLUID_MIX_DUAL_POINT_LOOP;
     mx_openLoopCompensationFactor := 0; mx_mixDownstrokeProportion := 0 |}.

(** fluidics.c, FluidicInit: the object is zeroed, the parameters stored,
    the completion flag set and the initial handler installed.  Zero is the
    first enumerator of each enumeration. *)
Definition FluidicInit (pParams0 : FluidicParams_t) : Fluidic_t :=
  {| state := S_Init; errorCode := OK_STATUS;
     eLastKnownPos := BC_POS_HOME; eTargetPos := BC_POS_HOME;
     pParams := pParams0; timeoutTimer := 0; mixTimer := 0;
     status := {| eFluidFrontPosition := FD_DATA_INVALID; piezoVoltage := 0;
                  mixComplete := false; mixingStagesCompleted := 0;
                  eMoveDirection := FLUID_MOVE_FWD |};
     publishCompletionEvent := true; chTargetPosReached := false;
     liftUpBlddrMsg := zeroMoveMsg; mixMsg := zeroMixMsg; moveMsg := zeroMoveMsg;
     evQueue := []; log := [] |}.

(** fluidicsConfig.c: the table of the four default bundles, which differ
    in the channel only. *)
Definition defaultPositionLimits (p : eFluidicPositions_t)
  : FluidicPositionLimits_t :=
  match p with
  | BC_POS_HOME =>
      {| targetVolts := PIEZO_VOLT_MAX; posHysterisis := FLUIDIC_HYSTERISIS_NONE;
         echemRequirements := fun _ => FD_DATA_INVALID |}
  | BC_POS_DOWN =>
      {| targetVolts := PIEZO_MIN_VOLTAGE; posHysterisis := FLUIDIC_HYSTERISIS_NONE;
         echemRequirements := fun dir =>
           match dir with
           | FLUID_MOVE_REV => FLUID_DETECTED
           | _ => NO_FLUID_DETECTED
           end |}
  | BC_POS_FLUID_A =>
      {| targetVolts := FLUIDIC_DEFAULT_TARGET_POSITION;
         posHysterisis := FLUIDIC_POS_A_HYSTERISIS_V;
         echemRequirements := fun dir =>
           match dir with
           | FLUID_MOVE_REV => FLUID_DETECTED
           | _ => FLUID_POSITION_A
           end |}
  | BC_POS_FLUID_B =>
      {| targetVolts := FLUIDIC_DEFAULT_TARGET_POSITION;
         posHysterisis := FLUIDIC_DEFAULT_HYSTERISIS_V;
         echemRequirements := fun dir =>
           match dir with
           | FLUID_MOVE_REV => FLUID_POSITION_A
           | _ => FLUID_POSITION_B
           end |}
  | BC_POS_FLUID_C =>
      {| targetVolts := FLUIDIC_DEFAULT_TARGET_POSITION;
         posHysterisis := FLUIDIC_DEFAULT_HYSTERISIS_V;
         echemRequirements := fun dir =>
           match dir with
           | FLUID_MOVE_REV => FLUID_POSITION_B
           | _ => FLUID_POSITION_C
           end |}
  | _ =>
      {| targetVolts := 0; posHysterisis := 0;
         echemRequirements := fun _ => FD_DATA_INVALID |}
  end.

Definition bladderDefaultParams (ch : eElectrochemicalChannel) : FluidicParams_t :=
  {| positionLimits := defaultPositionLimits;
     eChannel := ch;
     timeout_ms := FLUIDIC_DEFAULT_TIMEOUT_30S;
     mixFrequency_Hz := FLUIDIC_DEFAULT_MIX_FREQ;
     mixTimeout_ms := 0;
     targetMixCycles := 0;
     rampSpeedVoltsPerSec := FLUID_SPEED_LOW_DEFAULT_V_PER_S;
     mixTimeoutMax_ms := FLUIDIC_MAX_MIX_TIMEOUT_DEFAULT_MS;
     eMixEndPosition := BC_POS_UNKNOWN;
     hysterisisMultipliersVolts := fun t =>
       match t with
       | FLUID_HYST_INC => FLUID_HYST_MULTIPLIER_INC_DEFAULT
       | FLUID_HYST_DEC => FLUID_HYST_MULTIPLIER_DEC_DEFAULT
       end;
     eOvershootCompensationType := FLUID_OVERSHOOT_COMP_NONE;
     compensationProportion := 0;
     returnSpeedRedcutionFactor := FLUID_RETURN_SPEED_REDUCTION_FACTOR;
     eMixType := FLUID_MIX_DUAL_POINT_LOOP;
     openLoopCompensationFactor := 0;
     mixDownstrokeProportion := 0;
     monitorBreachAfterMove := false |}.

Definition bladder1DefaultParams : FluidicParams_t := bladderDefaultParams EC_STRIP_CHAN_1.
Definition bladder2DefaultParams : FluidicParams_t := bladderDefaultParams EC_STRIP_CHAN_2.
Definition bladder3DefaultParams : FluidicParams_t := bladderDefaultParams EC_STRIP_CHAN_3.
Definition bladder4DefaultParams : FluidicParams_t := bladderDefaultParams EC_STRIP_CHAN_4.

End Handlers.

(** The handlers and helpers unfold on demand in proofs; the hysteresis
    adaptation has a database of its own. *)
Create HintDb fl discriminated.
Create HintDb flset discriminated.
#[global] Hint Unfold
  piezoVoltageSet piezoStop piezoHome piezoVoltageGet ecDisable
  ecSetModeFillDetect ecGetFluidPosition FluidicSetCurrentAndTargetPositions
  FluidicStopMove FluidicHomeMoveBegin FluidicOnMoveCompleteMsg
  FluidicOnMoveFailMsg FluidicOnMixComplete FluidOnPiezoStop
  FluidOnPiezoMoveComplete FluidOnEchemStatusChange
  FluidicBeginPiezoMoveToTarget FluidicBeginPiezoMoveToLift
  fluidicMixingCalculaterampSpeedVoltsPerSec FluidMixOnStageComplete
  FluidMixMovementContinue FluidicMixContactControlled_OnEntry
  FluidicMixPiezoControlled_OnEntry FluidicMixContactControlled_OnTick
  FluidicMoveContact_OnTick Fluidic_OnIdleEntry Fluidic_OnErrorStateEntry
  OnFluidMoveContact_Entry OnFluidMoveOther_Entry OnLiftUpBladders_Entry
  OnMsgBladderControlMoveToPos OnMsgLiftUpBladders OnMsgBladderControlMix
  OnMsgUpdateParams OnMsgWaitForFluidAtContact
  FluidicMonitorBladderDetection FluidicState_CheckForStrip_OnTick
  tranAfterMove FluidicStateWaitForPiezoStop_OnPiezoStop
  Fluidic_defaultEvents FluidicState_Init FluidicState_Idle
  FluidicState_MoveContact bladderMoveTick FluidicState_MoveOther
  FluidicState_LiftUpBladder FluidicState_WaitForContact
  FluidicState_CheckForStrip FluidicState_WaitForPiezoStop mixCancel
  mixTimeoutTick FluidicState_MixContactControlled
  FluidicState_MixPiezoControlled FluidicState_MixWaitContinue
  FluidicState_MonitorFluidBreach FluidicState_Err FluidicErrorClear
  FluidicStop FluidicParamsSet FluidicMove FluidicLiftUpBladder FluidicMix
  FluidicEnableBreachMonitoring FluidicWaitForFluidAtContact
  FluidCheckMoveParams bladderControlCheckMoveValid when exec eval
  FLUIDIC_TIMER_COUNT_MS ECHEM_UPDATE_PERIOD_MS
  FLUID_NUM_MIXING_STAGES_PER_CYCLE : fl.
#[global] Hint Unfold AdjustHysterisisVoltage : flset.

(** ** Runs *)

(** A run: each event is handled with the answers the drivers give while it
    is handled. *)
Fixpoint XRun {pc : PiezoConsts} (evs : list (Drivers * XEvent)) (me : Fluidic_t)
  : Fluidic_t :=
  match evs with
  | [] => me
  | (d, ev) :: rest => XRun rest (XDispatch d ev me)
  end.

(** The publications of a log, oldest first. *)
Definition publications (l : list Output) : list Published :=
  rev (flat_map (fun o => match o with OutPublish m => [m] | _ => [] end) l).

Arguments publications l : simpl never.



Definition isMoveSuccess (m : Published) : bool :=
  match m with Pub_moveSuccessMsg _ _ _ _ => true | _ => false end.

Definition isBreachDetected (m : Published) : bool :=
  match m with Pub_breachDetectedMsg => true | _ => false end.

Definition countPub (f : Published -> bool) (me : Fluidic_t) : nat :=
  length (filter f (publications (log me))).

(** ** Sample collaborators, used to evaluate the controller *)

Definition samplePiezo : PiezoConsts :=
  {| PIEZO_RAMP_MAX := 100; PIEZO_MIN_VOLTAGE := 0; PIEZO_VOLT_MAX := 100 |}.

(** Drivers that accept every command, with the piezo on channel 1 at
    [volts] and the detector reading [front] on every channel. *)
Definition sampleDrivers (volts : Q) (front : eEcFluidDetectPosition_t) : Drivers :=
  {| piezoChan := 1; maxRampRate := 100; currentVoltage := volts;
     r_piezoVoltageSet := fun _ => OK_COMMAND_ACCEPTED;
     r_piezoStop := OK_STATUS; r_piezoHome := OK_STATUS;
     r_ecDisable := fun _ => OK_STATUS;
     r_ecSetModeFillDetect := fun _ _ => OK_STATUS;
     r_ecGetFluidPosition := fun _ => front |}.

(** Drivers that accept every command. *)
Record DriversOk (d : Drivers) : Prop := {
  ok_piezoVoltageSet : forall p, r_piezoVoltageSet d p = OK_COMMAND_ACCEPTED;
  ok_piezoStop : r_piezoStop d = OK_STATUS;
  ok_piezoHome : r_piezoHome d = OK_STATUS;
  ok_ecDisable : forall ch, r_ecDisable d ch = OK_STATUS;
  ok_ecSetModeFillDetect : forall ch p, r_ecSetModeFillDetect d ch p = OK_STATUS
}.



(** The bladder-up event of a strip channel. *)
Definition bladderUpEvent (ch : eElectrochemicalChannel) : XEvent :=
  match ch with
  | EC_STRIP_CHAN_1 => XMSG_EC_A1_BLDR_UP
  | EC_STRIP_CHAN_2 => XMSG_EC_B2_BLDR_UP
  | EC_STRIP_CHAN_3 => XMSG_EC_A3_BLDR_UP
  | EC_STRIP_CHAN_4 => XMSG_EC_B4_BLDR_UP
  end.

(** The move legality matrix in the words of the specification: from Home
    only Home and Down; from Down and from A, B, C any position that is not
    a sentinel; from Unknown or None only Home. *)
Definition isSentinel (p : eFluidicPositions_t) : bool :=
  match p with
  | BC_POS_UNKNOWN | BC_NONE => true
  | _ => false
  end.

Definition moveMatrix (current target : eFluidicPositions_t) : bool :=
  match current with
  | BC_POS_HOME =>
      match target with
      | BC_POS_HOME | BC_POS_DOWN => true
      | _ => false
      end
  | BC_POS_DOWN | BC_POS_FLUID_A | BC_POS_FLUID_B | BC_POS_FLUID_C =>
      negb (isSentinel target)
  | BC_POS_UNKNOWN | BC_NONE =>
      match target with
      | BC_POS_HOME => true
      | _ => false
      end
  end.

Definition is_INVALID_MOVE (e : eErrorCode) : bool :=
  match e with ERROR_FLUID_CHANNEL_INVALID_MOVE => true | _ => false end.

(** Hysteresis of a position, and the range the adaptation clamps to. *)
Definition hystOf (me : Fluidic_t) (p : eFluidicPositions_t) : Q :=
  posHysterisis (positionLimits (pParams me) p).

Definition inHystRange (h : Q) : Prop :=
  (FLUIDIC_HYSETRISIS_MIN <= h)%Q /\ (h <= FLUIDIC_HYSETRISIS_MAX)%Q.

Definition isContact (p : eFluidicPositions_t) : bool :=
  match p with
  | BC_POS_FLUID_A | BC_POS_FLUID_B | BC_POS_FLUID_C => true
  | _ => false
  end.

Definition isBladderEnd (p : eFluidicPositions_t) : bool :=
  match p with
  | BC_POS_HOME | BC_POS_DOWN => true
  | _ => false
  end.

(** The calls of the API. *)
Inductive ApiCall : Type :=
| CallErrorClear
| CallStop
| CallParamsSet (pParams' : FluidicParams_t)
| CallMove (eTarget : eFluidicPositions_t) (rampSpeedVoltsPerSec : Q)
    (timeout_ms : Z) (eOvershootComp : eFluidOvershootCompensation_t)
    (overshootCompProportion : Q)
| CallLiftUpBladder (rampSpeedVoltsPerSec : Q) (timeout_ms : Z)
| CallMix (eTarget : eFluidicPositions_t) (mixFreq : Q) (mixTimeout cycles : Z)
    (eMixType : eFluidMixingType_t)
    (openLoopCompensationFactor mixDownstrokeProportion : Q)
| CallEnableBreachMonitoring (enable : bool)
| CallWaitForFluidAtContact (eTarget : eFluidicPositions_t) (timeoutMs : Z).

Definition apiCall {pc : PiezoConsts} (d : Drivers) (c : ApiCall) : M eErrorCode :=
  match c with
  | CallErrorClear => FluidicErrorClear
  | CallStop => FluidicStop
  | CallParamsSet p => FluidicParamsSet p
  | CallMove t r to c p => FluidicMove t r to c p
  | CallLiftUpBladder r to => FluidicLiftUpBladder r to
  | CallMix t f to n ty o p => FluidicMix d t f to n ty o p
  | CallEnableBreachMonitoring b => FluidicEnableBreachMonitoring b
  | CallWaitForFluidAtContact t to => FluidicWaitForFluidAtContact t to
  end.

(** The objects that can arise: one is constructed with a default bundle
    and started; afterwards events are handled and the API is called, with
    the drivers answering as they please. *)
Inductive Reachable {pc : PiezoConsts} : Fluidic_t -> Prop :=
| Reach_start (ch : eElectrochemicalChannel) (d : Drivers) :
    Reachable (XActiveStart d (FluidicInit (bladderDefaultParams ch)))
| Reach_event (d : Drivers) (ev : XEvent) (me : Fluidic_t) :
    Reachable me -> Reachable (XDispatch d ev me)
| Reach_api (d : Drivers) (c : ApiCall) (me : Fluidic_t) :
    Reachable me -> Reachable (exec (apiCall d c) me).

(** One step leaves the hysteresis of each position as it was or inside the
    range; [HystPres c] says that the computation [c] is such a step from
    every object. *)
Definition hystStep (me me' : Fluidic_t) : Prop :=
  forall p, hystOf me' p = hystOf me p \/ inHystRange (hystOf me' p).

Definition HystPres {A : Type} (c : M A) : Prop :=
  forall me, hystStep me (snd (c me)).

(** ** Sample objects, reached by running the controller *)

Definition sampleMove (target : eFluidicPositions_t) : XEvent :=
  XMSG_FLUID_CHANNEL_MOVE_TO
    {| mv_eTargetPos := target; mv_rampSpeedVoltsPerSec := 25 # 10;
       mv_eOvershootComp := FLUID_OVERSHOOT_COMP_NONE;
       mv_overshootCompProportion := 0; mv_timeout_ms := 30000 |}.

(** Channel 1 constructed with its default bundle and started: idle, with
    the position unknown. *)
Definition sampleStarted : Fluidic_t :=
  XActiveStart (pc := samplePiezo) (sampleDrivers 100 NO_FLUID_DETECTED)
    (FluidicInit (bladder1DefaultParams (pc := samplePiezo))).

(** Homed, then pressed down until the bladder-down contact of channel 1
    closes: idle at [BC_POS_DOWN]. *)
Definition sampleAtDown : Fluidic_t :=
  let d := sampleDrivers 100 NO_FLUID_DETECTED in
  let d' := sampleDrivers 10 NO_FLUID_DETECTED in
  XRun (pc := samplePiezo)
    [(d, sampleMove BC_POS_HOME); (d, XMSG_PIEZO_MOVE_COMPLTE 1 100);
     (d, sampleMove BC_POS_DOWN);
     (d, X_EV_TIMER); (d, X_EV_TIMER); (d, X_EV_TIMER); (d, X_EV_TIMER);
     (d, X_EV_TIMER);
     (d, X_EV_TIMER); (d', XMSG_EC_A1_BLDR_DOWN); (d', XMSG_PIEZO_STOPPED 1 10)]
    sampleStarted.

(** A move to contact [target] from [me], with fluid applied: the detector
    first reads fluid, then the contact asked for, and the piezo stops at
    [volts]. *)
Definition sampleMoveTo (target : eFluidicPositions_t)
    (reading : eEcFluidDetectPosition_t) (volts : Q) (me : Fluidic_t) : Fluidic_t :=
  let d := sampleDrivers volts FLUID_DETECTED in
  XRun (pc := samplePiezo)
    [(d, sampleMove target);
     (d, X_EV_TIMER); (d, X_EV_TIMER); (d, X_EV_TIMER); (d, X_EV_TIMER);
     (d, X_EV_TIMER);
     (d, XMSG_EC_FLUID_STATUS_CHANGED (fun _ => reading));
     (d, X_EV_TIMER); (d, XMSG_PIEZO_STOPPED 1 volts)]
    me.

(** Idle at contact B after moves to A (30 V) and B (45 V). *)
Definition sampleAtB : Fluidic_t :=
  sampleMoveTo BC_POS_FLUID_B FLUID_POSITION_B 45
    (sampleMoveTo BC_POS_FLUID_A FLUID_POSITION_A 30 sampleAtDown).

(** The same with breach monitoring enabled before the move to B: the
    controller watches contact B. *)
Definition sampleMonitoringB : Fluidic_t :=
  sampleMoveTo BC_POS_FLUID_B FLUID_POSITION_B 45
    (XDispatch (pc := samplePiezo) (sampleDrivers 30 FLUID_POSITION_A)
       (XMSG_FLUID_ENABLE_BREACH_DETECT true)
       (sampleMoveTo BC_POS_FLUID_A FLUID_POSITION_A 30 sampleAtDown)).

(** A move to contact A in flight: the piezo ramps and the fluid has not
    arrived. *)
Definition sampleMovingToA : Fluidic_t :=
  let d := sampleDrivers 20 FLUID_DETECTED in
  XRun (pc := samplePiezo)
    [(d, sampleMove BC_POS_FLUID_A);
     (d, X_EV_TIMER); (d, X_EV_TIMER); (d, X_EV_TIMER); (d, X_EV_TIMER);
     (d, X_EV_TIMER); (d, X_EV_TIMER)]
    sampleAtDown.

(** A mix command between B and A. *)
Definition sampleMix (cycles : Z) (ty : eFluidMixingType_t) (factor : Q)
  : FluidicMixMsg_t :=
  {| mx_eTargetPos := BC_POS_FLUID_A; mx_mixFrequency := 1; mx_mixTime := 30000;
     mx_mixCycles := cycles; mx_eMixType := ty;
     mx_openLoopCompensationFactor := factor;
     mx_mixDownstrokeProportion := 1 # 2 |}.

(** ** The claims that the code does not meet, as the specification states them *)


(** Lift-bladders is accepted from idle with the position unknown. *)
Definition lift_accepted_from_unknown : Prop :=
  forall (pc : PiezoConsts) (me : Fluidic_t) (ramp : Q) (timeout : Z),
    state me = S_Idle ->
    eLastKnownPos me = BC_POS_UNKNOWN ->
    Qgtb ramp PIEZO_RAMP_MAX = false ->
    eval (FluidicLiftUpBladder ramp timeout) me = OK_COMMAND_ACCEPTED.


(** The hysteresis of every position of the table is inside the range in
    every object that can arise. *)
Definition hysteresis_always_in_range : Prop :=
  forall (pc : PiezoConsts) (me : Fluidic_t) (p : eFluidicPositions_t),
    Reachable me ->
    isContact p || isBladderEnd p = true ->
    inHystRange (hystOf me p).
(** ** Further sample objects *)

(** The move to contact A of [sampleMovingToA] with the fluid front just
    reported at A. *)
Definition sampleArrivingAtA : Fluidic_t :=
  XDispatch (pc := samplePiezo) (sampleDrivers 30 FLUID_POSITION_A)
    (XMSG_EC_FLUID_STATUS_CHANGED (fun _ => FLUID_POSITION_A)) sampleMovingToA.

(** A move to contact A with a timeout of 100 ms, just past the strip
    check: the piezo ramps and no time has been counted yet. *)
Definition sampleShortMoveToA : Fluidic_t :=
  let d := sampleDrivers 20 FLUID_DETECTED in
  XRun (pc := samplePiezo)
    [(d, XMSG_FLUID_CHANNEL_MOVE_TO
           {| mv_eTargetPos := BC_POS_FLUID_A; mv_rampSpeedVoltsPerSec := 25 # 10;
              mv_eOvershootComp := FLUID_OVERSHOOT_COMP_NONE;
              mv_overshootCompProportion := 0; mv_timeout_ms := 100 |});
     (d, X_EV_TIMER); (d, X_EV_TIMER); (d, X_EV_TIMER); (d, X_EV_TIMER);
     (d, X_EV_TIMER)]
    sampleAtDown.

(** A homing move that has run for 980 ms of its 1000 ms without the piezo
    reporting. *)
Definition sampleHomingLate : Fluidic_t :=
  let d := sampleDrivers 100 NO_FLUID_DETECTED in
  XRun (pc := samplePiezo) ((d, sampleMove BC_POS_HOME) :: repeat (d, X_EV_TIMER) 49)
    sampleStarted.

(** ** Further vocabulary *)

(** The three mixing states. *)
Definition isMixState (s : LeafState) : bool :=
  match s with
  | S_MixContactControlled | S_MixPiezoControlled | S_MixWaitContinue => true
  | _ => false
  end.

(** A move to contact A commanded with no strip inserted, 80 ms into the
    strip check. *)
Definition sampleCheckingStrip : Fluidic_t :=
  let d := sampleDrivers 10 NO_STRIP_DETECTED in
  XRun (pc := samplePiezo)
    [(d, sampleMove BC_POS_FLUID_A);
     (d, X_EV_TIMER); (d, X_EV_TIMER); (d, X_EV_TIMER); (d, X_EV_TIMER)]
    sampleAtDown.

(** The clamp of the hysteresis adaptation. *)
Definition clampHysteresis (h : Q) : Q :=
  if Qltb FLUIDIC_HYSETRISIS_MAX h then FLUIDIC_HYSETRISIS_MAX
  else if Qgtb FLUIDIC_HYSETRISIS_MIN h then FLUIDIC_HYSETRISIS_MIN
  else h.

(** ** Where outputs come from *)

(** [Emits P c]: whatever the computation [c] adds to the log satisfies [P],
    and it only adds to the log. *)
Definition Emits (P : Output -> Prop) {A : Type} (c : M A) : Prop :=
  forall me, exists new, log (snd (c me)) = new ++ log me /\ Forall P new.

(** The state handlers and events that publish each message, read off the
    publication sites of fluidics.c.  The move-complete, move-fail and
    command-failed messages are published from many places and are not
    restricted here. *)
Definition publishedBy (s : LeafState) (ev : XEvent) (m : Published) : bool :=
  match m with
  | Pub_breachDetectedMsg =>
      match s, ev with
      | S_MonitorFluidBreach, XMSG_EC_FLUID_STATUS_CHANGED _ => true
      | _, _ => false
      end
  | Pub_stageCompelteMsg =>
      match s, ev with
      | S_MixWaitContinue, X_EV_ENTRY => true
      | _, _ => false
      end
  | Pub_errorMsg _ =>
      match s, ev with
      | S_Err, X_EV_ENTRY => true
      | _, _ => false
      end
  | Pub_fcStopBladderDetectMsg =>
      match s, ev with
      | S_MoveOther, X_EV_TIMER => true
      | _, _ => false
      end
  | Pub_fcStartBladderDetectMsg =>
      match s, ev with
      | S_MoveOther, X_EV_TIMER | S_LiftUpBladder, X_EV_TIMER => true
      | _, _ => false
      end
  | Pub_mixCmpltMsg _ _ =>
      match s, ev with
      | S_MixContactControlled, X_EV_TIMER
      | S_MixContactControlled, XMSG_PIEZO_MOVE_COMPLTE _ _
      | S_MixPiezoControlled, XMSG_PIEZO_MOVE_COMPLTE _ _ => true
      | _, _ => false
      end
  | Pub_moveSuccessMsg _ _ _ _ | Pub_moveFailMsg _ _ | Pub_cmdFail _ => true
  end.

(** The state handlers and events that command the piezo to a voltage: the
    entry of the five moving states and, for the overshoot compensation, the
    stop of the piezo awaited after a move to a contact. *)
Definition commandsPiezoVoltage (s : LeafState) (ev : XEvent) : bool :=
  match s, ev with
  | S_MoveContact, X_EV_ENTRY | S_MoveOther, X_EV_ENTRY
  | S_LiftUpBladder, X_EV_ENTRY | S_MixContactControlled, X_EV_ENTRY
  | S_MixPiezoControlled, X_EV_ENTRY
  | S_WaitForPiezoStop, XMSG_PIEZO_STOPPED _ _ => true
  | _, _ => false
  end.

(** The state handlers and events that assign to a cell of the table of
    positions at the index of the target position, whatever that is: the
    stop of the piezo awaited after a move to a contact, and the two ends of
    a contact-controlled mix stroke. *)
Definition storesAtTarget (s : LeafState) (ev : XEvent) : bool :=
  match s, ev with
  | S_WaitForPiezoStop, XMSG_PIEZO_STOPPED _ _
  | S_MixContactControlled, X_EV_TIMER
  | S_MixContactControlled, XMSG_PIEZO_MOVE_COMPLTE _ _ => true
  | _, _ => false
  end.

Definition allowedOutput (s : LeafState) (ev : XEvent) (o : Output) : bool :=
  match o with
  | OutPublish m => publishedBy s ev m
  | OutPiezoVoltageSet _ => commandsPiezoVoltage s ev
  | OutPiezoHome =>
      match s, ev with
      | S_MoveOther, X_EV_ENTRY => true
      | _, _ => false
      end
  | OutOfTableStore _ => storesAtTarget s ev
  | _ => true
  end.

(** The outputs that [me'] has and [me] had not, newest first, for a log
    that has only grown. *)
Definition newOutputs (me me' : Fluidic_t) : list Output :=
  firstn (length (log me') - length (log me)) (log me').

(** The messages the tables restrict, and the commands that set the piezo
    in motion. *)
Definition publicationAllowed (s : LeafState) (ev : XEvent) (o : Output) : bool :=
  match o with
  | OutPublish m => publishedBy s ev m
  | _ => true
  end.

Definition piezoCommandAllowed (s : LeafState) (ev : XEvent) (o : Output) : bool :=
  match o with
  | OutPiezoVoltageSet _ => commandsPiezoVoltage s ev
  | OutPiezoHome =>
      match s, ev with
      | S_MoveOther, X_EV_ENTRY => true
      | _, _ => false
      end
  | _ => true
  end.

Definition tableStoreAllowed (s : LeafState) (ev : XEvent) (o : Output) : bool :=
  match o with
  | OutOfTableStore _ => storesAtTarget s ev
  | _ => true
  end.

Definition isStatusChanged (ev : XEvent) : bool :=
  match ev with
  | XMSG_EC_FLUID_STATUS_CHANGED _ => true
  | _ => false
  end.

(** Breach monitoring at contact A, reached from contact B by a reverse
    move with monitoring enabled. *)
Definition sampleMonitoringAReversed : Fluidic_t :=
  sampleMoveTo BC_POS_FLUID_A FLUID_DETECTED 28 sampleMonitoringB.

(** A forward move to contact A with compensation by piezo voltage (one
    half), at the point where the contact is seen and the piezo has been
    told to stop. *)
Definition sampleStoppingAtA : Fluidic_t :=
  let d := sampleDrivers 30 FLUID_DETECTED in
  XRun (pc := samplePiezo)
    [(d, XMSG_FLUID_CHANNEL_MOVE_TO
           {| mv_eTargetPos := BC_POS_FLUID_A; mv_rampSpeedVoltsPerSec := 25 # 10;
              mv_eOvershootComp := FLUID_OVERSHOOT_COMP_PIEZO_VOLTS;
              mv_overshootCompProportion := 1 # 2; mv_timeout_ms := 30000 |});
     (d, X_EV_TIMER); (d, X_EV_TIMER); (d, X_EV_TIMER); (d, X_EV_TIMER);
     (d, X_EV_TIMER);
     (d, XMSG_EC_FLUID_STATUS_CHANGED (fun _ => FLUID_POSITION_A));
     (d, X_EV_TIMER)]
    sampleAtDown.


(** ** A mix in progress *)









(** * Properties *)

Local Open Scope fl_scope.

(** ** Proof support *)

Ltac destruct_me me :=
  let ps := fresh "ps" in
  let st := fresh "st" in
  destruct me as [? ? ? ? ps ? ? st ? ? ? ? ? ? ?];
  destruct ps; destruct st; cbn in *.

Ltac fl_simpl :=
  repeat (progress (autounfold with fl flset; cbn -[FluidicsErrorSet])).

Lemma publications_app (l1 l2 : list Output) :
  publications (l1 ++ l2) = publications l2 ++ publications l1.
Proof.
  unfold publications. rewrite flat_map_app, rev_app_distr. reflexivity.
Qed.

Lemma publications_pub (m : Published) (l : list Output) :
  publications (OutPublish m :: l) = publications l ++ [m].
Proof. reflexivity. Qed.

Lemma publications_skip (o : Output) (l : list Output) :
  (forall m, o <> OutPublish m) ->
  publications (o :: l) = publications l.
Proof.
  intros H. destruct o; try reflexivity.
  exfalso. eapply H. reflexivity.
Qed.

Ltac pubs :=
  repeat first
    [ rewrite publications_pub
    | rewrite publications_skip by (intros ?; discriminate) ];
  rewrite <- ?app_assoc; cbn [app].

(** A non-critical error passes the closing classification without a
    transition; it is reported unless it is [OK_STATUS]. *)
Lemma FluidicsErrorSet_noncritical (err : eErrorCode) (r : XState) (me : Fluidic_t) :
  FLUIDIC_CIRITICAL_ERR err = false ->
  FluidicsErrorSet err r me
  = (r, if is_OK_STATUS err then me else set_log (OutErrorCheck err :: log me) me).
Proof.
  intros H. unfold FluidicsErrorSet.
  destruct (is_OK_STATUS err) eqn:E; cbn; [reflexivity|].
  rewrite H. reflexivity.
Qed.

(** Entering the idle state when the drivers report nothing critical. *)
Lemma Idle_entry_noncritical {pc : PiezoConsts} (d : Drivers) (me : Fluidic_t) :
  FLUIDIC_CIRITICAL_ERR (r_ecDisable d (eChannel (pParams me))) = false ->
  FLUIDIC_CIRITICAL_ERR (r_piezoStop d) = false ->
  let r := FluidicState_Idle d X_EV_ENTRY me in
  fst r = X_RET_HANDLED /\
  state (snd r) = state me /\
  eLastKnownPos (snd r) = eLastKnownPos me /\
  eTargetPos (snd r) = BC_NONE /\
  pParams (snd r) = pParams me /\
  publications (log (snd r)) = publications (log me).
Proof.
  intros H1 H2. destruct_me me. fl_simpl.
  destruct (is_OK_STATUS (r_ecDisable d eChannel0)) eqn:E1; fl_simpl.
  - rewrite FluidicsErrorSet_noncritical by assumption.
    destruct (is_OK_STATUS (r_piezoStop d)); cbn; pubs; repeat split; reflexivity.
  - rewrite FluidicsErrorSet_noncritical by assumption.
    rewrite E1. cbn. pubs. repeat split; reflexivity.
Qed.


Arguments wrap32 z : simpl never.

Lemma wrap32_small (z : Z) : 0 <= z < 2 ^ 32 -> wrap32 z = z.
Proof. intros H. unfold wrap32. apply Z.mod_small. exact H. Qed.

Lemma XRun_app {pc : PiezoConsts} (l1 l2 : list (Drivers * XEvent)) (me : Fluidic_t) :
  XRun (l1 ++ l2) me = XRun l2 (XRun l1 me).
Proof.
  revert me. induction l1 as [|[d ev] l1 IH]; intros me; cbn; [reflexivity|].
  apply IH.
Qed.

Ltac use_ok H :=
  let H1 := fresh "Hset" in
  let H2 := fresh "Hstop" in
  let H3 := fresh "Hhome" in
  let H4 := fresh "Hdis" in
  let H5 := fresh "Hfill" in
  destruct H as [H1 H2 H3 H4 H5].

Lemma XTransition_S {pc : PiezoConsts} (d : Drivers) (fuel : nat)
    (source : LeafState) (me : Fluidic_t) :
  XTransition d (S fuel) source me
  = let target := state me in
    let me := exec (handlerOf d source X_EV_EXIT) me in
    let '(retCode, me) := handlerOf d target X_EV_ENTRY me in
    match retCode with
    | X_RET_TRAN => XTransition d fuel target me
    | _ => me
    end.
Proof. reflexivity. Qed.

(** Symbolic evaluation of a handler on an object given field by field: the
    handlers unfold, the answers of accepting drivers are put in, and a
    transition is followed once the handler that asks for it has run. *)
Ltac fl_eval :=
  do 40 try (progress
    (autounfold with fl flset;
     cbn -[Qplus Qminus Qmult Qabs Qle_bool Z.div wrap32 XTransition
           FluidCheckMixParams];
     repeat match goal with
       | H : forall p, r_piezoVoltageSet _ p = _ |- _ => rewrite !H
       | H : r_piezoStop _ = _ |- _ => rewrite !H
       | H : r_piezoHome _ = _ |- _ => rewrite !H
       | H : forall ch, r_ecDisable _ ch = _ |- _ => rewrite !H
       | H : forall ch p, r_ecSetModeFillDetect _ ch p = _ |- _ => rewrite !H
       | H : ?c = true |- context [if ?c then _ else _] => rewrite H
       | H : ?c = false |- context [if ?c then _ else _] => rewrite H
       | |- context [?x =? ?x] => rewrite (Z.eqb_refl x)
       | |- context [if Qgtb ?a ?b then _ else _] =>
           let v := eval cbv -[round32] in (Qgtb a b) in
           match v with
           | true => change (Qgtb a b) with true
           | false => change (Qgtb a b) with false
           end
       | |- context [wrap32 _] => rewrite wrap32_small by lia
       | H : posInTable ?p = _ |- context [posInTable ?p] => rewrite H
       | |- context [XTransition _ (S _) _
                       (Build_Fluidic_t _ _ _ _ _ _ _ _ _ _ _ _ _ _ _)] =>
           rewrite XTransition_S
       end)).

(** Evaluates the innermost dispatch on an object given field by field. *)
Ltac step_dispatch :=
  match goal with
  | |- context [XDispatch ?d ?ev
                  (Build_Fluidic_t ?a1 ?a2 ?a3 ?a4 ?a5 ?a6 ?a7 ?a8 ?a9 ?a10
                     ?a11 ?a12 ?a13 ?a14 ?a15)] =>
      let r := fresh "r" in
      let E := fresh "E" in
      evar (r : Fluidic_t);
      assert (E : XDispatch d ev
                    (Build_Fluidic_t a1 a2 a3 a4 a5 a6 a7 a8 a9 a10
                       a11 a12 a13 a14 a15) = r);
      [ unfold XDispatch; fl_eval; subst r; reflexivity
      | rewrite E; clear E; subst r ]
  end.




















(** ** Hysteresis: what a step can do to it *)

Lemma hystStep_refl (me : Fluidic_t) : hystStep me me.
Proof. intros p. left. reflexivity. Qed.

Lemma hystStep_trans (a b c : Fluidic_t) :
  hystStep a b -> hystStep b c -> hystStep a c.
Proof.
  intros Hab Hbc p. destruct (Hbc p) as [E|R]; [|right; exact R].
  rewrite E. apply Hab.
Qed.

Lemma clamp_inHystRange (h : Q) :
  inHystRange
    (if Qltb FLUIDIC_HYSETRISIS_MAX h then FLUIDIC_HYSETRISIS_MAX
     else if Qgtb FLUIDIC_HYSETRISIS_MIN h then FLUIDIC_HYSETRISIS_MIN
     else h).
Proof.
  unfold inHystRange, Qltb, Qgtb.
  destruct (Qle_bool h FLUIDIC_HYSETRISIS_MAX) eqn:E1; cbn [negb].
  - destruct (Qle_bool FLUIDIC_HYSETRISIS_MIN h) eqn:E2; cbn [negb].
    + split; apply Qle_bool_iff; assumption.
    + split; [apply Qle_refl | discriminate].
  - split; [discriminate | apply Qle_refl].
Qed.

Lemma HystPres_ret {A : Type} (a : A) : HystPres (ret a).
Proof. intros me. apply hystStep_refl. Qed.

Lemma HystPres_bind {A B : Type} (c : M A) (k : A -> M B) :
  HystPres c -> (forall a, HystPres (k a)) -> HystPres (bind c k).
Proof.
  intros Hc Hk me. unfold bind. specialize (Hc me).
  destruct (c me) as [a me1]. cbn [snd] in Hc.
  eapply hystStep_trans; [exact Hc | apply Hk].
Qed.

Lemma HystPres_get : HystPres get.
Proof. intros me. apply hystStep_refl. Qed.

Lemma HystPres_gets {A : Type} (f : Fluidic_t -> A) : HystPres (gets f).
Proof. intros me. apply hystStep_refl. Qed.

Lemma HystPres_modify (f : Fluidic_t -> Fluidic_t) :
  (forall me, positionLimits (pParams (f me)) = positionLimits (pParams me)) ->
  HystPres (modify f).
Proof.
  intros H me p. left. unfold hystOf.
  change (snd (modify f me)) with (f me). rewrite H. reflexivity.
Qed.

Lemma HystPres_modify_params (f : FluidicParams_t -> FluidicParams_t) :
  (forall ps, positionLimits (f ps) = positionLimits ps) ->
  HystPres (modify_params f).
Proof.
  intros H me p. left. unfold hystOf.
  change (pParams (snd (modify_params f me))) with (f (pParams me)).
  rewrite H. reflexivity.
Qed.

Lemma HystPres_modify_status (f : FluididStatus_t -> FluididStatus_t) :
  HystPres (modify_status f).
Proof. intros me p. left. reflexivity. Qed.

(** The table after an assignment, whether or not the index is in it. *)
Lemma modify_limits_table (q : eFluidicPositions_t)
    (f : FluidicPositionLimits_t -> FluidicPositionLimits_t) (me : Fluidic_t) :
  positionLimits (pParams (snd (modify_limits q f me)))
  = upd_limits q f (positionLimits (pParams me)).
Proof. unfold modify_limits, when. destruct (posInTable q); reflexivity. Qed.

Lemma HystPres_modify_limits_volts (q : eFluidicPositions_t) (v : Q) :
  HystPres (modify_limits q (set_targetVolts v)).
Proof.
  intros me p. left. unfold hystOf. rewrite modify_limits_table.
  unfold upd_limits. destruct (pos_eqb q p); reflexivity.
Qed.

Lemma HystPres_emit (o : Output) : HystPres (emit o).
Proof. intros me p. left. reflexivity. Qed.

Lemma AdjustHysterisisVoltage_limits (t : eFluidicHysterisisChangeType_t)
    (me : Fluidic_t) (p : eFluidicPositions_t) :
  positionLimits (pParams (snd (AdjustHysterisisVoltage t me))) p
  = upd_limits (eTargetPos me)
      (set_posHysterisis
         (let h := f32_mul (posHysterisis (positionLimits (pParams me) (eTargetPos me)))
                           (hysterisisMultipliersVolts (pParams me) t) in
          if Qltb FLUIDIC_HYSETRISIS_MAX h then FLUIDIC_HYSETRISIS_MAX
          else if Qgtb FLUIDIC_HYSETRISIS_MIN h then FLUIDIC_HYSETRISIS_MIN
          else h))
      (positionLimits (pParams me)) p.
Proof.
  unfold AdjustHysterisisVoltage, bind, get. rewrite modify_limits_table.
  reflexivity.
Qed.

Lemma HystPres_AdjustHysterisisVoltage (t : eFluidicHysterisisChangeType_t) :
  HystPres (AdjustHysterisisVoltage t).
Proof.
  intros me p. unfold hystOf. rewrite AdjustHysterisisVoltage_limits.
  unfold upd_limits.
  destruct (pos_eqb (eTargetPos me) p); [right|left; reflexivity].
  cbv zeta. unfold set_posHysterisis. cbn [posHysterisis].
  apply clamp_inHystRange.
Qed.

Ltac hyst_pres :=
  repeat (cbv beta zeta; first
    [ apply HystPres_ret
    | apply HystPres_get
    | apply HystPres_gets
    | apply HystPres_emit
    | apply HystPres_modify_status
    | apply HystPres_modify_limits_volts
    | apply HystPres_AdjustHysterisisVoltage
    | apply HystPres_modify; intros ?; reflexivity
    | apply HystPres_modify_params; intros ?; reflexivity
    | apply HystPres_bind; [|intros ?]
    | match goal with
      | |- HystPres (if ?c then _ else _) => destruct c
      | |- HystPres (match ?x with _ => _ end) => destruct x
      | |- HystPres (let '(_, _) := ?r in _) => destruct r
      end
    | progress unfold X_TRAN, X_TRAN_ERROR, XFSM_IS_STATE, X_PUBLISH,
        XTimerStart, XTimerStop, ERROR_CHECK, XActivePost, FluidicsErrorSet
    | progress autounfold with fl ]).

Lemma HystPres_handlerOf {pc : PiezoConsts} (d : Drivers) (s : LeafState)
    (ev : XEvent) : HystPres (handlerOf d s ev).
Proof. destruct s; cbn [handlerOf]; hyst_pres. Qed.

Lemma hystStep_XTransition {pc : PiezoConsts} (d : Drivers) (fuel : nat) :
  forall (source : LeafState) (me : Fluidic_t),
    hystStep me (XTransition d fuel source me).
Proof.
  induction fuel as [|fuel IH]; intros source me; cbn [XTransition];
    pose proof (HystPres_handlerOf d source X_EV_EXIT me) as Hexit;
    unfold exec;
    pose proof (HystPres_handlerOf d (state me) X_EV_ENTRY
                  (snd (handlerOf d source X_EV_EXIT me))) as Hentry;
    destruct (handlerOf d (state me) X_EV_ENTRY
                (snd (handlerOf d source X_EV_EXIT me))) as [r me2];
    cbn [snd] in Hentry;
    pose proof (hystStep_trans _ _ _ Hexit Hentry) as H.
  - destruct r; exact H.
  - destruct r; try exact H.
    eapply hystStep_trans; [exact H | apply IH].
Qed.

Lemma hystStep_XDispatch {pc : PiezoConsts} (d : Drivers) (ev : XEvent)
    (me : Fluidic_t) : hystStep me (XDispatch d ev me).
Proof.
  unfold XDispatch.
  pose proof (HystPres_handlerOf d (state me) ev me) as H.
  destruct (handlerOf d (state me) ev me) as [r me1]. cbn [snd] in H.
  destruct r; try exact H.
  eapply hystStep_trans; [exact H | apply hystStep_XTransition].
Qed.

Lemma hystStep_XActiveStart {pc : PiezoConsts} (d : Drivers) (me : Fluidic_t) :
  hystStep me (XActiveStart d me).
Proof.
  unfold XActiveStart.
  pose proof (HystPres_handlerOf d (state me) X_EV_ENTRY me) as H.
  destruct (handlerOf d (state me) X_EV_ENTRY me) as [r me1]. cbn [snd] in H.
  destruct r; try exact H.
  pose proof (HystPres_handlerOf d (state me1) X_EV_ENTRY me1) as H1.
  destruct (handlerOf d (state me1) X_EV_ENTRY me1) as [r1 me2]. cbn [snd] in H1.
  pose proof (hystStep_trans _ _ _ H H1) as H2.
  destruct r1; try exact H2.
  eapply hystStep_trans; [exact H2 | apply hystStep_XTransition].
Qed.

Lemma HystPres_apiCall {pc : PiezoConsts} (d : Drivers) (c : ApiCall) :
  HystPres (apiCall d c).
Proof. destruct c; cbn [apiCall]; hyst_pres. Qed.

(** In every object that can arise, the hysteresis of each position is the
    one of the default bundle or lies inside the range. *)
Lemma Reachable_hysteresis {pc : PiezoConsts} (me : Fluidic_t) :
  Reachable me ->
  forall p, hystOf me p = posHysterisis (defaultPositionLimits p)
            \/ inHystRange (hystOf me p).
Proof.
  induction 1 as [ch d | d ev me Hr IH | d c me Hr IH]; intros p.
  - destruct (hystStep_XActiveStart d (FluidicInit (bladderDefaultParams ch)) p)
      as [E|R]; [left; rewrite E; reflexivity | right; exact R].
  - destruct (hystStep_XDispatch d ev me p) as [E|R];
      [rewrite E; apply IH | right; exact R].
  - destruct (HystPres_apiCall d c me p) as [E|R];
      [unfold exec; rewrite E; apply IH | right; exact R].
Qed.

(** ** The command gate *)

(** C5: the legality of a move is exactly the matrix (from Home only Home and
    Down, from Down and from a contact any position that is not a sentinel,
    from Unknown or None only Home), and the parameter check answers an
    illegal pair, and only an illegal pair, with the invalid-move error. *)
Theorem C5_move_legality_matrix {pc : PiezoConsts} :
  (forall current target,
      bladderControlCheckValidPosChange current target = moveMatrix current target) /\
  (forall me target ramp timeout mode proportion,
      is_INVALID_MOVE (FluidCheckMoveParams me target ramp timeout mode proportion)
      = negb (moveMatrix (eLastKnownPos me) target)).
Proof.
  split.
  - intros current target. destruct current, target; reflexivity.
  - intros me target ramp timeout mode proportion.
    unfold FluidCheckMoveParams, bladderControlCheckMoveValid.
    destruct (eLastKnownPos me), target; cbn;
      repeat match goal with
        | |- context [if ?c then _ else _] => destruct c
        end; reflexivity.
Qed.

(** C9: while the state machine is neither idle nor monitoring for a breach,
    a move to a position other than Home and a mix are answered with
    not-ready whatever their parameters; any other answer to such a call
    shows that the controller was in an accepting state. *)
Theorem C9_not_ready_before_validation {pc : PiezoConsts} (d : Drivers)
    (me : Fluidic_t) :
  (FluidicStateCanAcceptCommand me = false ->
   (forall target ramp timeout mode proportion,
       pos_eqb target BC_POS_HOME = false ->
       eval (FluidicMove target ramp timeout mode proportion) me
       = ERROR_OBJECT_NOT_READY) /\
   (forall target freq timeout cycles ty factor proportion,
       eval (FluidicMix d target freq timeout cycles ty factor proportion) me
       = ERROR_OBJECT_NOT_READY)) /\
  (forall target ramp timeout mode proportion,
      pos_eqb target BC_POS_HOME = false ->
      eval (FluidicMove target ramp timeout mode proportion) me
      <> ERROR_OBJECT_NOT_READY ->
      FluidicStateCanAcceptCommand me = true) /\
  (forall target freq timeout cycles ty factor proportion,
      eval (FluidicMix d target freq timeout cycles ty factor proportion) me
      <> ERROR_OBJECT_NOT_READY ->
      FluidicStateCanAcceptCommand me = true).
Proof.
  split; [|split].
  - intros Hbusy. split.
    + intros target ramp timeout mode proportion Hh.
      unfold eval, FluidicMove. rewrite Hh. cbn. rewrite Hbusy. reflexivity.
    + intros. unfold eval, FluidicMix. cbn. rewrite Hbusy. reflexivity.
  - intros target ramp timeout mode proportion Hh.
    unfold eval, FluidicMove. rewrite Hh. cbn.
    destruct (FluidicStateCanAcceptCommand me); [reflexivity|].
    intros Hne. exfalso. apply Hne. reflexivity.
  - intros target freq timeout cycles ty factor proportion.
    unfold eval, FluidicMix. cbn.
    destruct (FluidicStateCanAcceptCommand me); [reflexivity|].
    intros Hne. exfalso. apply Hne. reflexivity.
Qed.

(** C10: the lift-bladders call writes Home into the target position of the
    object before it validates anything, so a rejected call, which posts
    nothing and leaves the state machine where it is, still has changed the
    target position. *)
Theorem C10_lift_bladders_writes_target_first {pc : PiezoConsts}
    (me : Fluidic_t) (ramp : Q) (timeout : Z) :
  eval (FluidicLiftUpBladder ramp timeout) me <> OK_COMMAND_ACCEPTED ->
  let me' := exec (FluidicLiftUpBladder ramp timeout) me in
  eTargetPos me' = BC_POS_HOME /\
  evQueue me' = evQueue me /\
  state me' = state me /\
  eLastKnownPos me' = eLastKnownPos me.
Proof.
  unfold eval, exec, FluidicLiftUpBladder. cbn.
  match goal with
  | |- context [is_OK_STATUS ?e] => destruct (is_OK_STATUS e)
  end.
  - match goal with
    | |- context [FluidicStateCanAcceptCommand ?m] =>
        destruct (FluidicStateCanAcceptCommand m)
    end; cbn; intros Hne.
    + exfalso. apply Hne. reflexivity.
    + repeat split; reflexivity.
  - cbn. intros _. repeat split; reflexivity.
Qed.

(** C6: a move to Home is accepted by the API in every state and without a
    look at its parameters: the call writes Home into the target of the move
    message, leaves the other members of the message as they are, and posts
    it.  When the controller then handles the message the call has posted,
    in whatever state past the initial one, it takes Home as its target,
    sets the ramp speed to the high default, the timeout to 1000 ms and the
    overshoot compensation to none (proportion 0) whatever the caller
    passed, and goes to the move to a bladder end, whose entry commands the
    piezo home.  The handler does the same for every message whose target is
    Home.  A move to any other position is accepted only while the state
    machine is idle or monitoring for a breach. *)
Theorem C6_home_move_always_accepted {pc : PiezoConsts} :
  (forall me ramp timeout mode proportion,
      let r := FluidicMove BC_POS_HOME ramp timeout mode proportion me in
      fst r = OK_COMMAND_ACCEPTED /\
      state (snd r) = state me /\
      evQueue (snd r)
      = evQueue me
        ++ [XMSG_FLUID_CHANNEL_MOVE_TO
              {| mv_eTargetPos := BC_POS_HOME;
                 mv_rampSpeedVoltsPerSec := mv_rampSpeedVoltsPerSec (moveMsg me);
                 mv_eOvershootComp := mv_eOvershootComp (moveMsg me);
                 mv_overshootCompProportion := mv_overshootCompProportion (moveMsg me);
                 mv_timeout_ms := mv_timeout_ms (moveMsg me) |}]) /\
  (forall d me ramp timeout mode proportion ev,
      state me <> S_Init ->
      let me1 := exec (FluidicMove BC_POS_HOME ramp timeout mode proportion) me in
      evQueue me1 = evQueue me ++ [ev] ->
      let r := handlerOf d (state me1) ev me1 in
      let me2 := XDispatch d ev me1 in
      (fst r = X_RET_TRAN /\
       state (snd r) = S_MoveOther /\
       eTargetPos (snd r) = BC_POS_HOME /\
       rampSpeedVoltsPerSec (pParams (snd r)) = FLUID_SPEED_HIGH_DEFAULT_V_PER_S /\
       timeout_ms (pParams (snd r)) = 1000 /\
       eOvershootCompensationType (pParams (snd r)) = FLUID_OVERSHOOT_COMP_NONE /\
       compensationProportion (pParams (snd r)) = 0%Q) /\
      In OutPiezoHome (log me2) /\
      (DriversOk d ->
       state me2 = S_MoveOther /\
       eTargetPos me2 = BC_POS_HOME /\
       timeoutTimer me2 = 0 /\
       rampSpeedVoltsPerSec (pParams me2) = FLUID_SPEED_HIGH_DEFAULT_V_PER_S /\
       timeout_ms (pParams me2) = 1000 /\
       eOvershootCompensationType (pParams me2) = FLUID_OVERSHOOT_COMP_NONE /\
       compensationProportion (pParams me2) = 0%Q /\
       publications (log me2) = publications (log me))) /\
  (forall d me m,
      state me <> S_Init ->
      mv_eTargetPos m = BC_POS_HOME ->
      let r := handlerOf d (state me) (XMSG_FLUID_CHANNEL_MOVE_TO m) me in
      fst r = X_RET_TRAN /\
      state (snd r) = S_MoveOther /\
      eTargetPos (snd r) = BC_POS_HOME /\
      rampSpeedVoltsPerSec (pParams (snd r)) = FLUID_SPEED_HIGH_DEFAULT_V_PER_S /\
      timeout_ms (pParams (snd r)) = 1000 /\
      eOvershootCompensationType (pParams (snd r)) = FLUID_OVERSHOOT_COMP_NONE /\
      compensationProportion (pParams (snd r)) = 0%Q) /\
  (forall me target ramp timeout mode proportion,
      pos_eqb target BC_POS_HOME = false ->
      eval (FluidicMove target ramp timeout mode proportion) me = OK_COMMAND_ACCEPTED ->
      state me = S_Idle \/ state me = S_MonitorFluidBreach).
Proof.
  assert (Hhandler : forall d me m,
             state me <> S_Init ->
             mv_eTargetPos m = BC_POS_HOME ->
             let r := handlerOf d (state me) (XMSG_FLUID_CHANNEL_MOVE_TO m) me in
             fst r = X_RET_TRAN /\
             state (snd r) = S_MoveOther /\
             eTargetPos (snd r) = BC_POS_HOME /\
             rampSpeedVoltsPerSec (pParams (snd r)) = FLUID_SPEED_HIGH_DEFAULT_V_PER_S /\
             timeout_ms (pParams (snd r)) = 1000 /\
             eOvershootCompensationType (pParams (snd r)) = FLUID_OVERSHOOT_COMP_NONE /\
             compensationProportion (pParams (snd r)) = 0%Q).
  { intros d me m Hs Hm r. subst r.
    destruct m as [t ? ? ? ?]. cbn in Hm. subst t.
    destruct_me me.
    destruct state0; try (exfalso; apply Hs; reflexivity);
      repeat split; reflexivity. }
  split; [|split; [|split]].
  - intros me ramp timeout mode proportion r. subst r.
    destruct_me me. destruct moveMsg0. repeat split; reflexivity.
  - intros d me ramp timeout mode proportion ev Hs me1 Hq r me2.
    assert (Hev : ev = XMSG_FLUID_CHANNEL_MOVE_TO
                         (set_mv_eTargetPos BC_POS_HOME (moveMsg me))).
    { subst me1. change (evQueue me ++ [XMSG_FLUID_CHANNEL_MOVE_TO
                           (set_mv_eTargetPos BC_POS_HOME (moveMsg me))]
                         = evQueue me ++ [ev]) in Hq.
      apply app_inv_head in Hq. injection Hq as Hq. symmetry. exact Hq. }
    subst r me2 me1 ev. destruct_me me. destruct moveMsg0 as [mt mr mc mp mto].
    split; [|split].
    + destruct state0; try (exfalso; apply Hs; reflexivity);
        repeat split; reflexivity.
    + destruct (r_piezoHome d) eqn:Eh;
        destruct state0; try (exfalso; apply Hs; reflexivity);
        unfold XDispatch, exec; fl_eval; rewrite ?Eh; fl_eval; cbn; auto 20.
    + intros Hok. use_ok Hok.
      destruct state0; try (exfalso; apply Hs; reflexivity);
        unfold XDispatch, exec; fl_eval; pubs; repeat split; reflexivity.
  - exact Hhandler.
  - intros me target ramp timeout mode proportion Hh.
    unfold eval, FluidicMove. rewrite Hh. cbn.
    unfold FluidicStateCanAcceptCommand.
    destruct (state me); cbn; intros Hr; try discriminate Hr; auto.
Qed.

(** ** Door opening *)

(** The door event, in whatever state it arrives, clears the completion
    flag and starts a homing move. *)
Lemma door_opened_starts_homing {pc : PiezoConsts} (d : Drivers) (me : Fluidic_t) :
  DriversOk d ->
  state me <> S_Init ->
  let me' := XDispatch d XMSG_DOOR_OPENED me in
  state me' = S_MoveOther /\
  eTargetPos me' = BC_POS_HOME /\
  publishCompletionEvent me' = false /\
  timeoutTimer me' = 0 /\
  eChannel (pParams me') = eChannel (pParams me) /\
  In OutPiezoHome (log me') /\
  publications (log me') = publications (log me).
Proof.
  intros Hok Hs me'. subst me'. use_ok Hok. destruct_me me.
  destruct state0; try (exfalso; apply Hs; reflexivity);
    unfold XDispatch; fl_eval; pubs;
    repeat split; try reflexivity; cbn; auto 10.
Qed.

(** The completion of a homing move is published, whatever the completion
    flag says. *)
Lemma homing_completion_published {pc : PiezoConsts} (d : Drivers) (volts : Q)
    (me : Fluidic_t) :
  DriversOk d ->
  state me = S_MoveOther ->
  eTargetPos me = BC_POS_HOME ->
  let me' := XDispatch d (XMSG_PIEZO_MOVE_COMPLTE (piezoChan d) volts) me in
  state me' = S_Idle /\
  eLastKnownPos me' = BC_POS_HOME /\
  publishCompletionEvent me' = true /\
  publications (log me')
  = publications (log me)
    ++ [Pub_moveSuccessMsg (eChannel (pParams me)) BC_POS_HOME (timeoutTimer me)
          (currentVoltage d)].
Proof.
  intros Hok Hs Ht me'. subst me'. use_ok Hok. destruct_me me. subst.
  unfold XDispatch. fl_eval. pubs. repeat split; reflexivity.
Qed.

(** C3, evaluated: after a door event the controller homes with the
    completion flag cleared, and when the piezo reports the move complete it
    publishes the move-complete event for Home all the same. *)
Theorem C3_door_homing_completion_is_published {pc : PiezoConsts}
    (d1 d2 : Drivers) (volts : Q) (me : Fluidic_t) :
  DriversOk d1 -> DriversOk d2 ->
  state me <> S_Init ->
  let me1 := XDispatch d1 XMSG_DOOR_OPENED me in
  let me2 := XDispatch d2 (XMSG_PIEZO_MOVE_COMPLTE (piezoChan d2) volts) me1 in
  state me1 = S_MoveOther /\
  eTargetPos me1 = BC_POS_HOME /\
  publishCompletionEvent me1 = false /\
  publications (log me2)
  = publications (log me)
    ++ [Pub_moveSuccessMsg (eChannel (pParams me)) BC_POS_HOME 0 (currentVoltage d2)].
Proof.
  intros Hok1 Hok2 Hs me1 me2.
  destruct (door_opened_starts_homing d1 me Hok1 Hs)
    as (Hs1 & Ht1 & Hf1 & Htm1 & Hch1 & _ & Hp1).
  fold me1 in Hs1, Ht1, Hf1, Htm1, Hch1, Hp1.
  destruct (homing_completion_published d2 volts me1 Hok2 Hs1 Ht1)
    as (_ & _ & _ & Hp2).
  fold me2 in Hp2.
  rewrite Hp2, Hp1, Hch1, Htm1. repeat split; assumption || reflexivity.
Qed.

(** ** Lifting the bladders *)

(** C2, as the code has it: from idle at a position from which Down is a
    legal target, a lift-bladders call with a ramp within the piezo maximum
    and a timeout above one timer period is accepted and posted.  Its
    handler enters the lift state, whose entry sets the time count to zero,
    starts the timer and ramps the piezo up, in this order and with nothing
    else sent out.  The first tick of that timer, which counts 20 ms,
    publishes the start of bladder detection and nothing else; the
    bladder-up event of the own channel stops the piezo; and the
    piezo-stopped event that follows records Down as the resting position,
    publishes the move-complete event with it, and returns to idle.  With
    the last known position Unknown or None the call is answered with
    invalid-move, in whatever state, and nothing is posted. *)
Theorem C2_lift_bladders_from_pressed {pc : PiezoConsts} (d : Drivers)
    (me : Fluidic_t) (ramp : Q) (timeout : Z) (volts : Q) :
  (DriversOk d ->
   state me = S_Idle ->
   moveMatrix (eLastKnownPos me) BC_POS_DOWN = true ->
   Qgtb ramp PIEZO_RAMP_MAX = false ->
   (timeout <=? 20) = false ->
   mv_eTargetPos (liftUpBlddrMsg me) = BC_POS_HOME ->
   mv_eOvershootComp (liftUpBlddrMsg me) = FLUID_OVERSHOOT_COMP_NONE ->
   mv_overshootCompProportion (liftUpBlddrMsg me) = 0%Q ->
   let msg := set_mv_ramp_timeout ramp timeout (liftUpBlddrMsg me) in
   let me1 := exec (FluidicLiftUpBladder ramp timeout) me in
   let me2 := XDispatch d (XMSG_FLUID_LIFT_UP_BLADDER msg) me1 in
   let me3 := XDispatch d X_EV_TIMER me2 in
   let me4 := XDispatch d (bladderUpEvent (eChannel (pParams me))) me3 in
   let me5 := XDispatch d (XMSG_PIEZO_STOPPED (piezoChan d) volts) me4 in
   eval (FluidicLiftUpBladder ramp timeout) me = OK_COMMAND_ACCEPTED /\
   evQueue me1 = evQueue me ++ [XMSG_FLUID_LIFT_UP_BLADDER msg] /\
   state me2 = S_LiftUpBladder /\
   timeoutTimer me2 = 0 /\
   log me2
   = OutErrorCheck OK_COMMAND_ACCEPTED
     :: OutPiezoVoltageSet
          {| targetVoltage := f32_add PIEZO_RAMP_MAX (hystOf me BC_POS_HOME);
             rampSpeed := ramp; publishCompletion := false |}
     :: OutTimerStart :: OutTimerStop :: log me /\
   state me3 = S_LiftUpBladder /\
   timeoutTimer me3 = 20 /\
   log me3 = OutPublish Pub_fcStartBladderDetectMsg :: log me2 /\
   log me4 = OutPiezoStop :: log me3 /\
   state me5 = S_Idle /\
   eLastKnownPos me5 = BC_POS_DOWN /\
   publications (log me5)
   = publications (log me)
     ++ [Pub_fcStartBladderDetectMsg;
         Pub_moveSuccessMsg (eChannel (pParams me)) BC_POS_DOWN 20 (currentVoltage d)]) /\
  (eLastKnownPos me = BC_POS_UNKNOWN \/ eLastKnownPos me = BC_NONE ->
   eval (FluidicLiftUpBladder ramp timeout) me = ERROR_FLUID_CHANNEL_INVALID_MOVE /\
   evQueue (exec (FluidicLiftUpBladder ramp timeout) me) = evQueue me).
Proof.
  split.
  - intros Hok Hs Hlegal Hramp Htime Hmt Hmc Hmp msg me1 me2 me3 me4 me5.
    subst me5 me4 me3 me2 me1 msg. use_ok Hok.
    destruct_me me. destruct liftUpBlddrMsg0 as [mt mr mc mp mto].
    cbn in Hmt, Hmc, Hmp. subst.
    unfold eval, exec, hystOf.
    destruct eLastKnownPos0; try discriminate Hlegal; destruct eChannel0;
      fl_eval; do 4 step_dispatch; cbn [state eLastKnownPos log evQueue timeoutTimer];
      pubs; repeat split; reflexivity.
  - intros Hl. destruct_me me. cbn in Hl.
    destruct Hl as [Hl|Hl]; subst; split; reflexivity.
Qed.

(** ** Breach monitoring *)


(** ** Mixing: the theorem *)



(** ** Open-loop mixing *)

(** C8, evaluated: the first stroke of an accepted open-loop mix is a reverse
    stroke that starts with no stage completed; its piezo endpoint is
    startV - (startV - V(target)) * downstrokeProportion exactly as the
    source computes it in single precision, with no share of the open-loop
    compensation factor taken off. *)
Theorem C8_first_reverse_stroke_is_not_biased {pc : PiezoConsts} (d : Drivers)
    (m : FluidicMixMsg_t) (me : Fluidic_t) :
  DriversOk d ->
  state me = S_Idle ->
  mx_eMixType m = FLUID_MIX_OPEN_LOOP ->
  FluidCheckMixParams d me (mx_eTargetPos m) (mx_mixFrequency m) (mx_mixTime m)
    (mx_mixCycles m) (mx_eMixType m) (mx_openLoopCompensationFactor m)
    (mx_mixDownstrokeProportion m) = OK_STATUS ->
  let me' := XDispatch d (XMSG_FLUID_MIX m) me in
  let startV := piezoVoltage (status me) in
  let endV :=
    f32_sub startV
      (f32_mul
         (f32_sub startV (targetVolts (positionLimits (pParams me) (mx_eTargetPos m))))
         (mx_mixDownstrokeProportion m)) in
  state me' = S_MixPiezoControlled /\
  eMoveDirection (status me') = FLUID_MOVE_REV /\
  mixingStagesCompleted (status me') = 0 /\
  openLoopCompensationFactor (pParams me') = mx_openLoopCompensationFactor m /\
  In (OutPiezoVoltageSet
        {| targetVoltage := endV;
           rampSpeed := f32_mul (f32_mul (Qabs (f32_sub startV endV)) 2)
                                (mx_mixFrequency m);
           publishCompletion := false |}) (log me').
Proof.
  intros Hok Hs Hty Hchk me' startV endV. subst me' startV endV. use_ok Hok.
  destruct m. destruct_me me. subst.
  unfold XDispatch. fl_eval. rewrite Hchk. fl_eval.
  unfold FluidicMixCalculateDownStrokeMixProportion. cbn.
  repeat split; try reflexivity. auto.
Qed.

(** ** Hysteresis: the theorem *)

(** C7, as the code has it: the default bundles give the contacts A, B and C
    a hysteresis inside [1 V, 10 V] and the bladder ends Home and Down 0 V;
    a hysteresis adaptation leaves the adapted position inside the range;
    and in every object that can arise the hysteresis of a contact is inside
    the range, while that of a bladder end is 0 V or inside the range. *)
Theorem C7_hysteresis_range {pc : PiezoConsts} :
  (forall ch p,
      isContact p = true ->
      inHystRange (posHysterisis (positionLimits (bladderDefaultParams ch) p))) /\
  (forall ch p,
      isBladderEnd p = true ->
      posHysterisis (positionLimits (bladderDefaultParams ch) p) = 0%Q) /\
  (forall me t,
      inHystRange (hystOf (exec (AdjustHysterisisVoltage t) me) (eTargetPos me))) /\
  (forall me,
      Reachable me ->
      forall p,
        (isContact p = true -> inHystRange (hystOf me p)) /\
        (isBladderEnd p = true -> hystOf me p = 0%Q \/ inHystRange (hystOf me p))).
Proof.
  assert (Hdef : forall p, isContact p = true ->
                           inHystRange (posHysterisis (defaultPositionLimits p))).
  { intros p Hp. destruct p; try discriminate Hp;
      unfold inHystRange, Qle; cbn; lia. }
  split; [|split; [|split]].
  - intros ch p Hp. apply Hdef. exact Hp.
  - intros ch p Hp. destruct p; try discriminate Hp; reflexivity.
  - intros me t. unfold hystOf, exec. rewrite AdjustHysterisisVoltage_limits.
    unfold upd_limits, pos_eqb. rewrite Z.eqb_refl.
    cbv zeta. unfold set_posHysterisis. cbn [posHysterisis].
    apply clamp_inHystRange.
  - intros me Hr p. destruct (Reachable_hysteresis me Hr p) as [E|R].
    + split; intros Hp.
      * rewrite E. apply Hdef. exact Hp.
      * left. rewrite E. destruct p; try discriminate Hp; reflexivity.
    + split; intros _; [|right]; exact R.
Qed.

(** ** The theorems at concrete inputs *)

Lemma sampleDrivers_ok (volts : Q) (front : eEcFluidDetectPosition_t) :
  DriversOk (sampleDrivers volts front).
Proof. split; intros; reflexivity. Qed.



Lemma C2_witness :
  state sampleAtDown = S_Idle /\
  eLastKnownPos sampleAtDown = BC_POS_DOWN /\
  eval (FluidicLiftUpBladder (pc := samplePiezo) (25 # 10) 10000) sampleAtDown
  = OK_COMMAND_ACCEPTED /\
  eLastKnownPos sampleStarted = BC_POS_UNKNOWN /\
  eval (FluidicLiftUpBladder (pc := samplePiezo) (25 # 10) 10000) sampleStarted
  = ERROR_FLUID_CHANNEL_INVALID_MOVE.
Proof.
  split; [reflexivity|]. split; [reflexivity|]. split; [|split; [reflexivity|]].
  - exact (proj1 (proj1 (C2_lift_bladders_from_pressed (pc := samplePiezo)
                           (sampleDrivers 60 NO_FLUID_DETECTED) sampleAtDown
                           (25 # 10) 10000 60)
                    (sampleDrivers_ok _ _) eq_refl eq_refl eq_refl eq_refl
                    eq_refl eq_refl eq_refl)).
  - exact (proj1 (proj2 (C2_lift_bladders_from_pressed (pc := samplePiezo)
                           (sampleDrivers 60 NO_FLUID_DETECTED) sampleStarted
                           (25 # 10) 10000 60)
                    (or_introl eq_refl))).
Defined.

(** C2 as stated fails: with the position unknown the call is rejected. *)
Lemma C2_counterexample : ~ lift_accepted_from_unknown.
Proof.
  intros H.
  specialize (H samplePiezo sampleStarted (25 # 10) 10000 eq_refl eq_refl eq_refl).
  vm_compute in H. discriminate H.
Qed.

Lemma C3_witness :
  state sampleMovingToA <> S_Init /\
  publishCompletionEvent
    (XDispatch (pc := samplePiezo) (sampleDrivers 20 FLUID_DETECTED)
       XMSG_DOOR_OPENED sampleMovingToA) = false /\
  publications
    (log (XDispatch (pc := samplePiezo) (sampleDrivers 100 FLUID_DETECTED)
            (XMSG_PIEZO_MOVE_COMPLTE
               (piezoChan (sampleDrivers 100 FLUID_DETECTED)) 100)
            (XDispatch (pc := samplePiezo) (sampleDrivers 20 FLUID_DETECTED)
               XMSG_DOOR_OPENED sampleMovingToA)))
  = publications (log sampleMovingToA)
    ++ [Pub_moveSuccessMsg (eChannel (pParams sampleMovingToA)) BC_POS_HOME 0
          (currentVoltage (sampleDrivers 100 FLUID_DETECTED))].
Proof.
  assert (Hne : state sampleMovingToA <> S_Init) by (vm_compute; discriminate).
  split; [exact Hne|].
  pose proof (C3_door_homing_completion_is_published (pc := samplePiezo)
                (sampleDrivers 20 FLUID_DETECTED) (sampleDrivers 100 FLUID_DETECTED)
                100 sampleMovingToA (sampleDrivers_ok _ _) (sampleDrivers_ok _ _)
                Hne) as H.
  cbv zeta in H. destruct H as (_ & _ & Hflag & Hpub).
  split; [exact Hflag | exact Hpub].
Defined.



Lemma C6_witness :
  state sampleMovingToA <> S_Init /\
  (let d := sampleDrivers 20 FLUID_DETECTED in
   let me1 :=
     exec (FluidicMove (pc := samplePiezo) BC_POS_HOME 0 0 FLUID_OVERSHOOT_COMP_NUM 5)
       sampleMovingToA in
   let ev :=
     XMSG_FLUID_CHANNEL_MOVE_TO
       {| mv_eTargetPos := BC_POS_HOME;
          mv_rampSpeedVoltsPerSec := mv_rampSpeedVoltsPerSec (moveMsg sampleMovingToA);
          mv_eOvershootComp := mv_eOvershootComp (moveMsg sampleMovingToA);
          mv_overshootCompProportion :=
            mv_overshootCompProportion (moveMsg sampleMovingToA);
          mv_timeout_ms := mv_timeout_ms (moveMsg sampleMovingToA) |} in
   eval (FluidicMove (pc := samplePiezo) BC_POS_HOME 0 0 FLUID_OVERSHOOT_COMP_NUM 5)
     sampleMovingToA = OK_COMMAND_ACCEPTED /\
   evQueue me1 = evQueue sampleMovingToA ++ [ev] /\
   state (XDispatch (pc := samplePiezo) d ev me1) = S_MoveOther /\
   timeout_ms (pParams (XDispatch (pc := samplePiezo) d ev me1)) = 1000) /\
  (state sampleAtB = S_Idle \/ state sampleAtB = S_MonitorFluidBreach).
Proof.
  assert (Hne : state sampleMovingToA <> S_Init) by (vm_compute; discriminate).
  destruct (C6_home_move_always_accepted (pc := samplePiezo)) as (H1 & H2 & _ & H4).
  split; [exact Hne|]. split.
  - cbv zeta.
    destruct (H1 sampleMovingToA 0%Q 0 FLUID_OVERSHOOT_COMP_NUM 5%Q) as (Ha & _ & Hq).
    split; [exact Ha|]. split; [exact Hq|].
    destruct (H2 (sampleDrivers 20 FLUID_DETECTED) sampleMovingToA 0%Q 0
                FLUID_OVERSHOOT_COMP_NUM 5%Q _ Hne Hq) as (_ & _ & Hd).
    destruct (Hd (sampleDrivers_ok _ _)) as (Hst & _ & _ & _ & Hto & _).
    split; [exact Hst | exact Hto].
  - apply (H4 sampleAtB BC_POS_FLUID_A (25 # 10)%Q 30000 FLUID_OVERSHOOT_COMP_NONE 0%Q).
    + reflexivity.
    + vm_compute. reflexivity.
Defined.

Lemma C7_witness :
  Reachable (pc := samplePiezo) sampleStarted /\
  inHystRange (hystOf sampleStarted BC_POS_FLUID_A) /\
  (hystOf sampleStarted BC_POS_HOME = 0%Q
   \/ inHystRange (hystOf sampleStarted BC_POS_HOME)).
Proof.
  assert (Hr : Reachable (pc := samplePiezo) sampleStarted)
    by exact (Reach_start EC_STRIP_CHAN_1 (sampleDrivers 100 NO_FLUID_DETECTED)).
  split; [exact Hr|].
  destruct (C7_hysteresis_range (pc := samplePiezo)) as (_ & _ & _ & H).
  split.
  - exact (proj1 (H sampleStarted Hr BC_POS_FLUID_A) eq_refl).
  - exact (proj2 (H sampleStarted Hr BC_POS_HOME) eq_refl).
Defined.

(** C7 as stated fails: on the started object the hysteresis of Home is
    0 V, below the range. *)
Lemma C7_counterexample : ~ hysteresis_always_in_range.
Proof.
  intros H.
  specialize (H samplePiezo sampleStarted BC_POS_HOME
                (Reach_start EC_STRIP_CHAN_1 (sampleDrivers 100 NO_FLUID_DETECTED))
                eq_refl).
  destruct H as [H _]. vm_compute in H. apply H. reflexivity.
Qed.

Lemma C8_witness :
  state sampleAtB = S_Idle /\
  In (OutPiezoVoltageSet
        {| targetVoltage := f32_sub 45 (f32_mul (f32_sub 45 30) (1 # 2));
           rampSpeed :=
             f32_mul
               (f32_mul (Qabs (f32_sub 45 (f32_sub 45 (f32_mul (f32_sub 45 30) (1 # 2)))))
                  2) 1;
           publishCompletion := false |})
     (log (XDispatch (pc := samplePiezo) (sampleDrivers 45 FLUID_POSITION_B)
             (XMSG_FLUID_MIX (sampleMix 3 FLUID_MIX_OPEN_LOOP (1 # 10))) sampleAtB)).
Proof.
  split; [reflexivity|].
  pose proof (C8_first_reverse_stroke_is_not_biased (pc := samplePiezo)
                (sampleDrivers 45 FLUID_POSITION_B)
                (sampleMix 3 FLUID_MIX_OPEN_LOOP (1 # 10)) sampleAtB
                (sampleDrivers_ok _ _) eq_refl eq_refl eq_refl) as H.
  cbv zeta in H. exact (proj2 (proj2 (proj2 (proj2 H)))).
Defined.

Lemma C9_witness :
  FluidicStateCanAcceptCommand sampleMovingToA = false /\
  eval (FluidicMove (pc := samplePiezo) BC_NONE 1000 0 FLUID_OVERSHOOT_COMP_NUM 5)
       sampleMovingToA = ERROR_OBJECT_NOT_READY /\
  eval (FluidicMix (sampleDrivers 20 FLUID_DETECTED) BC_POS_HOME 0 0 0
          FLUID_MIX_OPEN_LOOP 0 0) sampleMovingToA = ERROR_OBJECT_NOT_READY.
Proof.
  split; [reflexivity|].
  destruct (C9_not_ready_before_validation (pc := samplePiezo)
              (sampleDrivers 20 FLUID_DETECTED) sampleMovingToA) as (H & _ & _).
  destruct (H eq_refl) as [Hmove Hmix].
  split.
  - exact (Hmove BC_NONE 1000%Q 0 FLUID_OVERSHOOT_COMP_NUM 5%Q eq_refl).
  - exact (Hmix BC_POS_HOME 0%Q 0 0 FLUID_MIX_OPEN_LOOP 0%Q 0%Q).
Defined.

Lemma C10_witness :
  eval (FluidicLiftUpBladder (pc := samplePiezo) (25 # 10) 10000) sampleStarted
  = ERROR_FLUID_CHANNEL_INVALID_MOVE /\
  eTargetPos sampleStarted = BC_NONE /\
  eTargetPos (exec (FluidicLiftUpBladder (pc := samplePiezo) (25 # 10) 10000)
                sampleStarted) = BC_POS_HOME.
Proof.
  split; [reflexivity|]. split; [reflexivity|].
  exact (proj1 (C10_lift_bladders_writes_target_first (pc := samplePiezo)
                  sampleStarted (25 # 10) 10000 ltac:(vm_compute; discriminate))).
Defined.
(** * Further properties of the controller *)

(** The object field by field, under fixed names. *)
Ltac destruct_obj me :=
  destruct me as [xstate xerr xlast xtgt xps xtimer xmixt xst xflag xreached
                  xlift xmixm xmovem xqueue xlog];
  destruct xps as [xtbl xchan xtimeout xfreq xmixto xcycles xramp xmixmax xrest
                   xmult xcomp xprop xret xtype xfactor xdown xmonitor];
  destruct xst as [xfront xvolts xmixdone xstages xdir];
  cbn in *.

(** Evaluates the innermost dispatch on an object given field by field, with
    [tac] to help the evaluation along. *)
Ltac step_dispatch_with tac :=
  match goal with
  | |- context [XDispatch ?d ?ev
                  (Build_Fluidic_t ?a1 ?a2 ?a3 ?a4 ?a5 ?a6 ?a7 ?a8 ?a9 ?a10
                     ?a11 ?a12 ?a13 ?a14 ?a15)] =>
      let r := fresh "r" in
      let E := fresh "E" in
      evar (r : Fluidic_t);
      assert (E : XDispatch d ev
                    (Build_Fluidic_t a1 a2 a3 a4 a5 a6 a7 a8 a9 a10
                       a11 a12 a13 a14 a15) = r);
      [ unfold XDispatch; tac; subst r; reflexivity
      | rewrite E; clear E; subst r ]
  end.

(** ** Parameter checks *)

Lemma Qgtb_true (a b : Q) : Qgtb a b = true <-> (b < a)%Q.
Proof.
  unfold Qgtb. rewrite negb_true_iff, <- not_true_iff_false, Qle_bool_iff.
  split; [apply Qnot_le_lt | apply Qlt_not_le].
Qed.

Lemma Qgtb_false (a b : Q) : Qgtb a b = false <-> (a <= b)%Q.
Proof. unfold Qgtb. rewrite negb_false_iff. apply Qle_bool_iff. Qed.

Lemma Qltb_true (a b : Q) : Qltb a b = true <-> (a < b)%Q.
Proof.
  unfold Qltb. rewrite negb_true_iff, <- not_true_iff_false, Qle_bool_iff.
  split; [apply Qnot_le_lt | apply Qlt_not_le].
Qed.

Lemma Qltb_false (a b : Q) : Qltb a b = false <-> (b <= a)%Q.
Proof. unfold Qltb. rewrite negb_false_iff. apply Qle_bool_iff. Qed.

Lemma Qgeb_true (a b : Q) : Qgeb a b = true <-> (b <= a)%Q.
Proof. unfold Qgeb. apply Qle_bool_iff. Qed.

Lemma moveValid_matrix (me : Fluidic_t) (target : eFluidicPositions_t) :
  bladderControlCheckMoveValid me target = moveMatrix (eLastKnownPos me) target.
Proof.
  unfold bladderControlCheckMoveValid.
  destruct (eLastKnownPos me), target; reflexivity.
Qed.

(** X1: the move parameter check beyond the legality of the move.  For a
    legal move, an overshoot mode that is not a mode or a compensation
    proportion above 1 gives bad-arguments, also when the ramp speed is too
    high as well; a ramp speed above the piezo maximum alone gives the speed
    error; everything else passes.  The timeout is not looked at: any value,
    zero included, passes. *)
Theorem X1_move_params_check {pc : PiezoConsts} (me : Fluidic_t)
    (target : eFluidicPositions_t) (ramp : Q) (timeout : Z)
    (mode : eFluidOvershootCompensation_t) (proportion : Q) :
  moveMatrix (eLastKnownPos me) target = true ->
  let r := FluidCheckMoveParams me target ramp timeout mode proportion in
  (mode = FLUID_OVERSHOOT_COMP_NUM \/ (FLUIDIC_MAX_COMPENSATION_FACTOR < proportion)%Q ->
   r = ERROR_BAD_ARGS) /\
  (mode <> FLUID_OVERSHOOT_COMP_NUM ->
   (proportion <= FLUIDIC_MAX_COMPENSATION_FACTOR)%Q ->
   ((PIEZO_RAMP_MAX < ramp)%Q -> r = ERROR_FLUID_SPEED) /\
   ((ramp <= PIEZO_RAMP_MAX)%Q -> r = OK_STATUS)) /\
  (forall timeout', FluidCheckMoveParams me target ramp timeout' mode proportion = r).
Proof.
  intros Hlegal r. subst r. unfold FluidCheckMoveParams.
  rewrite moveValid_matrix, Hlegal.
  split; [|split].
  - intros [Hm | Hp].
    + subst mode. cbn. destruct (Qgtb proportion _); reflexivity.
    + apply Qgtb_true in Hp. rewrite Hp. reflexivity.
  - intros Hm Hp. apply Qgtb_false in Hp. rewrite Hp.
    assert (Hc : (compIndex FLUID_OVERSHOOT_COMP_NUM <=? compIndex mode) = false)
      by (destruct mode; try reflexivity; exfalso; apply Hm; reflexivity).
    rewrite Hc. split; intros Hr.
    + apply Qgtb_true in Hr. rewrite Hr. reflexivity.
    + apply Qgtb_false in Hr. rewrite Hr. reflexivity.
  - reflexivity.
Qed.

Lemma X1_witness :
  moveMatrix (eLastKnownPos sampleAtDown) BC_POS_FLUID_A = true /\
  FluidCheckMoveParams (pc := samplePiezo) sampleAtDown BC_POS_FLUID_A 1000 0
    FLUID_OVERSHOOT_COMP_NUM 0 = ERROR_BAD_ARGS /\
  FluidCheckMoveParams (pc := samplePiezo) sampleAtDown BC_POS_FLUID_A 1000 0
    FLUID_OVERSHOOT_COMP_NONE 0 = ERROR_FLUID_SPEED /\
  FluidCheckMoveParams (pc := samplePiezo) sampleAtDown BC_POS_FLUID_A 5 0
    FLUID_OVERSHOOT_COMP_NONE 0 = OK_STATUS.
Proof.
  assert (Hl : moveMatrix (eLastKnownPos sampleAtDown) BC_POS_FLUID_A = true)
    by (vm_compute; reflexivity).
  split; [exact Hl|].
  split; [|split].
  - exact (proj1 (X1_move_params_check (pc := samplePiezo) sampleAtDown BC_POS_FLUID_A
                    1000 0 FLUID_OVERSHOOT_COMP_NUM 0 Hl) (or_introl eq_refl)).
  - refine (proj1 (proj1 (proj2 (X1_move_params_check (pc := samplePiezo) sampleAtDown
                    BC_POS_FLUID_A 1000 0 FLUID_OVERSHOOT_COMP_NONE 0 Hl))
                    _ _) _); [discriminate | vm_compute; discriminate | vm_compute; reflexivity].
  - refine (proj2 (proj1 (proj2 (X1_move_params_check (pc := samplePiezo) sampleAtDown
                    BC_POS_FLUID_A 5 0 FLUID_OVERSHOOT_COMP_NONE 0 Hl))
                    _ _) _); [discriminate | vm_compute; discriminate | vm_compute; discriminate].
Defined.

Lemma Qeq_bool_false (a b : Q) : Qeq_bool a b = false <-> ~ (a == b)%Q.
Proof.
  rewrite <- not_true_iff_false. split; intros H E; apply H.
  - apply Qeq_bool_iff. exact E.
  - apply Qeq_bool_iff in E. exact E.
Qed.

(** X2: the mix parameter check.  The target must be one of Down, A, B, C
    and lie below the last known position, otherwise the answer is
    invalid-move whatever the other parameters are; the sentinels Unknown
    and None count as above every position, so that from them every such
    target passes.  With the position in order and the last known position
    one of the table, the answer is OK exactly when the frequency is not
    zero, the ramp rate |V(last) - V(target)| * frequency, computed in
    single precision (the difference being finite), is below the maximum
    ramp rate of the piezo, the timeout is not zero and not above the
    configured maximum, and the downstroke proportion is positive unless the
    mix is dual-point; otherwise it is bad-arguments.  The cycle count and
    the open-loop compensation factor are not looked at. *)
Theorem X2_mix_params_check (d : Drivers) (me : Fluidic_t)
    (target : eFluidicPositions_t) (freq : Q) (timeout cycles : Z)
    (ty : eFluidMixingType_t) (factor proportion : Q) :
  let r := FluidCheckMixParams d me target freq timeout cycles ty factor proportion in
  let vLast := targetVolts (positionLimits (pParams me) (eLastKnownPos me)) in
  let vTarget := targetVolts (positionLimits (pParams me) target) in
  (isMixPositionOk me target = true <->
   posIndex target < posIndex (eLastKnownPos me) /\
   target <> BC_POS_HOME /\ isSentinel target = false) /\
  (isMixPositionOk me target = false -> r = ERROR_FLUID_CHANNEL_INVALID_MOVE) /\
  (isMixPositionOk me target = true ->
   posInTable (eLastKnownPos me) = true ->
   finite32 (f32_sub vLast vTarget) ->
   (r = OK_STATUS <->
    ~ (freq == 0)%Q /\
    (f32_mul (Qabs (f32_sub vLast vTarget)) freq < maxRampRate d)%Q /\
    timeout <> 0 /\ timeout <= mixTimeoutMax_ms (pParams me) /\
    (ty = FLUID_MIX_DUAL_POINT_LOOP \/ (0 < proportion)%Q)) /\
   (r <> OK_STATUS -> r = ERROR_BAD_ARGS)) /\
  (forall cycles' factor',
      FluidCheckMixParams d me target freq timeout cycles' ty factor' proportion = r).
Proof.
  intros r vLast vTarget. subst r vLast vTarget.
  split; [|split; [|split]].
  - unfold isMixPositionOk, pos_geb, pos_eqb.
    destruct (eLastKnownPos me), target; cbn; split;
      try discriminate; try (intros _; repeat split; (lia || discriminate));
      intros (H1 & H2 & H3); try lia; try discriminate;
      try (exfalso; apply H2; reflexivity).
  - intros H. unfold FluidCheckMixParams. rewrite H. reflexivity.
  - intros H _ _. unfold FluidCheckMixParams. rewrite H.
    unfold isFrequencyOk, isMixTimeoutOk. rewrite andb_true_r. cbn [negb].
    destruct (Qgeb _ (maxRampRate d)) eqn:E1.
    { cbn. split; [split; [discriminate|] | reflexivity].
      intros (_ & Hlt & _). apply Qgeb_true in E1.
      exfalso. eapply Qlt_not_le; eassumption. }
    assert (Hramp : (f32_mul
                       (Qabs
                          (f32_sub
                             (targetVolts (positionLimits (pParams me) (eLastKnownPos me)))
                             (targetVolts (positionLimits (pParams me) target))))
                       freq
                     < maxRampRate d)%Q).
    { apply Qnot_le_lt. intros Hle. apply Qgeb_true in Hle. congruence. }
    destruct (Qeq_bool freq 0) eqn:E2.
    { cbn. split; [split; [discriminate|] | reflexivity].
      intros (Hf & _). apply Qeq_bool_iff in E2. contradiction. }
    apply Qeq_bool_false in E2.
    destruct (mixTimeoutMax_ms (pParams me) <? timeout) eqn:E3.
    { cbn. split; [split; [discriminate|] | reflexivity].
      intros (_ & _ & _ & Hle & _). apply Z.ltb_lt in E3. lia. }
    apply Z.ltb_ge in E3.
    destruct (timeout =? 0) eqn:E4.
    { cbn. split; [split; [discriminate|] | reflexivity].
      intros (_ & _ & Hz & _). apply Z.eqb_eq in E4. contradiction. }
    apply Z.eqb_neq in E4. cbn.
    destruct ty; cbn.
    + split; [split; [intros _; auto 10 | reflexivity] | intros Hn; contradiction].
    + destruct (Qgtb proportion 0) eqn:E5.
      * apply Qgtb_true in E5. split; [split; auto 10 | intros Hn; contradiction].
      * apply Qgtb_false in E5.
        split; [split; [discriminate|] | reflexivity].
        intros (_ & _ & _ & _ & [Hd | Hp]); [discriminate|].
        exfalso. eapply Qlt_not_le; eassumption.
    + destruct (Qgtb proportion 0) eqn:E5.
      * apply Qgtb_true in E5. split; [split; auto 10 | intros Hn; contradiction].
      * apply Qgtb_false in E5.
        split; [split; [discriminate|] | reflexivity].
        intros (_ & _ & _ & _ & [Hd | Hp]); [discriminate|].
        exfalso. eapply Qlt_not_le; eassumption.
  - reflexivity.
Qed.

Lemma X2_witness :
  isMixPositionOk sampleAtB BC_POS_FLUID_A = true /\
  FluidCheckMixParams (sampleDrivers 45 FLUID_POSITION_B) sampleAtB BC_POS_FLUID_A
    1 30000 0 FLUID_MIX_OPEN_LOOP 0 (1 # 2) = OK_STATUS /\
  FluidCheckMixParams (sampleDrivers 45 FLUID_POSITION_B) sampleAtB BC_POS_FLUID_C
    1 30000 3 FLUID_MIX_OPEN_LOOP 0 (1 # 2) = ERROR_FLUID_CHANNEL_INVALID_MOVE.
Proof.
  assert (Hp : isMixPositionOk sampleAtB BC_POS_FLUID_A = true)
    by (vm_compute; reflexivity).
  assert (Hn : isMixPositionOk sampleAtB BC_POS_FLUID_C = false)
    by (vm_compute; reflexivity).
  assert (Hin : posInTable (eLastKnownPos sampleAtB) = true)
    by (vm_compute; reflexivity).
  assert (Hfin : finite32
                   (f32_sub
                      (targetVolts (positionLimits (pParams sampleAtB)
                                      (eLastKnownPos sampleAtB)))
                      (targetVolts (positionLimits (pParams sampleAtB) BC_POS_FLUID_A))))
    by (vm_compute; discriminate).
  assert (H1 : ~ (1 == 0)%Q) by (vm_compute; discriminate).
  assert (H2 : (f32_mul
                  (Qabs
                     (f32_sub
                        (targetVolts (positionLimits (pParams sampleAtB)
                                        (eLastKnownPos sampleAtB)))
                        (targetVolts (positionLimits (pParams sampleAtB) BC_POS_FLUID_A))))
                  1 < maxRampRate (sampleDrivers 45 FLUID_POSITION_B))%Q)
    by (vm_compute; reflexivity).
  assert (H3 : 30000 <> 0) by discriminate.
  assert (H4 : 30000 <= mixTimeoutMax_ms (pParams sampleAtB))
    by (vm_compute; discriminate).
  assert (H5 : (0 < 1 # 2)%Q) by reflexivity.
  split; [exact Hp|]. split.
  - exact (proj2 (proj1 (proj1 (proj2 (proj2 (X2_mix_params_check
             (sampleDrivers 45 FLUID_POSITION_B) sampleAtB BC_POS_FLUID_A
             1 30000 0 FLUID_MIX_OPEN_LOOP 0 (1 # 2)))) Hp Hin Hfin))
             (conj H1 (conj H2 (conj H3 (conj H4 (or_intror H5)))))).
  - exact (proj1 (proj2 (X2_mix_params_check
             (sampleDrivers 45 FLUID_POSITION_B) sampleAtB BC_POS_FLUID_C
             1 30000 3 FLUID_MIX_OPEN_LOOP 0 (1 # 2))) Hn).
Defined.

(** ** Parameter updates *)

(** X3: setting parameters.  The call is accepted exactly when the target
    voltages of the contacts are strictly increasing from A to C; it then
    posts one message carrying the three voltages, and otherwise answers
    invalid-parameters and posts nothing.  Handling the message,
    in whatever state, stores the three voltages in the table and changes
    nothing else: hysteresis, detector requirements, the voltages of Home and
    Down, the state, the positions and the outputs stay as they were. *)
Theorem X3_params_set_round_trip {pc : PiezoConsts} (d : Drivers) (me : Fluidic_t)
    (p : FluidicParams_t) :
  let a := targetVolts (positionLimits p BC_POS_FLUID_A) in
  let b := targetVolts (positionLimits p BC_POS_FLUID_B) in
  let c := targetVolts (positionLimits p BC_POS_FLUID_C) in
  ((a < b)%Q /\ (b < c)%Q ->
   eval (FluidicParamsSet p) me = OK_COMMAND_ACCEPTED /\
   evQueue (exec (FluidicParamsSet p) me)
   = evQueue me ++ [XMSG_FLUID_CHANNEL_NEW_PARAMS a b c]) /\
  (~ ((a < b)%Q /\ (b < c)%Q) ->
   eval (FluidicParamsSet p) me = ERROR_FLUID_INVALID_PARAMS /\
   evQueue (exec (FluidicParamsSet p) me) = evQueue me) /\
  (state me <> S_Init ->
   let me' := XDispatch d (XMSG_FLUID_CHANNEL_NEW_PARAMS a b c) me in
   let tbl := positionLimits (pParams me) in
   let tbl' := positionLimits (pParams me') in
   targetVolts (tbl' BC_POS_FLUID_A) = a /\
   targetVolts (tbl' BC_POS_FLUID_B) = b /\
   targetVolts (tbl' BC_POS_FLUID_C) = c /\
   targetVolts (tbl' BC_POS_HOME) = targetVolts (tbl BC_POS_HOME) /\
   targetVolts (tbl' BC_POS_DOWN) = targetVolts (tbl BC_POS_DOWN) /\
   (forall q, posHysterisis (tbl' q) = posHysterisis (tbl q) /\
              echemRequirements (tbl' q) = echemRequirements (tbl q)) /\
   state me' = state me /\
   eLastKnownPos me' = eLastKnownPos me /\
   eTargetPos me' = eTargetPos me /\
   status me' = status me /\
   log me' = log me).
Proof.
  intros a b c. split; [|split].
  - intros [Hab Hbc]. apply Qltb_true in Hab, Hbc.
    unfold eval, exec, FluidicParamsSet. fold a b c. rewrite Hab, Hbc.
    split; reflexivity.
  - intros Hn. unfold eval, exec, FluidicParamsSet. fold a b c.
    destruct (Qltb a b) eqn:Eab; [destruct (Qltb b c) eqn:Ebc|].
    + exfalso. apply Hn. split; apply Qltb_true; assumption.
    + split; reflexivity.
    + split; reflexivity.
  - intros Hs me' tbl tbl'. subst me' tbl tbl'.
    generalize a b c. clear a b c p. intros a b c.
    destruct_obj me.
    destruct xstate; try (exfalso; apply Hs; reflexivity);
      unfold XDispatch; fl_eval;
      (repeat split; try reflexivity; destruct q; reflexivity).
Qed.

Lemma X3_witness :
  state sampleAtB <> S_Init /\
  eval (FluidicParamsSet
          (bladder1DefaultParams (pc := samplePiezo))) sampleAtB
  = ERROR_FLUID_INVALID_PARAMS /\
  targetVolts
    (positionLimits
       (pParams
          (XDispatch (pc := samplePiezo) (sampleDrivers 45 FLUID_POSITION_B)
             (XMSG_FLUID_CHANNEL_NEW_PARAMS
                (targetVolts (positionLimits (pParams sampleAtB) BC_POS_FLUID_A))
                (targetVolts (positionLimits (pParams sampleAtB) BC_POS_FLUID_B))
                (targetVolts (positionLimits (pParams sampleAtB) BC_POS_FLUID_C)))
             sampleAtB)) BC_POS_FLUID_A)
  = targetVolts (positionLimits (pParams sampleAtB) BC_POS_FLUID_A).
Proof.
  assert (Hs : state sampleAtB <> S_Init) by (vm_compute; discriminate).
  assert (Hn : ~ ((targetVolts (positionLimits (bladder1DefaultParams (pc := samplePiezo))
                                  BC_POS_FLUID_A)
                   < targetVolts (positionLimits (bladder1DefaultParams (pc := samplePiezo))
                                    BC_POS_FLUID_B))%Q /\
                  (targetVolts (positionLimits (bladder1DefaultParams (pc := samplePiezo))
                                  BC_POS_FLUID_B)
                   < targetVolts (positionLimits (bladder1DefaultParams (pc := samplePiezo))
                                    BC_POS_FLUID_C))%Q)).
  { intros [H _]. vm_compute in H. discriminate H. }
  split; [exact Hs|]. split.
  - exact (proj1 (proj1 (proj2 (X3_params_set_round_trip (pc := samplePiezo)
                                  (sampleDrivers 45 FLUID_POSITION_B) sampleAtB
                                  (bladder1DefaultParams (pc := samplePiezo)))) Hn)).
  - exact (proj1 (proj2 (proj2 (X3_params_set_round_trip (pc := samplePiezo)
                                  (sampleDrivers 45 FLUID_POSITION_B) sampleAtB
                                  (pParams sampleAtB))) Hs)).
Defined.

(** ** Events of other channels *)

(** X4: piezo events of another piezo channel are ignored.  In every state
    past the initial one, a move-complete, a stopped or a move-fail event
    that carries a channel other than the one of the own piezo leaves the
    object exactly as it is: no transition, no output, no stored voltage,
    no error. *)
Theorem X4_foreign_piezo_events_ignored {pc : PiezoConsts} (d : Drivers)
    (me : Fluidic_t) (chan : Z) (volts : Q) (err : eErrorCode) :
  state me <> S_Init ->
  chan <> piezoChan d ->
  XDispatch d (XMSG_PIEZO_MOVE_COMPLTE chan volts) me = me /\
  XDispatch d (XMSG_PIEZO_STOPPED chan volts) me = me /\
  XDispatch d (XMSG_PEIZO_MOVE_FAIL chan err) me = me.
Proof.
  intros Hs Hc. apply Z.eqb_neq in Hc. destruct_obj me.
  destruct xstate; try (exfalso; apply Hs; reflexivity);
    unfold XDispatch; fl_eval; repeat split; reflexivity.
Qed.

Lemma X4_witness :
  state sampleMovingToA <> S_Init /\ 2 <> piezoChan (sampleDrivers 20 FLUID_DETECTED) /\
  XDispatch (pc := samplePiezo) (sampleDrivers 20 FLUID_DETECTED)
    (XMSG_PIEZO_STOPPED 2 20) sampleMovingToA = sampleMovingToA.
Proof.
  assert (Hs : state sampleMovingToA <> S_Init) by (vm_compute; discriminate).
  assert (Hc : 2 <> piezoChan (sampleDrivers 20 FLUID_DETECTED)) by discriminate.
  split; [exact Hs|]. split; [exact Hc|].
  exact (proj1 (proj2 (X4_foreign_piezo_events_ignored (pc := samplePiezo)
                         (sampleDrivers 20 FLUID_DETECTED) sampleMovingToA 2 20
                         OK_STATUS Hs Hc))).
Defined.

(** X5: bladder events are acted on once, for the own channel and the
    awaited end only.  A bladder event of another strip channel leaves the
    object as it is in every state past the initial one.  In the two
    bladder-end moves, the event of the own channel for the end that is not
    awaited, and any bladder event once the awaited one has been seen,
    leave the object as it is too, so the piezo is stopped at most once per
    move. *)
Theorem X5_bladder_events_filtered {pc : PiezoConsts} (d : Drivers)
    (me : Fluidic_t) (ev : XEvent) (ch : eElectrochemicalChannel) (up : bool) :
  state me <> S_Init ->
  bladderEvent ev = Some (ch, up) ->
  (ch <> eChannel (pParams me) -> XDispatch d ev me = me) /\
  (state me = S_MoveOther \/ state me = S_LiftUpBladder ->
   (chTargetPosReached me = true -> XDispatch d ev me = me) /\
   (up = pos_eqb BC_POS_DOWN (eTargetPos me) -> XDispatch d ev me = me)).
Proof.
  intros Hs Hev. destruct_obj me. split; [|split].
  - intros Hc.
    destruct ev; try discriminate Hev; injection Hev as <- <-;
      destruct xchan; try (exfalso; apply Hc; reflexivity);
      destruct xstate; try (exfalso; apply Hs; reflexivity);
      unfold XDispatch; fl_eval;
      try reflexivity;
      destruct xreached; fl_eval; try reflexivity;
      destruct xtgt; fl_eval; reflexivity.
  - intros Hr. subst xreached.
    destruct H as [-> | ->];
      destruct ev; try discriminate Hev;
      unfold XDispatch; fl_eval; reflexivity.
  - intros Hu.
    destruct H as [-> | ->];
      destruct xtgt; cbn in Hu; subst up;
      destruct ev; try discriminate Hev;
      unfold XDispatch; fl_eval;
      destruct xreached; fl_eval; try reflexivity;
      destruct xchan; fl_eval; reflexivity.
Qed.

Lemma X5_witness :
  state sampleMovingToA <> S_Init /\
  bladderEvent XMSG_EC_B2_BLDR_UP = Some (EC_STRIP_CHAN_2, true) /\
  EC_STRIP_CHAN_2 <> eChannel (pParams sampleMovingToA) /\
  XDispatch (pc := samplePiezo) (sampleDrivers 20 FLUID_DETECTED)
    XMSG_EC_B2_BLDR_UP sampleMovingToA = sampleMovingToA.
Proof.
  assert (Hs : state sampleMovingToA <> S_Init) by (vm_compute; discriminate).
  assert (Hc : EC_STRIP_CHAN_2 <> eChannel (pParams sampleMovingToA))
    by (vm_compute; discriminate).
  split; [exact Hs|]. split; [reflexivity|]. split; [exact Hc|].
  exact (proj1 (X5_bladder_events_filtered (pc := samplePiezo)
                  (sampleDrivers 20 FLUID_DETECTED) sampleMovingToA
                  XMSG_EC_B2_BLDR_UP EC_STRIP_CHAN_2 true Hs eq_refl) Hc).
Defined.

(** ** Errors *)

(** X6: an error reported by the electrochemistry object, or by the own
    piezo channel as a move failure.  If the error is one of the critical
    ones, the controller, from every state but the initial and the error
    state, enters the error state: it keeps the code, gives up its
    position (last known Unknown, target none, detector data invalid),
    stops the piezo and the detection, and publishes the error message
    once.  An error that is not critical changes neither the state nor the
    publications. *)
Theorem X6_critical_error_enters_err {pc : PiezoConsts} (d : Drivers)
    (me : Fluidic_t) (e : eErrorCode) (ev : XEvent) :
  state me <> S_Init ->
  ev = XMSG_EC_ERROR e \/ ev = XMSG_PEIZO_MOVE_FAIL (piezoChan d) e ->
  let me' := XDispatch d ev me in
  (FLUIDIC_CIRITICAL_ERR e = true -> state me <> S_Err ->
   state me' = S_Err /\
   errorCode me' = e /\
   eLastKnownPos me' = BC_POS_UNKNOWN /\
   eTargetPos me' = BC_NONE /\
   eFluidFrontPosition (status me') = FD_DATA_INVALID /\
   In OutPiezoStop (log me') /\
   In (OutEcDisable (eChannel (pParams me))) (log me') /\
   publications (log me') = publications (log me) ++ [Pub_errorMsg e]) /\
  (FLUIDIC_CIRITICAL_ERR e = false \/ state me = S_Err ->
   state me' = state me /\
   eLastKnownPos me' = eLastKnownPos me /\
   publications (log me') = publications (log me)).
Proof.
  intros Hs Hev me'. subst me'. destruct_obj me. split.
  - intros Hcrit Hne.
    destruct Hev as [-> | ->];
      destruct e; try discriminate Hcrit;
      destruct xstate;
      try (exfalso; apply Hs; reflexivity); try (exfalso; apply Hne; reflexivity);
      unfold XDispatch; fl_eval; pubs;
      repeat split; try reflexivity; cbn; auto 10.
  - intros [Hcrit | ->].
    + destruct Hev as [-> | ->];
        destruct xstate; try (exfalso; apply Hs; reflexivity);
        unfold XDispatch; fl_eval;
        rewrite FluidicsErrorSet_noncritical by exact Hcrit;
        destruct (is_OK_STATUS e); cbn; pubs; repeat split; reflexivity.
    + destruct Hev as [-> | ->];
        unfold XDispatch; fl_eval;
        destruct e; cbn; pubs; repeat split; reflexivity.
Qed.

Lemma X6_witness :
  state sampleMovingToA <> S_Init /\
  FLUIDIC_CIRITICAL_ERR ERROR_FLUID_CHANNEL_ECHEM_BUSY = true /\
  state sampleMovingToA <> S_Err /\
  state (XDispatch (pc := samplePiezo) (sampleDrivers 20 FLUID_DETECTED)
           (XMSG_EC_ERROR ERROR_FLUID_CHANNEL_ECHEM_BUSY) sampleMovingToA) = S_Err.
Proof.
  assert (Hs : state sampleMovingToA <> S_Init) by (vm_compute; discriminate).
  assert (He : state sampleMovingToA <> S_Err) by (vm_compute; discriminate).
  split; [exact Hs|]. split; [reflexivity|]. split; [exact He|].
  exact (proj1 (proj1 (X6_critical_error_enters_err (pc := samplePiezo)
                         (sampleDrivers 20 FLUID_DETECTED) sampleMovingToA
                         ERROR_FLUID_CHANNEL_ECHEM_BUSY
                         (XMSG_EC_ERROR ERROR_FLUID_CHANNEL_ECHEM_BUSY)
                         Hs (or_introl eq_refl)) eq_refl He)).
Defined.

(** X7: the error state.  While the controller is in the error state, a
    move to a position other than Home, a lift, a mix, a wait-for-contact, a
    mix-continue or a timer tick leaves the object exactly as it is.  The
    error-clear event takes it to idle (with drivers that report nothing
    critical), and so do the cancel and the global halt events; the position
    stays as the error state left it, so that, coming from a critical error,
    it is Unknown and every move but the one to Home is refused as an
    invalid move. *)
Theorem X7_error_state {pc : PiezoConsts} (d : Drivers) (me : Fluidic_t) :
  state me = S_Err ->
  (forall m, pos_eqb (mv_eTargetPos m) BC_POS_HOME = false ->
             XDispatch d (XMSG_FLUID_CHANNEL_MOVE_TO m) me = me) /\
  (forall m, XDispatch d (XMSG_FLUID_LIFT_UP_BLADDER m) me = me) /\
  (forall m, XDispatch d (XMSG_FLUID_MIX m) me = me) /\
  (forall t timeout, XDispatch d (XMSG_FLUID_WAIT_FOR_CONTACT t timeout) me = me) /\
  XDispatch d XMSG_FLUID_MIX_CONTINUE me = me /\
  XDispatch d X_EV_TIMER me = me /\
  (FLUIDIC_CIRITICAL_ERR (r_ecDisable d (eChannel (pParams me))) = false ->
   FLUIDIC_CIRITICAL_ERR (r_piezoStop d) = false ->
   eTargetPos me = BC_NONE ->
   forall ev,
     ev = XMSG_FLUID_ERR_CLEAR \/ ev = XMSG_FLUID_CHANNEL_CANCEL
     \/ ev = XMSG_GLOBAL_HALT ->
     let me' := XDispatch d ev me in
     state me' = S_Idle /\
     eLastKnownPos me' = eLastKnownPos me /\
     eTargetPos me' = BC_NONE /\
     publications (log me') = publications (log me) /\
     (eLastKnownPos me = BC_POS_UNKNOWN ->
      forall target ramp timeout mode proportion,
        pos_eqb target BC_POS_HOME = false ->
        eval (FluidicMove target ramp timeout mode proportion) me'
        = ERROR_FLUID_CHANNEL_INVALID_MOVE)).
Proof.
  intros Hs. destruct_obj me. subst xstate.
  repeat match goal with |- _ /\ _ => split end.
  - intros m Hm. destruct m as [t ? ? ? ?]. cbn in Hm.
    unfold XDispatch. fl_eval. reflexivity.
  - intros m. unfold XDispatch. fl_eval. reflexivity.
  - intros m. unfold XDispatch. fl_eval. reflexivity.
  - intros t timeout. unfold XDispatch. fl_eval. reflexivity.
  - unfold XDispatch. fl_eval. reflexivity.
  - unfold XDispatch. fl_eval. reflexivity.
  - intros Hc1 Hc2 Ht ev Hev. subst xtgt.
    assert (Hidle : forall m : Fluidic_t,
               state m = S_Idle ->
               eLastKnownPos m = BC_POS_UNKNOWN ->
               forall target ramp timeout mode proportion,
                 pos_eqb target BC_POS_HOME = false ->
                 eval (FluidicMove target ramp timeout mode proportion) m
                 = ERROR_FLUID_CHANNEL_INVALID_MOVE).
    { intros m Hm Hu target ramp timeout mode proportion Hh.
      unfold eval, FluidicMove. rewrite Hh. cbn.
      unfold FluidicStateCanAcceptCommand. rewrite Hm. cbn.
      unfold FluidCheckMoveParams, bladderControlCheckMoveValid. rewrite Hu.
      destruct target; try discriminate Hh; reflexivity. }
    destruct Hev as [-> | [-> | ->]];
      (unfold XDispatch;
      cbn -[FluidicState_Idle XTransition];
      rewrite XTransition_S;
      cbn -[FluidicState_Idle XTransition];
      match goal with
      | |- context [FluidicState_Idle d X_EV_ENTRY ?m] =>
          pose proof (Idle_entry_noncritical d m Hc1 Hc2) as HI;
          destruct (FluidicState_Idle d X_EV_ENTRY m) as [r me1]
      end;
      cbn in HI; destruct HI as (Hr & Hst & Hl & Htg & Hp & Hpub); subst r;
      (split; [exact Hst|]); (split; [exact Hl|]); (split; [exact Htg|]);
      (split; [rewrite Hpub; pubs; reflexivity|]);
      intros Hu; apply Hidle; [exact Hst | rewrite Hl; exact Hu]).
Qed.

Lemma X7_witness :
  state (XDispatch (pc := samplePiezo) (sampleDrivers 20 FLUID_DETECTED)
           (XMSG_EC_ERROR ERROR_PIEZO_UNKNOWN) sampleMovingToA) = S_Err /\
  XDispatch (pc := samplePiezo) (sampleDrivers 20 FLUID_DETECTED) X_EV_TIMER
    (XDispatch (pc := samplePiezo) (sampleDrivers 20 FLUID_DETECTED)
       (XMSG_EC_ERROR ERROR_PIEZO_UNKNOWN) sampleMovingToA)
  = XDispatch (pc := samplePiezo) (sampleDrivers 20 FLUID_DETECTED)
      (XMSG_EC_ERROR ERROR_PIEZO_UNKNOWN) sampleMovingToA.
Proof.
  assert (Hs : state (XDispatch (pc := samplePiezo) (sampleDrivers 20 FLUID_DETECTED)
                        (XMSG_EC_ERROR ERROR_PIEZO_UNKNOWN) sampleMovingToA) = S_Err)
    by (vm_compute; reflexivity).
  split; [exact Hs|].
  exact (proj1 (proj2 (proj2 (proj2 (proj2 (proj2
           (X7_error_state (pc := samplePiezo) (sampleDrivers 20 FLUID_DETECTED)
              _ Hs))))))).
Defined.

(** ** Moves to a contact *)

(** X8: a move to a contact that finds its contact.  On the timer tick at
    which the detector reading equals the requirement of the target for the
    direction of the move (and the move has not timed out), the controller
    stops the piezo and waits for it, publishing nothing.  When the own
    piezo then reports that it has stopped (no overshoot compensation
    pending), the handler makes the target the last known position, stores
    the voltage read from the piezo as the target voltage of that contact,
    and publishes the move-complete message with the time the move took;
    this sets the target position to None, and the next thing the handler
    does is to store the reported voltage at the index of the target
    position: a store outside the table of positions. *)
Theorem X8_contact_move_completes {pc : PiezoConsts} (d d' : Drivers)
    (me : Fluidic_t) (volts : Q) :
  DriversOk d -> DriversOk d' ->
  state me = S_MoveContact ->
  isContact (eTargetPos me) = true ->
  eFluidFrontPosition (status me) = fluidGetEchemRequirement me true ->
  fdIndex FLUID_DETECTED <= fdIndex (eFluidFrontPosition (status me)) ->
  eMoveDirection (status me) <> FLUID_MOVE_FWD
  \/ eOvershootCompensationType (pParams me) = FLUID_OVERSHOOT_COMP_NONE ->
  0 <= timeoutTimer me ->
  timeoutTimer me + 20 < timeout_ms (pParams me) ->
  timeout_ms (pParams me) < 2 ^ 32 ->
  let me1 := XDispatch d X_EV_TIMER me in
  let r := handlerOf d' S_WaitForPiezoStop
             (XMSG_PIEZO_STOPPED (piezoChan d') volts) me1 in
  state me1 = S_WaitForPiezoStop /\
  log me1 = OutTimerStop :: OutPiezoStop :: log me /\
  eLastKnownPos (snd r) = eTargetPos me /\
  targetVolts (positionLimits (pParams (snd r)) (eTargetPos me)) = currentVoltage d' /\
  posInTable BC_NONE = false /\
  log (snd r)
  = OutOfTableStore BC_NONE
    :: OutPublish (Pub_moveSuccessMsg (eChannel (pParams me)) (eTargetPos me)
                     (timeoutTimer me + 20) (currentVoltage d'))
    :: log me1.
Proof.
  intros Hok Hok' Hs Hc Hreq Hvalid Hcomp Ht0 Ht1 Ht2 me1 r. subst r me1.
  destruct Hok as [Hset Hstop Hhome Hdis Hfill].
  destruct Hok' as [Hset' Hstop' Hhome' Hdis' Hfill'].
  destruct_obj me. subst xstate.
  assert (Hto : (xtimeout <=? xtimer + 20) = false) by (apply Z.leb_gt; lia).
  unfold fluidGetEchemRequirement in Hreq. cbn in Hreq.
  assert (Hnone : pos_eqb BC_NONE xtgt = false)
    by (destruct xtgt; try discriminate Hc; reflexivity).
  assert (Hin : posInTable xtgt = true)
    by (destruct xtgt; try discriminate Hc; reflexivity).
  clear Hc.
  destruct xdir;
    try (destruct Hcomp as [Hcomp | Hcomp]; [exfalso; apply Hcomp; reflexivity|];
         subst xcomp);
    cbn in Hreq;
    match type of Hreq with
    | xfront = ?r => destruct r eqn:Er
    end; subst xfront; cbn in Hvalid; try lia;
    step_dispatch_with
      ltac:(fl_eval; unfold fluidGetEchemRequirement; cbn; rewrite ?Er; fl_eval);
    cbn [state log handlerOf];
    fl_eval;
    destruct xmonitor; fl_eval;
    cbn [snd eLastKnownPos log pParams positionLimits];
    unfold upd_limits; rewrite ?Hnone;
    unfold pos_eqb; rewrite ?Z.eqb_refl;
    repeat split; reflexivity.
Qed.

Lemma X8_witness :
  state sampleArrivingAtA = S_MoveContact /\
  In (OutOfTableStore BC_NONE)
     (log (snd (handlerOf (pc := samplePiezo) (sampleDrivers 31 FLUID_POSITION_A)
                  S_WaitForPiezoStop
                  (XMSG_PIEZO_STOPPED (piezoChan (sampleDrivers 31 FLUID_POSITION_A)) 31)
                  (XDispatch (pc := samplePiezo) (sampleDrivers 31 FLUID_POSITION_A)
                     X_EV_TIMER sampleArrivingAtA)))).
Proof.
  assert (Hs : state sampleArrivingAtA = S_MoveContact) by (vm_compute; reflexivity).
  assert (Hc : isContact (eTargetPos sampleArrivingAtA) = true)
    by (vm_compute; reflexivity).
  assert (Hr : eFluidFrontPosition (status sampleArrivingAtA)
               = fluidGetEchemRequirement sampleArrivingAtA true)
    by (vm_compute; reflexivity).
  assert (Hv : fdIndex FLUID_DETECTED
               <= fdIndex (eFluidFrontPosition (status sampleArrivingAtA)))
    by (vm_compute; discriminate).
  assert (Hn : eMoveDirection (status sampleArrivingAtA) <> FLUID_MOVE_FWD
               \/ eOvershootCompensationType (pParams sampleArrivingAtA)
                  = FLUID_OVERSHOOT_COMP_NONE)
    by (right; vm_compute; reflexivity).
  assert (H0 : 0 <= timeoutTimer sampleArrivingAtA) by (vm_compute; discriminate).
  assert (H1 : timeoutTimer sampleArrivingAtA + 20
               < timeout_ms (pParams sampleArrivingAtA))
    by (vm_compute; reflexivity).
  assert (H2 : timeout_ms (pParams sampleArrivingAtA) < 2 ^ 32)
    by (vm_compute; reflexivity).
  split; [exact Hs|].
  pose proof (proj2 (proj2 (proj2 (proj2 (proj2
           (X8_contact_move_completes (pc := samplePiezo)
              (sampleDrivers 31 FLUID_POSITION_A) (sampleDrivers 31 FLUID_POSITION_A)
              sampleArrivingAtA 31 (sampleDrivers_ok _ _) (sampleDrivers_ok _ _)
              Hs Hc Hr Hv Hn H0 H1 H2)))))) as H.
  cbv zeta in H. rewrite H. left. reflexivity.
Defined.

(** A tick of a move to a contact while the detector reads something valid
    that is not the requirement, before the timeout: only the time advances. *)
Lemma contact_move_tick_waits {pc : PiezoConsts} (d : Drivers) (me : Fluidic_t) :
  state me = S_MoveContact ->
  fdIndex FLUID_DETECTED <= fdIndex (eFluidFrontPosition (status me)) ->
  fd_eqb (fluidGetEchemRequirement me true) (eFluidFrontPosition (status me)) = false ->
  0 <= timeoutTimer me ->
  timeoutTimer me + 20 < timeout_ms (pParams me) ->
  timeout_ms (pParams me) < 2 ^ 32 ->
  XDispatch d X_EV_TIMER me = set_timeoutTimer (timeoutTimer me + 20) me.
Proof.
  intros Hs Hvalid Hne Ht0 Ht1 Ht2. destruct_obj me. subst xstate.
  assert (Hto : (xtimeout <=? xtimer + 20) = false) by (apply Z.leb_gt; lia).
  unfold fluidGetEchemRequirement in Hne. cbn in Hne.
  destruct xdir; cbn in Hne;
    match type of Hne with
    | fd_eqb ?r _ = false => destruct r eqn:Er
    end;
    destruct xfront; cbn in Hvalid; try lia; try discriminate Hne;
    unfold XDispatch; fl_eval; unfold fluidGetEchemRequirement; cbn;
    rewrite ?Er; fl_eval; reflexivity.
Qed.

Lemma contact_move_ticks_wait {pc : PiezoConsts} (d : Drivers) (n : nat) :
  forall me : Fluidic_t,
    state me = S_MoveContact ->
    fdIndex FLUID_DETECTED <= fdIndex (eFluidFrontPosition (status me)) ->
    fd_eqb (fluidGetEchemRequirement me true) (eFluidFrontPosition (status me)) = false ->
    0 <= timeoutTimer me ->
    timeoutTimer me + Z.of_nat n * 20 < timeout_ms (pParams me) ->
    timeout_ms (pParams me) < 2 ^ 32 ->
    XRun (repeat (d, X_EV_TIMER) n) me
    = set_timeoutTimer (timeoutTimer me + Z.of_nat n * 20) me.
Proof.
  induction n as [|n IH]; intros me Hs Hvalid Hne Ht0 Ht1 Ht2.
  - cbn [repeat XRun]. replace (timeoutTimer me + Z.of_nat 0 * 20) with (timeoutTimer me)
      by lia.
    destruct me; reflexivity.
  - cbn [repeat XRun]. rewrite Nat2Z.inj_succ in *.
    rewrite contact_move_tick_waits by (assumption || lia).
    destruct_obj me.
    rewrite IH; cbn; try (assumption || lia).
    f_equal. lia.
Qed.

(** X9: a move to a contact that never finds its contact.  While the
    detector reads something valid that is not the requirement of the
    target, the timer ticks only count the time (20 ms each) and nothing is
    sent out; the tick at which the time reaches the timeout of the move
    publishes the move-fail message for the target and the command failure
    with the move-timeout error, and the controller goes idle with its last
    known position unchanged. *)
Theorem X9_contact_move_times_out {pc : PiezoConsts} (d : Drivers) (me : Fluidic_t)
    (n : nat) :
  DriversOk d ->
  state me = S_MoveContact ->
  timeoutTimer me = 0 ->
  fdIndex FLUID_DETECTED <= fdIndex (eFluidFrontPosition (status me)) ->
  fd_eqb (fluidGetEchemRequirement me true) (eFluidFrontPosition (status me)) = false ->
  Z.of_nat n * 20 < timeout_ms (pParams me) <= Z.of_nat n * 20 + 20 ->
  timeout_ms (pParams me) < 2 ^ 32 - 20 ->
  let me1 := XRun (repeat (d, X_EV_TIMER) n) me in
  let me2 := XDispatch d X_EV_TIMER me1 in
  state me1 = S_MoveContact /\
  timeoutTimer me1 = Z.of_nat n * 20 /\
  log me1 = log me /\
  state me2 = S_Idle /\
  eLastKnownPos me2 = eLastKnownPos me /\
  eTargetPos me2 = BC_NONE /\
  publications (log me2)
  = publications (log me)
    ++ [Pub_moveFailMsg (eChannel (pParams me)) (eTargetPos me);
        Pub_cmdFail ERROR_DXRUNNER_FMOV_TIMEOUT].
Proof.
  intros Hok Hs Ht Hvalid Hne Hto Hmax me1 me2. subst me2 me1.
  rewrite contact_move_ticks_wait by (assumption || lia).
  rewrite Ht. use_ok Hok. destruct_obj me. subst xstate xtimer.
  assert (Hto' : (xtimeout <=? Z.of_nat n * 20 + 20) = true) by (apply Z.leb_le; lia).
  unfold fluidGetEchemRequirement in Hne. cbn in Hne.
  destruct xdir; cbn in Hne;
    match type of Hne with
    | fd_eqb ?r _ = false => destruct r eqn:Er
    end;
    destruct xfront; cbn in Hvalid; try lia; try discriminate Hne;
    step_dispatch_with
      ltac:(fl_eval; unfold fluidGetEchemRequirement; cbn; rewrite ?Er; fl_eval);
    cbn [state eLastKnownPos eTargetPos log timeoutTimer]; pubs;
    repeat split; reflexivity.
Qed.

Lemma X9_witness :
  state sampleShortMoveToA = S_MoveContact /\
  timeoutTimer sampleShortMoveToA = 0 /\
  state (XDispatch (pc := samplePiezo) (sampleDrivers 20 FLUID_DETECTED) X_EV_TIMER
           (XRun (pc := samplePiezo)
              (repeat (sampleDrivers 20 FLUID_DETECTED, X_EV_TIMER) 4)
              sampleShortMoveToA)) = S_Idle.
Proof.
  assert (Hs : state sampleShortMoveToA = S_MoveContact) by (vm_compute; reflexivity).
  assert (Ht : timeoutTimer sampleShortMoveToA = 0) by (vm_compute; reflexivity).
  assert (Hv : fdIndex FLUID_DETECTED
               <= fdIndex (eFluidFrontPosition (status sampleShortMoveToA)))
    by (vm_compute; discriminate).
  assert (Hn : fd_eqb (fluidGetEchemRequirement sampleShortMoveToA true)
                 (eFluidFrontPosition (status sampleShortMoveToA)) = false)
    by (vm_compute; reflexivity).
  assert (H1 : Z.of_nat 4 * 20 < timeout_ms (pParams sampleShortMoveToA)
               <= Z.of_nat 4 * 20 + 20)
    by (split; vm_compute; [reflexivity | discriminate]).
  assert (H2 : timeout_ms (pParams sampleShortMoveToA) < 2 ^ 32 - 20)
    by (vm_compute; reflexivity).
  split; [exact Hs|]. split; [exact Ht|].
  exact (proj1 (proj2 (proj2 (proj2
           (X9_contact_move_times_out (pc := samplePiezo)
              (sampleDrivers 20 FLUID_DETECTED) sampleShortMoveToA 4
              (sampleDrivers_ok _ _) Hs Ht Hv Hn H1 H2))))).
Defined.

(** ** Moves to a bladder end *)

(** X10: a move to a bladder end that does not end in time.  The timer tick
    at which the counted time reaches the timeout publishes the move-fail
    message for the target and the command failure, with the move-timeout
    error and followed by the stop-bladder-detection message in a move to
    Home or Down, with the command-timeout error and no such message in a
    lift; the last known position becomes Unknown and the controller goes
    idle. *)
Theorem X10_bladder_move_times_out {pc : PiezoConsts} (d : Drivers) (me : Fluidic_t) :
  DriversOk d ->
  0 < timeoutTimer me ->
  timeout_ms (pParams me) <= timeoutTimer me + 20 ->
  timeoutTimer me + 20 < 2 ^ 32 ->
  let me' := XDispatch d X_EV_TIMER me in
  (state me = S_MoveOther ->
   state me' = S_Idle /\
   eLastKnownPos me' = BC_POS_UNKNOWN /\
   eTargetPos me' = BC_NONE /\
   publications (log me')
   = publications (log me)
     ++ [Pub_moveFailMsg (eChannel (pParams me)) (eTargetPos me);
         Pub_cmdFail ERROR_DXRUNNER_FMOV_TIMEOUT;
         Pub_fcStopBladderDetectMsg]) /\
  (state me = S_LiftUpBladder ->
   state me' = S_Idle /\
   eLastKnownPos me' = BC_POS_UNKNOWN /\
   eTargetPos me' = BC_NONE /\
   publications (log me')
   = publications (log me)
     ++ [Pub_moveFailMsg (eChannel (pParams me)) (eTargetPos me);
         Pub_cmdFail ERROR_COMMAND_TIMEOUT]).
Proof.
  intros Hok Ht0 Hto Hmax me'. subst me'. use_ok Hok. destruct_obj me.
  assert (Hto' : (xtimeout <=? xtimer + 20) = true) by (apply Z.leb_le; lia).
  assert (H20 : (20 =? xtimer + 20) = false) by (apply Z.eqb_neq; lia).
  cbn in H20.
  split; intros ->;
    step_dispatch_with ltac:(fl_eval; rewrite ?H20; fl_eval); cbn [state eLastKnownPos eTargetPos log]; pubs;
    repeat split; reflexivity.
Qed.

Lemma X10_witness :
  state sampleHomingLate = S_MoveOther /\
  eLastKnownPos
    (XDispatch (pc := samplePiezo) (sampleDrivers 100 NO_FLUID_DETECTED) X_EV_TIMER
       sampleHomingLate) = BC_POS_UNKNOWN.
Proof.
  assert (Hs : state sampleHomingLate = S_MoveOther) by (vm_compute; reflexivity).
  assert (H0 : 0 < timeoutTimer sampleHomingLate) by (vm_compute; reflexivity).
  assert (H1 : timeout_ms (pParams sampleHomingLate) <= timeoutTimer sampleHomingLate + 20)
    by (vm_compute; discriminate).
  assert (H2 : timeoutTimer sampleHomingLate + 20 < 2 ^ 32) by (vm_compute; reflexivity).
  split; [exact Hs|].
  exact (proj1 (proj2 (proj1
           (X10_bladder_move_times_out (pc := samplePiezo)
              (sampleDrivers 100 NO_FLUID_DETECTED) sampleHomingLate
              (sampleDrivers_ok _ _) H0 H1 H2) Hs))).
Defined.

(** ** Breach monitoring and detector readings *)

(** X11: detector readings.  In breach monitoring, a reading of the own
    channel that equals the forward requirement of the held contact is only
    stored: nothing is published and the controller keeps monitoring.  And
    in every state a fluid-status event is looked at for the own channel
    only: two events that agree on the own channel have the same effect. *)
Theorem X11_detector_readings {pc : PiezoConsts} (d : Drivers) (me : Fluidic_t)
    (fp fp' : eElectrochemicalChannel -> eEcFluidDetectPosition_t) :
  (state me = S_MonitorFluidBreach ->
   fd_eqb (fp (eChannel (pParams me)))
          (echemRequirements (positionLimits (pParams me) (eLastKnownPos me))
             FLUID_MOVE_FWD) = true ->
   XDispatch d (XMSG_EC_FLUID_STATUS_CHANGED fp) me
   = set_status (set_eFluidFrontPosition (fp (eChannel (pParams me))) (status me)) me) /\
  (fp (eChannel (pParams me)) = fp' (eChannel (pParams me)) ->
   XDispatch d (XMSG_EC_FLUID_STATUS_CHANGED fp) me
   = XDispatch d (XMSG_EC_FLUID_STATUS_CHANGED fp') me).
Proof.
  destruct_obj me. split.
  - intros -> Hm. unfold XDispatch.
    cbn. unfold fluidGetEchemRequirement. cbn. rewrite Hm. reflexivity.
  - intros H. destruct xstate; unfold XDispatch; cbn;
      unfold fluidGetEchemRequirement; cbn; rewrite ?H; reflexivity.
Qed.

Lemma X11_witness :
  state sampleMonitoringB = S_MonitorFluidBreach /\
  XDispatch (pc := samplePiezo) (sampleDrivers 45 FLUID_POSITION_B)
    (XMSG_EC_FLUID_STATUS_CHANGED (fun _ => FLUID_POSITION_B)) sampleMonitoringB
  = set_status
      (set_eFluidFrontPosition
         ((fun _ : eElectrochemicalChannel => FLUID_POSITION_B)
            (eChannel (pParams sampleMonitoringB)))
         (status sampleMonitoringB)) sampleMonitoringB.
Proof.
  assert (Hs : state sampleMonitoringB = S_MonitorFluidBreach)
    by (vm_compute; reflexivity).
  assert (Hm : fd_eqb ((fun _ : eElectrochemicalChannel => FLUID_POSITION_B)
                         (eChannel (pParams sampleMonitoringB)))
                 (echemRequirements
                    (positionLimits (pParams sampleMonitoringB)
                       (eLastKnownPos sampleMonitoringB)) FLUID_MOVE_FWD) = true)
    by (vm_compute; reflexivity).
  split; [exact Hs|].
  exact (proj1 (X11_detector_readings (pc := samplePiezo)
                  (sampleDrivers 45 FLUID_POSITION_B) sampleMonitoringB
                  (fun _ => FLUID_POSITION_B) (fun _ => FLUID_POSITION_B)) Hs Hm).
Defined.

(** ** Cancelling *)

(** X12: the global halt in every state past the initial one, and the
    cancel event in every such state that is not a mixing state, take the
    controller to idle with the target cleared.  If no target was set,
    nothing is published and the last known position is kept.  If a target
    was set, the move-complete message is published for that target, with
    the time counted so far and the voltage read from the piezo, and the
    last known position becomes Unknown. *)
Theorem X12_cancel_and_halt {pc : PiezoConsts} (d : Drivers) (me : Fluidic_t)
    (ev : XEvent) :
  DriversOk d ->
  state me <> S_Init ->
  ev = XMSG_GLOBAL_HALT
  \/ (ev = XMSG_FLUID_CHANNEL_CANCEL /\ isMixState (state me) = false) ->
  let me' := XDispatch d ev me in
  state me' = S_Idle /\
  eTargetPos me' = BC_NONE /\
  (eTargetPos me = BC_NONE ->
   eLastKnownPos me' = eLastKnownPos me /\
   publications (log me') = publications (log me)) /\
  (eTargetPos me <> BC_NONE ->
   eLastKnownPos me' = BC_POS_UNKNOWN /\
   publications (log me')
   = publications (log me)
     ++ [Pub_moveSuccessMsg (eChannel (pParams me)) (eTargetPos me)
           (timeoutTimer me) (currentVoltage d)]).
Proof.
  intros Hok Hs Hev me'. subst me'. use_ok Hok. destruct_obj me.
  destruct Hev as [-> | [-> Hmix]];
    destruct xstate; try (exfalso; apply Hs; reflexivity); try discriminate Hmix;
    destruct xtgt;
    step_dispatch; cbn [state eLastKnownPos eTargetPos log]; pubs;
    (split; [reflexivity|]); (split; [reflexivity|]);
    (split; [intros Hn; try discriminate Hn; split; reflexivity
            |intros Hn; try (exfalso; apply Hn; reflexivity); split; reflexivity]).
Qed.

Lemma X12_witness :
  state sampleMovingToA <> S_Init /\
  eTargetPos sampleMovingToA <> BC_NONE /\
  eLastKnownPos
    (XDispatch (pc := samplePiezo) (sampleDrivers 20 FLUID_DETECTED)
       XMSG_FLUID_CHANNEL_CANCEL sampleMovingToA) = BC_POS_UNKNOWN.
Proof.
  assert (Hs : state sampleMovingToA <> S_Init) by (vm_compute; discriminate).
  assert (Ht : eTargetPos sampleMovingToA <> BC_NONE) by (vm_compute; discriminate).
  assert (Hm : isMixState (state sampleMovingToA) = false) by (vm_compute; reflexivity).
  split; [exact Hs|]. split; [exact Ht|].
  exact (proj1 (proj2 (proj2 (proj2
           (X12_cancel_and_halt (pc := samplePiezo) (sampleDrivers 20 FLUID_DETECTED)
              sampleMovingToA XMSG_FLUID_CHANNEL_CANCEL (sampleDrivers_ok _ _) Hs
              (or_intror (conj eq_refl Hm))))) Ht)).
Defined.

(** X13: a lift call followed by a cancel.  The lift call writes Home into
    the target position whether or not it is accepted.  From idle with no
    target, a cancel event alone publishes nothing and keeps the last known
    position; after a lift call, the same cancel event publishes the
    move-complete message for Home and the last known position becomes
    Unknown. *)
Theorem X13_lift_call_then_cancel {pc : PiezoConsts} (d : Drivers) (me : Fluidic_t)
    (ramp : Q) (timeout : Z) :
  DriversOk d ->
  state me = S_Idle ->
  eTargetPos me = BC_NONE ->
  let me1 := exec (FluidicLiftUpBladder ramp timeout) me in
  let me2 := XDispatch d XMSG_FLUID_CHANNEL_CANCEL me1 in
  let me0 := XDispatch d XMSG_FLUID_CHANNEL_CANCEL me in
  publications (log me0) = publications (log me) /\
  eLastKnownPos me0 = eLastKnownPos me /\
  publications (log me2)
  = publications (log me)
    ++ [Pub_moveSuccessMsg (eChannel (pParams me)) BC_POS_HOME (timeoutTimer me)
          (currentVoltage d)] /\
  eLastKnownPos me2 = BC_POS_UNKNOWN.
Proof.
  intros Hok Hs Ht me1 me2 me0. subst me0 me2 me1. use_ok Hok.
  destruct_obj me. subst xstate xtgt.
  unfold exec, FluidicLiftUpBladder. cbn -[XDispatch FluidCheckMoveParams].
  repeat match goal with
    | |- context [if ?c then _ else _] => destruct c; cbn -[XDispatch]
    end;
    repeat step_dispatch; cbn [eLastKnownPos log]; pubs;
    repeat split; reflexivity.
Qed.

Lemma X13_witness :
  state sampleStarted = S_Idle /\
  eTargetPos sampleStarted = BC_NONE /\
  eval (FluidicLiftUpBladder (pc := samplePiezo) (25 # 10) 10000) sampleStarted
  = ERROR_FLUID_CHANNEL_INVALID_MOVE /\
  publications
    (log (XDispatch (pc := samplePiezo) (sampleDrivers 100 NO_FLUID_DETECTED)
            XMSG_FLUID_CHANNEL_CANCEL
            (exec (FluidicLiftUpBladder (pc := samplePiezo) (25 # 10) 10000)
               sampleStarted)))
  = publications (log sampleStarted)
    ++ [Pub_moveSuccessMsg (eChannel (pParams sampleStarted)) BC_POS_HOME
          (timeoutTimer sampleStarted)
          (currentVoltage (sampleDrivers 100 NO_FLUID_DETECTED))].
Proof.
  assert (Hs : state sampleStarted = S_Idle) by (vm_compute; reflexivity).
  assert (Ht : eTargetPos sampleStarted = BC_NONE) by (vm_compute; reflexivity).
  split; [exact Hs|]. split; [exact Ht|]. split; [vm_compute; reflexivity|].
  exact (proj1 (proj2 (proj2
           (X13_lift_call_then_cancel (pc := samplePiezo)
              (sampleDrivers 100 NO_FLUID_DETECTED) sampleStarted (25 # 10) 10000
              (sampleDrivers_ok _ _) Hs Ht)))).
Defined.

(** ** The API *)

(** X14: what a call of the API can do to the object.  Every call leaves
    the state machine, the last known position, the parameters, the status,
    the timers and the outputs as they are; only the lift call touches the
    target position.  A call appends exactly one event to the queue when it
    answers command-accepted (OK for the breach-monitoring switch), and
    leaves the queue as it is when it answers anything else. *)
Theorem X14_api_calls_only_post {pc : PiezoConsts} (d : Drivers) (c : ApiCall)
    (me : Fluidic_t) :
  let me' := exec (apiCall d c) me in
  let r := eval (apiCall d c) me in
  state me' = state me /\
  eLastKnownPos me' = eLastKnownPos me /\
  pParams me' = pParams me /\
  status me' = status me /\
  timeoutTimer me' = timeoutTimer me /\
  mixTimer me' = mixTimer me /\
  log me' = log me /\
  ((forall ramp timeout, c <> CallLiftUpBladder ramp timeout) ->
   eTargetPos me' = eTargetPos me) /\
  (r = OK_COMMAND_ACCEPTED \/ r = OK_STATUS ->
   exists ev, evQueue me' = evQueue me ++ [ev]) /\
  (r <> OK_COMMAND_ACCEPTED -> r <> OK_STATUS -> evQueue me' = evQueue me).
Proof.
  intros me' r. subst me' r. destruct_obj me.
  destruct c; cbn [apiCall]; unfold exec, eval;
    autounfold with fl; unfold FluidCheckMixParams; cbn;
    repeat match goal with
      | |- context [if ?c then _ else _] => destruct c eqn:?; cbn
      | |- context [match ?e with OK_STATUS => _ | _ => _ end] =>
          destruct e eqn:?; cbn
      end;
    try match goal with H : is_OK_STATUS OK_STATUS = false |- _ => discriminate H end;
    repeat match goal with |- _ /\ _ => split end;
    try reflexivity;
    try (intros H; exfalso; eapply H; reflexivity);
    try (intros _; eexists; reflexivity);
    try (intros [H | H]; discriminate H);
    try (intros H1 H2; exfalso; (apply H1; reflexivity) || (apply H2; reflexivity)).
Qed.

Lemma X14_witness :
  eval (apiCall (pc := samplePiezo) (sampleDrivers 100 NO_FLUID_DETECTED) CallStop)
       sampleStarted = OK_COMMAND_ACCEPTED /\
  exists ev,
    evQueue (exec (apiCall (pc := samplePiezo) (sampleDrivers 100 NO_FLUID_DETECTED)
                     CallStop) sampleStarted)
    = evQueue sampleStarted ++ [ev].
Proof.
  assert (Hr : eval (apiCall (pc := samplePiezo) (sampleDrivers 100 NO_FLUID_DETECTED)
                       CallStop) sampleStarted = OK_COMMAND_ACCEPTED)
    by reflexivity.
  split; [exact Hr|].
  exact (proj1 (proj2 (proj2 (proj2 (proj2 (proj2 (proj2 (proj2 (proj2
           (X14_api_calls_only_post (pc := samplePiezo)
              (sampleDrivers 100 NO_FLUID_DETECTED) CallStop sampleStarted)))))))))
           (or_introl Hr)).
Defined.

(** X15: the wait-for-contact call checks its arguments before it looks at
    the state: a target that is not a contact, or that is not a legal move
    from the last known position, is answered with bad-arguments in every
    state; with the arguments in order the call is answered not-ready
    outside idle and breach monitoring, and otherwise accepted and posted.
    The timeout is not looked at. *)
Theorem X15_wait_for_contact_call {pc : PiezoConsts} (me : Fluidic_t)
    (target : eFluidicPositions_t) (timeout : Z) :
  let r := eval (FluidicWaitForFluidAtContact target timeout) me in
  let me' := exec (FluidicWaitForFluidAtContact target timeout) me in
  let argsOk := isContact target && moveMatrix (eLastKnownPos me) target in
  (argsOk = false -> r = ERROR_BAD_ARGS /\ me' = me) /\
  (argsOk = true -> FluidicStateCanAcceptCommand me = false ->
   r = ERROR_OBJECT_NOT_READY /\ me' = me) /\
  (argsOk = true -> FluidicStateCanAcceptCommand me = true ->
   r = OK_COMMAND_ACCEPTED /\
   evQueue me' = evQueue me ++ [XMSG_FLUID_WAIT_FOR_CONTACT target timeout]).
Proof.
  intros r me' argsOk. subst r me' argsOk.
  unfold eval, exec, FluidicWaitForFluidAtContact. cbn.
  rewrite moveValid_matrix.
  assert (E : pos_geb target BC_POS_FLUID_A && moveMatrix (eLastKnownPos me) target
              = isContact target && moveMatrix (eLastKnownPos me) target)
    by (destruct (eLastKnownPos me), target; reflexivity).
  rewrite E. clear E.
  destruct (isContact target && moveMatrix (eLastKnownPos me) target);
    destruct (FluidicStateCanAcceptCommand me); cbn;
    repeat split; try reflexivity; try discriminate; destruct me; reflexivity.
Qed.

Lemma X15_witness :
  isContact BC_POS_DOWN && moveMatrix (eLastKnownPos sampleMovingToA) BC_POS_DOWN
  = false /\
  FluidicStateCanAcceptCommand sampleMovingToA = false /\
  eval (FluidicWaitForFluidAtContact BC_POS_DOWN 1000) sampleMovingToA
  = ERROR_BAD_ARGS.
Proof.
  assert (Ha : isContact BC_POS_DOWN
               && moveMatrix (eLastKnownPos sampleMovingToA) BC_POS_DOWN = false)
    by reflexivity.
  split; [exact Ha|]. split; [vm_compute; reflexivity|].
  exact (proj1 (proj1 (X15_wait_for_contact_call (pc := samplePiezo) sampleMovingToA
                         BC_POS_DOWN 1000) Ha)).
Defined.

(** ** Waiting for a contact and checking the strip *)

(** X16: waiting for the fluid at a contact.  The wait-for-contact message
    handled in idle starts the wait without commanding the piezo: the timer
    is started and fill detection switched on, nothing else is sent out.
    At the timer tick at which the stored detector reading equals the
    requirement of the target, the move-complete message for the target is
    published, the target becomes the last known position and the
    controller goes idle; this happens also when the timeout is reached at
    that same tick.  If the reading differs and the timeout is reached, the
    move-fail message and the command failure with the command-timeout
    error are published, and the last known position is kept. *)
Theorem X16_wait_for_contact {pc : PiezoConsts} (d : Drivers) (me : Fluidic_t) :
  DriversOk d ->
  (state me = S_Idle ->
   forall target timeout,
     let me' := XDispatch d (XMSG_FLUID_WAIT_FOR_CONTACT target timeout) me in
     state me' = S_WaitForContact /\
     eTargetPos me' = target /\
     timeout_ms (pParams me') = timeout /\
     timeoutTimer me' = 0 /\
     log me'
     = OutEcSetModeFillDetect (eChannel (pParams me)) EC_CHAN_POS_A
       :: OutTimerStart :: OutTimerStop :: log me) /\
  (state me = S_WaitForContact ->
   0 <= timeoutTimer me -> timeoutTimer me + 20 < 2 ^ 32 ->
   let me' := XDispatch d X_EV_TIMER me in
   (fd_eqb (fluidGetEchemRequirement me true) (eFluidFrontPosition (status me)) = true ->
    state me' = S_Idle /\
    eLastKnownPos me' = eTargetPos me /\
    publications (log me')
    = publications (log me)
      ++ [Pub_moveSuccessMsg (eChannel (pParams me)) (eTargetPos me)
            (timeoutTimer me + 20) (currentVoltage d)]) /\
   (fd_eqb (fluidGetEchemRequirement me true) (eFluidFrontPosition (status me)) = false ->
    timeout_ms (pParams me) <= timeoutTimer me + 20 ->
    state me' = S_Idle /\
    eLastKnownPos me' = eLastKnownPos me /\
    publications (log me')
    = publications (log me)
      ++ [Pub_moveFailMsg (eChannel (pParams me)) (eTargetPos me);
          Pub_cmdFail ERROR_COMMAND_TIMEOUT])).
Proof.
  intros Hok. use_ok Hok. destruct_obj me. split.
  - intros -> target timeout.
    step_dispatch. repeat split; reflexivity.
  - intros -> Ht0 Ht1. unfold fluidGetEchemRequirement. cbn. split.
    + intros Hm.
      step_dispatch_with
        ltac:(fl_eval; unfold fluidGetEchemRequirement; cbn; rewrite ?Hm; fl_eval).
      cbn [state eLastKnownPos log]. pubs. repeat split; reflexivity.
    + intros Hm Hto.
      assert (Hto' : (xtimeout <=? xtimer + 20) = true) by (apply Z.leb_le; lia).
      step_dispatch_with
        ltac:(fl_eval; unfold fluidGetEchemRequirement; cbn; rewrite ?Hm; fl_eval).
      cbn [state eLastKnownPos log]. pubs. repeat split; reflexivity.
Qed.

Lemma X16_witness :
  state sampleAtDown = S_Idle /\
  state (XDispatch (pc := samplePiezo) (sampleDrivers 10 NO_FLUID_DETECTED)
           (XMSG_FLUID_WAIT_FOR_CONTACT BC_POS_FLUID_A 1000) sampleAtDown)
  = S_WaitForContact.
Proof.
  assert (Hs : state sampleAtDown = S_Idle) by (vm_compute; reflexivity).
  split; [exact Hs|].
  exact (proj1 (proj1 (X16_wait_for_contact (pc := samplePiezo)
                         (sampleDrivers 10 NO_FLUID_DETECTED) sampleAtDown
                         (sampleDrivers_ok _ _)) Hs BC_POS_FLUID_A 1000)).
Defined.

(** X17: the strip check that precedes every move but the one to Home.  No
    decision is taken while at most 80 ms have been counted or the detector
    has no valid data: the tick only counts the time and stores the
    reading.  After that, with the timeout of the move not reached, the
    reading taken from the detector decides: a move to Down goes ahead when
    a strip is there (reading at least no-fluid); a move to a contact goes
    ahead when fluid is detected; otherwise the move fails, with the
    no-strip error when no strip is detected and with invalid-move in the
    remaining cases, and the controller goes back to idle having published
    the move-fail message and the command failure.  The piezo is not
    commanded before the decision. *)
Theorem X17_strip_check {pc : PiezoConsts} (d : Drivers) (me : Fluidic_t) :
  DriversOk d ->
  state me = S_CheckForStrip ->
  0 <= timeoutTimer me ->
  timeoutTimer me + 20 < timeout_ms (pParams me) ->
  timeout_ms (pParams me) < 2 ^ 32 ->
  let reading := r_ecGetFluidPosition d (eChannel (pParams me)) in
  let me' := XDispatch d X_EV_TIMER me in
  (timeoutTimer me + 20 <= 80 \/ reading = FD_DATA_INVALID ->
   me' = set_status (set_eFluidFrontPosition reading (status me))
           (set_timeoutTimer (timeoutTimer me + 20) me)) /\
  (80 < timeoutTimer me + 20 -> reading <> FD_DATA_INVALID ->
   (eTargetPos me = BC_POS_DOWN -> fdIndex NO_FLUID_DETECTED <= fdIndex reading ->
    state me' = S_MoveOther /\ publications (log me') = publications (log me)) /\
   (isContact (eTargetPos me) = true -> fdIndex FLUID_DETECTED <= fdIndex reading ->
    state me' = S_MoveContact /\ timeoutTimer me' = 0 /\
    publications (log me') = publications (log me)) /\
   (reading = NO_STRIP_DETECTED ->
    state me' = S_Idle /\
    eLastKnownPos me' = eLastKnownPos me /\
    log me'
    = OutPiezoStop :: OutTimerStop :: OutEcDisable (eChannel (pParams me))
      :: OutTimerStop :: OutErrorCheck ERROR_FLUID_NO_STRIP
      :: OutPublish (Pub_cmdFail ERROR_FLUID_NO_STRIP)
      :: OutPublish (Pub_moveFailMsg (eChannel (pParams me)) (eTargetPos me))
      :: log me) /\
   (isContact (eTargetPos me) = true -> reading = NO_FLUID_DETECTED ->
    state me' = S_Idle /\
    eLastKnownPos me' = eLastKnownPos me /\
    log me'
    = OutPiezoStop :: OutTimerStop :: OutEcDisable (eChannel (pParams me))
      :: OutTimerStop :: OutErrorCheck ERROR_FLUID_CHANNEL_INVALID_MOVE
      :: OutPublish (Pub_cmdFail ERROR_FLUID_CHANNEL_INVALID_MOVE)
      :: OutPublish (Pub_moveFailMsg (eChannel (pParams me)) (eTargetPos me))
      :: log me)).
Proof.
  intros Hok Hs Ht0 Ht1 Ht2 reading me'. subst reading me'. use_ok Hok.
  destruct_obj me. subst xstate.
  assert (Hto : (xtimeout <=? xtimer + 20) = false) by (apply Z.leb_gt; lia).
  assert (Hto0 : (xtimeout <=? 0) = false) by (apply Z.leb_gt; lia).
  split.
  - intros [Hearly | Hinv].
    + assert (H80 : (80 <? xtimer + 20) = false) by (apply Z.ltb_ge; lia).
      cbn in H80.
      step_dispatch_with ltac:(fl_eval; rewrite ?H80; fl_eval). reflexivity.
    + rewrite Hinv.
      step_dispatch_with
        ltac:(fl_eval; rewrite ?Hinv; fl_eval; rewrite ?andb_false_r; fl_eval).
      reflexivity.
  - intros Hlate Hvalid.
    assert (H80 : (80 <? xtimer + 20) = true) by (apply Z.ltb_lt; lia).
    cbn in H80.
    repeat match goal with |- _ /\ _ => split end.
    + intros -> Hr.
      destruct (r_ecGetFluidPosition d xchan) eqn:Er; cbn in Hr; try lia;
        step_dispatch_with ltac:(fl_eval; rewrite ?H80, ?Er; fl_eval);
        cbn [state log]; pubs; split; reflexivity.
    + intros Hc Hr.
      destruct xtgt; try discriminate Hc;
        destruct (r_ecGetFluidPosition d xchan) eqn:Er; cbn in Hr; try lia;
        step_dispatch_with ltac:(fl_eval; rewrite ?H80, ?Er; fl_eval);
        cbn [state log timeoutTimer]; pubs; repeat split; reflexivity.
    + intros Er.
      destruct xtgt;
        step_dispatch_with ltac:(fl_eval; rewrite ?H80, ?Er; fl_eval);
        cbn [state log eLastKnownPos]; repeat split; reflexivity.
    + intros Hc Er.
      destruct xtgt; try discriminate Hc;
        step_dispatch_with ltac:(fl_eval; rewrite ?H80, ?Er; fl_eval);
        cbn [state log eLastKnownPos]; repeat split; reflexivity.
Qed.

Lemma X17_witness :
  state sampleCheckingStrip = S_CheckForStrip /\
  r_ecGetFluidPosition (sampleDrivers 10 NO_STRIP_DETECTED)
    (eChannel (pParams sampleCheckingStrip)) = NO_STRIP_DETECTED /\
  state (XDispatch (pc := samplePiezo) (sampleDrivers 10 NO_STRIP_DETECTED)
           X_EV_TIMER sampleCheckingStrip) = S_Idle.
Proof.
  assert (Hs : state sampleCheckingStrip = S_CheckForStrip) by (vm_compute; reflexivity).
  assert (H0 : 0 <= timeoutTimer sampleCheckingStrip) by (vm_compute; discriminate).
  assert (H1 : timeoutTimer sampleCheckingStrip + 20
               < timeout_ms (pParams sampleCheckingStrip))
    by (vm_compute; reflexivity).
  assert (H2 : timeout_ms (pParams sampleCheckingStrip) < 2 ^ 32)
    by (vm_compute; reflexivity).
  assert (H3 : 80 < timeoutTimer sampleCheckingStrip + 20) by (vm_compute; reflexivity).
  assert (Hr : r_ecGetFluidPosition (sampleDrivers 10 NO_STRIP_DETECTED)
                 (eChannel (pParams sampleCheckingStrip)) = NO_STRIP_DETECTED)
    by reflexivity.
  assert (Hv : r_ecGetFluidPosition (sampleDrivers 10 NO_STRIP_DETECTED)
                 (eChannel (pParams sampleCheckingStrip)) <> FD_DATA_INVALID)
    by discriminate.
  split; [exact Hs|]. split; [exact Hr|].
  exact (proj1 (proj1 (proj2 (proj2
           (proj2 (X17_strip_check (pc := samplePiezo)
                     (sampleDrivers 10 NO_STRIP_DETECTED) sampleCheckingStrip
                     (sampleDrivers_ok _ _) Hs H0 H1 H2) H3 Hv))) Hr)).
Defined.

(** ** Homing *)

(** X18: homing forgets the learned contact voltages.  A move to Home and
    the door-opened event, in every state past the initial one and whatever
    the drivers answer, command the piezo home and set the target voltage of
    each of the contacts A, B and C to the value kept for the time before a
    lift (50 V); the hysteresis of every position and the voltages of Home
    and Down stay as they were. *)
Theorem X18_homing_forgets_contact_voltages {pc : PiezoConsts} (d : Drivers)
    (me : Fluidic_t) (ev : XEvent) :
  state me <> S_Init ->
  ev = XMSG_DOOR_OPENED
  \/ (exists m, ev = XMSG_FLUID_CHANNEL_MOVE_TO m /\ mv_eTargetPos m = BC_POS_HOME) ->
  let me' := XDispatch d ev me in
  let tbl := positionLimits (pParams me) in
  let tbl' := positionLimits (pParams me') in
  In OutPiezoHome (log me') /\
  (forall p, isContact p = true -> targetVolts (tbl' p) = FLUIDIC_MAX_VOLTS_BEFORE_LIFT) /\
  (forall p, isContact p = false -> targetVolts (tbl' p) = targetVolts (tbl p)) /\
  (forall p, posHysterisis (tbl' p) = posHysterisis (tbl p)).
Proof.
  intros Hs Hev me' tbl tbl'. subst me' tbl tbl'. destruct_obj me.
  destruct (r_piezoHome d) eqn:Eh;
    (destruct Hev as [-> | [[t ? ? ? ?] [-> Hm]]]; [|cbn in Hm; subst t]);
    destruct xstate; try (exfalso; apply Hs; reflexivity);
    unfold XDispatch; fl_eval; rewrite ?Eh; fl_eval;
    (split; [cbn; auto 20|]);
    (split; [intros p Hp; destruct p; try discriminate Hp; reflexivity|]);
    (split; [intros p Hp; destruct p; try discriminate Hp; reflexivity
            |intros p; destruct p; reflexivity]).
Qed.

Lemma X18_witness :
  state sampleAtB <> S_Init /\
  targetVolts (positionLimits (pParams sampleAtB) BC_POS_FLUID_A) = 30%Q /\
  targetVolts
    (positionLimits
       (pParams (XDispatch (pc := samplePiezo) (sampleDrivers 45 FLUID_POSITION_B)
                   XMSG_DOOR_OPENED sampleAtB)) BC_POS_FLUID_A)
  = FLUIDIC_MAX_VOLTS_BEFORE_LIFT.
Proof.
  assert (Hs : state sampleAtB <> S_Init) by (vm_compute; discriminate).
  split; [exact Hs|]. split; [vm_compute; reflexivity|].
  exact (proj1 (proj2 (X18_homing_forgets_contact_voltages (pc := samplePiezo)
                         (sampleDrivers 45 FLUID_POSITION_B) sampleAtB
                         XMSG_DOOR_OPENED Hs (or_introl eq_refl)))
           BC_POS_FLUID_A eq_refl).
Defined.

(** ** Abandoning a mix *)

(** X19: a mix that is cancelled or runs out of time, with the stroke target
    and the rest position of the mix both positions of the table.  In each
    of the three mixing states, the cancel event, and the timer tick at
    which the mix time reaches the mix timeout, make the rest position the
    target and start a move to it as a move to a contact; the timeout first
    publishes the move-fail message for the stroke target and the command
    failure with the mix-timeout error, the cancel marks the mix complete and
    publishes nothing.  The move that is started keeps the direction of the
    stroke that was under way: in a reverse stroke the piezo is sent to its
    minimum voltage, otherwise to the voltage of the rest position plus its
    hysteresis, added in single precision. *)
Theorem X19_mix_abandoned {pc : PiezoConsts} (d : Drivers) (me : Fluidic_t)
    (ev : XEvent) :
  DriversOk d ->
  isMixState (state me) = true ->
  posInTable (eTargetPos me) = true ->
  posInTable (eMixEndPosition (pParams me)) = true ->
  let rest := eMixEndPosition (pParams me) in
  let lim := positionLimits (pParams me) rest in
  let me' := XDispatch d ev me in
  let command :=
    OutPiezoVoltageSet
      {| targetVoltage :=
           if dir_eqb (eMoveDirection (status me)) FLUID_MOVE_REV
           then PIEZO_MIN_VOLTAGE
           else f32_add (targetVolts lim) (posHysterisis lim);
         rampSpeed := rampSpeedVoltsPerSec (pParams me);
         publishCompletion := false |} in
  (ev = XMSG_FLUID_CHANNEL_CANCEL ->
   state me' = S_MoveContact /\
   eTargetPos me' = rest /\
   mixComplete (status me') = true /\
   timeoutTimer me' = 0 /\
   In command (log me') /\
   publications (log me') = publications (log me)) /\
  (ev = X_EV_TIMER ->
   0 <= mixTimer me -> mixTimer me + 20 < 2 ^ 32 ->
   mixTimeout_ms (pParams me) <= mixTimer me + 20 ->
   state me' = S_MoveContact /\
   eTargetPos me' = rest /\
   timeoutTimer me' = 0 /\
   In command (log me') /\
   publications (log me')
   = publications (log me)
     ++ [Pub_moveFailMsg (eChannel (pParams me)) (eTargetPos me);
         Pub_cmdFail ERROR_DXRUNNER_FMIX_TIMEOUT]).
Proof.
  intros Hok Hmix Hin Hrest rest lim me' command.
  subst rest lim me' command. use_ok Hok.
  destruct_obj me. split.
  - intros ->.
    destruct xstate; try discriminate Hmix; destruct xdir;
      step_dispatch; cbn [state eTargetPos status mixComplete timeoutTimer log];
      pubs; repeat split; try reflexivity; cbn; auto 10.
  - intros -> Ht0 Ht1 Hto.
    assert (Hto' : (xmixto <=? xmixt + 20) = true) by (apply Z.leb_le; lia).
    destruct xstate; try discriminate Hmix; destruct xdir;
      step_dispatch; cbn [state eTargetPos status mixComplete timeoutTimer log];
      pubs; repeat split; try reflexivity; cbn; auto 10.
Qed.

Lemma X19_witness :
  isMixState
    (state (XDispatch (pc := samplePiezo) (sampleDrivers 45 FLUID_POSITION_B)
              (XMSG_FLUID_MIX (sampleMix 3 FLUID_MIX_OPEN_LOOP 0)) sampleAtB)) = true /\
  state (XDispatch (pc := samplePiezo) (sampleDrivers 40 FLUID_POSITION_B)
           XMSG_FLUID_CHANNEL_CANCEL
           (XDispatch (pc := samplePiezo) (sampleDrivers 45 FLUID_POSITION_B)
              (XMSG_FLUID_MIX (sampleMix 3 FLUID_MIX_OPEN_LOOP 0)) sampleAtB))
  = S_MoveContact.
Proof.
  assert (Hm : isMixState
                 (state (XDispatch (pc := samplePiezo)
                           (sampleDrivers 45 FLUID_POSITION_B)
                           (XMSG_FLUID_MIX (sampleMix 3 FLUID_MIX_OPEN_LOOP 0))
                           sampleAtB)) = true)
    by (vm_compute; reflexivity).
  split; [exact Hm|].
  exact (proj1 (proj1 (X19_mix_abandoned (pc := samplePiezo)
                         (sampleDrivers 40 FLUID_POSITION_B) _
                         XMSG_FLUID_CHANNEL_CANCEL (sampleDrivers_ok _ _) Hm
                         ltac:(vm_compute; reflexivity) ltac:(vm_compute; reflexivity))
                  eq_refl)).
Defined.

(** ** Hysteresis adaptation in a contact-controlled mix *)

(** X20: how a contact-controlled mix stroke to a position of the table
    ends.  If the own piezo reports its ramp complete (the detector has not
    confirmed the stroke), the hysteresis of the stroke target is multiplied
    in single precision by the increase multiplier and clamped, and its
    target voltage stays.  If a timer tick finds the fluid front at or
    beyond the requirement in the direction of the stroke (before the mix
    timeout), the voltage read from the piezo becomes the target voltage of
    the stroke target and its hysteresis is multiplied in single precision
    by the decrease multiplier and clamped.  Either way the stage is
    counted. *)
Theorem X20_mix_stroke_adapts_hysteresis {pc : PiezoConsts} (d : Drivers)
    (me : Fluidic_t) (volts : Q) :
  DriversOk d ->
  state me = S_MixContactControlled ->
  posInTable (eTargetPos me) = true ->
  0 <= mixingStagesCompleted (status me) ->
  mixingStagesCompleted (status me) + 1 < 2 ^ 32 ->
  let tgt := eTargetPos me in
  let h := hystOf me tgt in
  let mult := hysterisisMultipliersVolts (pParams me) in
  (let me' := XDispatch d (XMSG_PIEZO_MOVE_COMPLTE (piezoChan d) volts) me in
   hystOf me' tgt = clampHysteresis (f32_mul h (mult FLUID_HYST_INC)) /\
   targetVolts (positionLimits (pParams me') tgt)
   = targetVolts (positionLimits (pParams me) tgt) /\
   mixingStagesCompleted (status me') = mixingStagesCompleted (status me) + 1) /\
  (0 <= mixTimer me ->
   mixTimer me + 20 < mixTimeout_ms (pParams me) ->
   mixTimeout_ms (pParams me) < 2 ^ 32 ->
   (fd_leb (fluidGetEchemRequirement me true) (eFluidFrontPosition (status me))
    && dir_eqb (eMoveDirection (status me)) FLUID_MOVE_FWD)
   || (fd_leb (eFluidFrontPosition (status me)) (fluidGetEchemRequirement me true)
       && dir_eqb (eMoveDirection (status me)) FLUID_MOVE_REV) = true ->
   let me' := XDispatch d X_EV_TIMER me in
   hystOf me' tgt = clampHysteresis (f32_mul h (mult FLUID_HYST_DEC)) /\
   targetVolts (positionLimits (pParams me') tgt) = currentVoltage d /\
   mixingStagesCompleted (status me') = mixingStagesCompleted (status me) + 1).
Proof.
  intros Hok Hs Hin Hk0 Hk1 tgt h mult. subst tgt h mult. use_ok Hok.
  destruct_obj me. subst xstate. cbn [eTargetPos] in Hin.
  unfold hystOf, clampHysteresis. split.
  - destruct (xcycles <=? (xstages + 1) / 2) eqn:EN;
      step_dispatch_with
        ltac:(fl_eval; unfold FLUID_NUM_MIXING_STAGES_PER_CYCLE; rewrite ?EN; fl_eval);
      cbn [pParams positionLimits status mixingStagesCompleted];
      unfold upd_limits, pos_eqb; rewrite Z.eqb_refl;
      repeat split; reflexivity.
  - intros Ht0 Ht1 Ht2 Hpos.
    assert (Hto : (xmixto <=? xmixt + 20) = false) by (apply Z.leb_gt; lia).
    unfold fluidGetEchemRequirement in Hpos. cbn in Hpos.
    destruct xdir; cbn in Hpos;
      rewrite ?andb_false_r, ?andb_true_r, ?orb_false_r, ?orb_false_l in Hpos;
      try discriminate Hpos;
      destruct (xcycles <=? (xstages + 1) / 2) eqn:EN;
      step_dispatch_with
        ltac:(fl_eval; unfold fluidGetEchemRequirement; cbn;
              rewrite ?andb_false_r, ?andb_true_r, ?Hpos; fl_eval;
              unfold FLUID_NUM_MIXING_STAGES_PER_CYCLE; rewrite ?EN; fl_eval);
      cbn [pParams positionLimits status mixingStagesCompleted];
      unfold upd_limits, pos_eqb; rewrite ?Z.eqb_refl;
      repeat split; reflexivity.
Qed.

Lemma X20_witness :
  state (XDispatch (pc := samplePiezo) (sampleDrivers 45 FLUID_POSITION_B)
           (XMSG_FLUID_MIX (sampleMix 3 FLUID_MIX_DUAL_POINT_LOOP 0)) sampleAtB)
  = S_MixContactControlled /\
  hystOf
    (XDispatch (pc := samplePiezo) (sampleDrivers 30 FLUID_POSITION_B)
       (XMSG_PIEZO_MOVE_COMPLTE (piezoChan (sampleDrivers 30 FLUID_POSITION_B)) 30)
       (XDispatch (pc := samplePiezo) (sampleDrivers 45 FLUID_POSITION_B)
          (XMSG_FLUID_MIX (sampleMix 3 FLUID_MIX_DUAL_POINT_LOOP 0)) sampleAtB))
    BC_POS_FLUID_A == 10.
Proof.
  assert (Hs : state (XDispatch (pc := samplePiezo) (sampleDrivers 45 FLUID_POSITION_B)
                        (XMSG_FLUID_MIX (sampleMix 3 FLUID_MIX_DUAL_POINT_LOOP 0))
                        sampleAtB) = S_MixContactControlled)
    by (vm_compute; reflexivity).
  split; [exact Hs|].
  pose proof (proj1 (proj1 (X20_mix_stroke_adapts_hysteresis (pc := samplePiezo)
                (sampleDrivers 30 FLUID_POSITION_B) _ 30 (sampleDrivers_ok _ _) Hs
                ltac:(vm_compute; reflexivity)
                ltac:(vm_compute; discriminate) ltac:(vm_compute; reflexivity)))) as H.
  cbv zeta in H.
  assert (Ht : eTargetPos
                 (XDispatch (pc := samplePiezo) (sampleDrivers 45 FLUID_POSITION_B)
                    (XMSG_FLUID_MIX (sampleMix 3 FLUID_MIX_DUAL_POINT_LOOP 0))
                    sampleAtB) = BC_POS_FLUID_A)
    by (vm_compute; reflexivity).
  rewrite Ht in H. rewrite H. vm_compute. reflexivity.
Defined.

(** ** Where outputs come from *)

Lemma Emits_ret (P : Output -> Prop) {A : Type} (a : A) : Emits P (ret a).
Proof. intros me. exists []. split; [reflexivity | constructor]. Qed.

Lemma Emits_bind (P : Output -> Prop) {A B : Type} (c : M A) (k : A -> M B) :
  Emits P c -> (forall a, Emits P (k a)) -> Emits P (bind c k).
Proof.
  intros Hc Hk me. unfold bind. destruct (Hc me) as (n1 & E1 & F1).
  destruct (c me) as [a me1]. cbn [snd] in E1.
  destruct (Hk a me1) as (n2 & E2 & F2).
  exists (n2 ++ n1). split.
  - rewrite E2, E1. apply app_assoc.
  - apply Forall_app. split; assumption.
Qed.

Lemma Emits_get (P : Output -> Prop) : Emits P get.
Proof. intros me. exists []. split; [reflexivity | constructor]. Qed.

Lemma Emits_gets (P : Output -> Prop) {A : Type} (f : Fluidic_t -> A) :
  Emits P (gets f).
Proof. intros me. exists []. split; [reflexivity | constructor]. Qed.

Lemma Emits_modify (P : Output -> Prop) (f : Fluidic_t -> Fluidic_t) :
  (forall me, log (f me) = log me) -> Emits P (modify f).
Proof.
  intros H me. exists []. split; [|constructor].
  change (snd (modify f me)) with (f me). apply H.
Qed.

Lemma Emits_modify_params (P : Output -> Prop)
    (f : FluidicParams_t -> FluidicParams_t) : Emits P (modify_params f).
Proof.
  intros me. exists []. split; [|constructor]. destruct me; reflexivity.
Qed.

Lemma Emits_modify_status (P : Output -> Prop)
    (f : FluididStatus_t -> FluididStatus_t) : Emits P (modify_status f).
Proof.
  intros me. exists []. split; [|constructor]. destruct me; reflexivity.
Qed.

Lemma Emits_modify_limits (P : Output -> Prop) (q : eFluidicPositions_t)
    (f : FluidicPositionLimits_t -> FluidicPositionLimits_t) :
  P (OutOfTableStore q) -> Emits P (modify_limits q f).
Proof.
  intros H me. unfold modify_limits, when. destruct (posInTable q); cbn [negb].
  - exists []. split; [|constructor]. destruct me; reflexivity.
  - exists [OutOfTableStore q]. split; [destruct me; reflexivity|].
    constructor; [exact H | constructor].
Qed.

(** A store guarded by the test that its index is Down stays in the table. *)
Lemma Emits_store_down (P : Output -> Prop) (q : eFluidicPositions_t)
    (f : FluidicPositionLimits_t -> FluidicPositionLimits_t) :
  Emits P (when (pos_eqb BC_POS_DOWN q) (modify_limits q f)).
Proof.
  intros me. exists []. split; [|constructor].
  destruct q; destruct me; reflexivity.
Qed.

Lemma Emits_store_table (P : Output -> Prop) (q : eFluidicPositions_t)
    (f : FluidicPositionLimits_t -> FluidicPositionLimits_t) :
  posInTable q = true -> Emits P (modify_limits q f).
Proof.
  intros H me. exists []. split; [|constructor].
  unfold modify_limits, when. rewrite H. destruct me; reflexivity.
Qed.

Lemma Emits_emit (P : Output -> Prop) (o : Output) : P o -> Emits P (emit o).
Proof.
  intros H me. exists [o]. split; [destruct me; reflexivity|].
  constructor; [exact H | constructor].
Qed.

Lemma Emits_impl (P Q : Output -> Prop) {A : Type} (c : M A) :
  (forall o, P o -> Q o) -> Emits P c -> Emits Q c.
Proof.
  intros H Hc me. destruct (Hc me) as (new & E & F).
  exists new. split; [exact E|]. eapply Forall_impl; eassumption.
Qed.

Ltac emits :=
  repeat (cbv beta zeta; first
    [ apply Emits_ret
    | apply Emits_get
    | apply Emits_gets
    | apply Emits_emit; reflexivity
    | apply Emits_modify_status
    | apply Emits_store_down
    | apply Emits_store_table; reflexivity
    | apply Emits_modify_limits; reflexivity
    | apply Emits_modify_params
    | apply Emits_modify; intros []; reflexivity
    | apply Emits_bind; [|intros ?]
    | match goal with
      | |- Emits _ (if ?c then _ else _) => destruct c
      | |- Emits _ (match ?x with _ => _ end) => destruct x
      | |- Emits _ (let '(_, _) := ?r in _) => destruct r
      end
    | progress unfold X_TRAN, X_TRAN_ERROR, XFSM_IS_STATE, X_PUBLISH,
        XTimerStart, XTimerStop, ERROR_CHECK, FluidicsErrorSet
    | progress autounfold with fl flset ]).

(** Every output of every state handler is one the tables allow. *)
Lemma handler_outputs {pc : PiezoConsts} (d : Drivers) (s : LeafState) (ev : XEvent) :
  Emits (fun o => allowedOutput s ev o = true) (handlerOf d s ev).
Proof. destruct s; cbn [handlerOf]; emits. Qed.

Lemma newOutputs_app (me me' : Fluidic_t) (new : list Output) :
  log me' = new ++ log me -> newOutputs me me' = new.
Proof.
  intros E. unfold newOutputs. rewrite E, length_app.
  replace (length new + length (log me) - length (log me))%nat with (length new)
    by lia.
  rewrite firstn_app, Nat.sub_diag, firstn_all. cbn. apply app_nil_r.
Qed.

Lemma Emits_forallb (f : Output -> bool) {A : Type} (c : M A) (me : Fluidic_t) :
  Emits (fun o => f o = true) c ->
  forallb f (newOutputs me (snd (c me))) = true.
Proof.
  intros H. destruct (H me) as (new & E & F).
  rewrite (newOutputs_app _ _ _ E). apply forallb_forall.
  intros o Ho. rewrite Forall_forall in F. apply F. exact Ho.
Qed.

(** X21: where each message is published.  Whatever a state handler adds
    to the outputs while it handles an event, a breach-detected message
    among it comes from the breach-monitoring state handling a
    fluid-status event; a stage-complete message from the entry of the
    waiting state of the mix; an error message from the entry of the error
    state; a stop-bladder-detection message from a timer tick of the move to
    a bladder end; a start-bladder-detection message from a timer tick of
    that move or of the lift; and a mix-complete message from the
    contact-controlled mixing state on a tick or a piezo completion or from
    the piezo-controlled one on a piezo completion.  No other handler and no
    other event publishes any of these. *)
Theorem X21_publication_sites {pc : PiezoConsts} (d : Drivers) (s : LeafState)
    (ev : XEvent) (me : Fluidic_t) :
  forallb (publicationAllowed s ev) (newOutputs me (snd (handlerOf d s ev me))) = true.
Proof.
  apply Emits_forallb.
  eapply Emits_impl; [|apply handler_outputs].
  intros o H. destruct o; try reflexivity. exact H.
Qed.

(** X22: where the piezo is set in motion.  A state handler commands the
    piezo to a voltage only on entry to one of the five moving states (the
    two moves, the lift and the two mixing strokes) and, for the overshoot
    compensation, when the piezo reports its stop after a move to a contact;
    it commands the piezo home only on entry to the move to a bladder end.
    In particular no event handled in the idle state, the error state, the
    strip check, the wait for a contact, the wait between mix strokes or
    breach monitoring sets the piezo in motion before a transition. *)
Theorem X22_piezo_command_sites {pc : PiezoConsts} (d : Drivers) (s : LeafState)
    (ev : XEvent) (me : Fluidic_t) :
  forallb (piezoCommandAllowed s ev) (newOutputs me (snd (handlerOf d s ev me))) = true.
Proof.
  apply Emits_forallb.
  eapply Emits_impl; [|apply handler_outputs].
  intros o H. destruct o; try reflexivity; exact H.
Qed.

(** X30: where the table of positions can be written outside its bounds.
    A state handler stores to the table at an index that is no position of
    the table only where it assigns at the index of the target position:
    when the piezo reports its stop after a move to a contact, and when a
    contact-controlled mix stroke ends on a timer tick or on the completion
    of the piezo ramp.  Every other store of every handler, on every event
    and object, stays within the table. *)
Theorem X30_table_store_sites {pc : PiezoConsts} (d : Drivers) (s : LeafState)
    (ev : XEvent) (me : Fluidic_t) :
  forallb (tableStoreAllowed s ev) (newOutputs me (snd (handlerOf d s ev me))) = true.
Proof.
  apply Emits_forallb.
  eapply Emits_impl; [|apply handler_outputs].
  intros o H. destruct o; try reflexivity; exact H.
Qed.

Lemma Emits_XTransition {pc : PiezoConsts} (d : Drivers) (P : Output -> Prop) :
  (forall s ev, ev = X_EV_EXIT \/ ev = X_EV_ENTRY -> Emits P (handlerOf d s ev)) ->
  forall (fuel : nat) (source : LeafState) (me : Fluidic_t),
    exists new, log (XTransition d fuel source me) = new ++ log me /\ Forall P new.
Proof.
  intros H. induction fuel as [|fuel IH]; intros source me; cbn [XTransition];
    unfold exec;
    destruct (H source X_EV_EXIT (or_introl eq_refl) me) as (n1 & E1 & F1);
    destruct (H (state me) X_EV_ENTRY (or_intror eq_refl)
                (snd (handlerOf d source X_EV_EXIT me))) as (n2 & E2 & F2);
    destruct (handlerOf d (state me) X_EV_ENTRY
                (snd (handlerOf d source X_EV_EXIT me))) as [r me2];
    cbn [snd] in E2;
    assert (E : log me2 = (n2 ++ n1) ++ log me)
      by (rewrite E2, E1; apply app_assoc);
    assert (F : Forall P (n2 ++ n1)) by (apply Forall_app; split; assumption).
  - destruct r; exists (n2 ++ n1); split; assumption.
  - destruct r; try (exists (n2 ++ n1); split; assumption).
    destruct (IH (state me) me2) as (n3 & E3 & F3).
    exists (n3 ++ n2 ++ n1). split.
    + rewrite E3, E. apply app_assoc.
    + apply Forall_app. split; assumption.
Qed.

Lemma filter_publications_new (f : Published -> bool) (new l : list Output) :
  Forall (fun o => forall m, o = OutPublish m -> f m = false) new ->
  filter f (publications (new ++ l)) = filter f (publications l).
Proof.
  intros F. rewrite publications_app, filter_app.
  replace (filter f (publications new)) with (@nil Published);
    [apply app_nil_r|].
  induction F as [|o new Ho F IH]; [reflexivity|].
  destruct o; try (rewrite publications_skip by (intros ?; discriminate); exact IH).
  rewrite publications_pub, filter_app, <- IH. cbn.
  rewrite (Ho msg eq_refl). reflexivity.
Qed.

(** X23: no breach is announced outside breach monitoring.  Handling an
    event, with the transition it causes, publishes no breach-detected
    message unless the controller is in the breach-monitoring state and the
    event is a fluid-status event. *)
Theorem X23_no_breach_outside_monitoring {pc : PiezoConsts} (d : Drivers)
    (ev : XEvent) (me : Fluidic_t) :
  state me <> S_MonitorFluidBreach \/ isStatusChanged ev = false ->
  countPub isBreachDetected (XDispatch d ev me) = countPub isBreachDetected me.
Proof.
  intros Hne.
  set (P := fun o : Output => forall m, o = OutPublish m -> isBreachDetected m = false).
  assert (Hh : Emits P (handlerOf d (state me) ev)).
  { eapply Emits_impl; [|apply handler_outputs].
    intros o Ho m ->. cbn in Ho. destruct m; try reflexivity.
    exfalso. destruct Hne as [Hs | Hev].
    - destruct (state me); try discriminate Ho. apply Hs. reflexivity.
    - destruct (state me); try discriminate Ho.
      destruct ev; try discriminate Ho. discriminate Hev. }
  assert (Ht : forall s ev', ev' = X_EV_EXIT \/ ev' = X_EV_ENTRY ->
                             Emits P (handlerOf d s ev')).
  { intros s ev' Hev'. eapply Emits_impl; [|apply handler_outputs].
    intros o Ho m ->. cbn in Ho. destruct m; try reflexivity.
    exfalso. destruct Hev' as [-> | ->]; destruct s; discriminate Ho. }
  assert (E : exists new, log (XDispatch d ev me) = new ++ log me /\ Forall P new).
  { unfold XDispatch. destruct (Hh me) as (n1 & E1 & F1).
    destruct (handlerOf d (state me) ev me) as [r me1]. cbn [snd] in E1.
    destruct r; try (exists n1; split; assumption).
    destruct (Emits_XTransition d P Ht 2 (state me) me1) as (n2 & E2 & F2).
    exists (n2 ++ n1). split.
    - rewrite E2, E1. apply app_assoc.
    - apply Forall_app. split; assumption. }
  destruct E as (new & E & F). unfold countPub. rewrite E.
  rewrite (filter_publications_new isBreachDetected new (log me) F). reflexivity.
Qed.

Lemma X23_witness :
  state sampleMovingToA <> S_MonitorFluidBreach /\
  countPub isBreachDetected
    (XDispatch (pc := samplePiezo) (sampleDrivers 20 FLUID_DETECTED)
       (XMSG_EC_FLUID_STATUS_CHANGED (fun _ => FLUID_POSITION_C)) sampleMovingToA)
  = countPub isBreachDetected sampleMovingToA.
Proof.
  assert (Hs : state sampleMovingToA <> S_MonitorFluidBreach)
    by (vm_compute; discriminate).
  split; [exact Hs|].
  exact (X23_no_breach_outside_monitoring (pc := samplePiezo)
           (sampleDrivers 20 FLUID_DETECTED)
           (XMSG_EC_FLUID_STATUS_CHANGED (fun _ => FLUID_POSITION_C))
           sampleMovingToA (or_introl Hs)).
Defined.

(** ** The direction of a move *)

(** What a passed move parameter check says. *)
Lemma FluidCheckMoveParams_OK {pc : PiezoConsts} (me : Fluidic_t)
    (target : eFluidicPositions_t) (ramp : Q) (timeout : Z)
    (mode : eFluidOvershootCompensation_t) (proportion : Q) :
  FluidCheckMoveParams me target ramp timeout mode proportion = OK_STATUS ->
  bladderControlCheckMoveValid me target = true /\
  Qgtb ramp PIEZO_RAMP_MAX = false /\
  (compIndex FLUID_OVERSHOOT_COMP_NUM <=? compIndex mode) = false /\
  Qgtb proportion FLUIDIC_MAX_COMPENSATION_FACTOR = false.
Proof.
  unfold FluidCheckMoveParams.
  destruct (bladderControlCheckMoveValid me target); [|discriminate].
  destruct (Qgtb proportion FLUIDIC_MAX_COMPENSATION_FACTOR); [discriminate|].
  destruct (compIndex FLUID_OVERSHOOT_COMP_NUM <=? compIndex mode); [discriminate|].
  destruct (Qgtb ramp PIEZO_RAMP_MAX); [discriminate|].
  intros _. repeat split; reflexivity.
Qed.

(** X24: the direction of a move.  Entering the idle state sets the
    direction to forward.  An accepted move message for a position other
    than Home starts the strip check with the target stored, and sets the
    direction to reverse when the target is not above the last known
    position; otherwise it leaves the direction as it is.  So a move to a
    higher position that is accepted in breach monitoring while the
    direction still is reverse (the controller came there by a reverse move)
    runs as a reverse move. *)
Theorem X24_move_direction {pc : PiezoConsts} (d : Drivers) (me : Fluidic_t)
    (m : FluidicMovePositionMsg_t) :
  eMoveDirection (status (snd (FluidicState_Idle d X_EV_ENTRY me))) = FLUID_MOVE_FWD /\
  (DriversOk d ->
   state me = S_Idle \/ state me = S_MonitorFluidBreach ->
   pos_eqb (mv_eTargetPos m) BC_POS_HOME = false ->
   FluidCheckMoveParams me (mv_eTargetPos m) (mv_rampSpeedVoltsPerSec m)
     (mv_timeout_ms m) (mv_eOvershootComp m) (mv_overshootCompProportion m)
   = OK_STATUS ->
   let me' := XDispatch d (XMSG_FLUID_CHANNEL_MOVE_TO m) me in
   state me' = S_CheckForStrip /\
   eTargetPos me' = mv_eTargetPos m /\
   timeout_ms (pParams me') = mv_timeout_ms m /\
   eMoveDirection (status me')
   = if pos_geb (eLastKnownPos me) (mv_eTargetPos m)
     then FLUID_MOVE_REV else eMoveDirection (status me)).
Proof.
  split.
  - destruct_obj me. fl_simpl.
    destruct (is_OK_STATUS (r_ecDisable d xchan)); fl_simpl;
      unfold FluidicsErrorSet; cbn;
      repeat match goal with
        | |- context [if ?c then _ else _] => destruct c; cbn
        end; reflexivity.
  - intros Hok Hs Hh Hchk me'. subst me'. use_ok Hok.
    destruct m as [t r c p to]. cbn in Hh, Hchk.
    apply FluidCheckMoveParams_OK in Hchk. destruct Hchk as (Hv & Hr & Hc & Hp).
    destruct_obj me. unfold bladderControlCheckMoveValid in Hv. cbn in Hv, Hc.
    destruct Hs as [-> | ->];
      destruct t; try discriminate Hh;
      destruct xlast; try discriminate Hv;
      unfold XDispatch; fl_eval; rewrite ?Hc; fl_eval; repeat split; reflexivity.
Qed.

Lemma X24_witness :
  state sampleMonitoringAReversed = S_MonitorFluidBreach /\
  eLastKnownPos sampleMonitoringAReversed = BC_POS_FLUID_A /\
  eMoveDirection (status sampleMonitoringAReversed) = FLUID_MOVE_REV /\
  eMoveDirection
    (status (XDispatch (pc := samplePiezo) (sampleDrivers 28 FLUID_DETECTED)
               (XMSG_FLUID_CHANNEL_MOVE_TO
                  {| mv_eTargetPos := BC_POS_FLUID_B;
                     mv_rampSpeedVoltsPerSec := 25 # 10;
                     mv_eOvershootComp := FLUID_OVERSHOOT_COMP_NONE;
                     mv_overshootCompProportion := 0; mv_timeout_ms := 30000 |})
               sampleMonitoringAReversed))
  = (if pos_geb (eLastKnownPos sampleMonitoringAReversed) BC_POS_FLUID_B
     then FLUID_MOVE_REV else eMoveDirection (status sampleMonitoringAReversed)).
Proof.
  assert (Hs : state sampleMonitoringAReversed = S_MonitorFluidBreach)
    by (vm_compute; reflexivity).
  assert (Hc : FluidCheckMoveParams (pc := samplePiezo) sampleMonitoringAReversed
                 BC_POS_FLUID_B (25 # 10) 30000 FLUID_OVERSHOOT_COMP_NONE 0 = OK_STATUS)
    by (vm_compute; reflexivity).
  split; [exact Hs|]. split; [vm_compute; reflexivity|].
  split; [vm_compute; reflexivity|].
  exact (proj2 (proj2 (proj2
           (proj2 (X24_move_direction (pc := samplePiezo)
                     (sampleDrivers 28 FLUID_DETECTED) sampleMonitoringAReversed
                     {| mv_eTargetPos := BC_POS_FLUID_B;
                        mv_rampSpeedVoltsPerSec := 25 # 10;
                        mv_eOvershootComp := FLUID_OVERSHOOT_COMP_NONE;
                        mv_overshootCompProportion := 0; mv_timeout_ms := 30000 |})
              (sampleDrivers_ok _ _) (or_intror Hs) eq_refl Hc)))).
Defined.

(** ** Construction and start *)

(** X25: construction and start.  An object constructed with any parameter
    bundle and started, with drivers that report nothing critical, is idle
    and accepts commands; its last known position is Unknown and it has no
    target; it holds the bundle unchanged, has published nothing and has
    nothing queued.  Every move but the one to Home is then answered with
    invalid-move. *)
Theorem X25_construction_and_start {pc : PiezoConsts} (d : Drivers)
    (p : FluidicParams_t) :
  FLUIDIC_CIRITICAL_ERR (r_ecDisable d (eChannel p)) = false ->
  FLUIDIC_CIRITICAL_ERR (r_piezoStop d) = false ->
  let me := XActiveStart d (FluidicInit p) in
  state me = S_Idle /\
  FluidicStateCanAcceptCommand me = true /\
  eLastKnownPos me = BC_POS_UNKNOWN /\
  eTargetPos me = BC_NONE /\
  pParams me = p /\
  publications (log me) = [] /\
  evQueue me = [] /\
  (forall target ramp timeout mode proportion,
      pos_eqb target BC_POS_HOME = false ->
      eval (FluidicMove target ramp timeout mode proportion) me
      = ERROR_FLUID_CHANNEL_INVALID_MOVE).
Proof.
  intros Hc1 Hc2 me. subst me.
  unfold XActiveStart, FluidicInit.
  cbn -[FluidicState_Idle XTransition].
  match goal with
  | |- context [FluidicState_Idle d X_EV_ENTRY ?m] =>
      pose proof (Idle_entry_noncritical d m Hc1 Hc2) as HI;
      assert (Hq : evQueue (snd (FluidicState_Idle d X_EV_ENTRY m)) = []);
      [|destruct (FluidicState_Idle d X_EV_ENTRY m) as [r me1]]
  end.
  { fl_simpl.
    match goal with
    | |- context [is_OK_STATUS ?e] => destruct (is_OK_STATUS e)
    end; fl_simpl;
      rewrite FluidicsErrorSet_noncritical by assumption;
      repeat match goal with
        | |- context [if ?c then _ else _] => destruct c; cbn
        end; reflexivity. }
  cbn in HI, Hq. destruct HI as (Hr & Hst & Hl & Htg & Hp & Hpub). subst r.
  repeat match goal with |- _ /\ _ => split end; try assumption.
  - unfold FluidicStateCanAcceptCommand. rewrite Hst. reflexivity.
  - intros target ramp timeout mode proportion Hh.
    unfold eval, FluidicMove. rewrite Hh. cbn.
    unfold FluidicStateCanAcceptCommand. rewrite Hst. cbn.
    unfold FluidCheckMoveParams, bladderControlCheckMoveValid. rewrite Hl.
    destruct target; try discriminate Hh; reflexivity.
Qed.

Lemma X25_witness :
  FLUIDIC_CIRITICAL_ERR
    (r_ecDisable (sampleDrivers 100 NO_FLUID_DETECTED)
       (eChannel (bladder2DefaultParams (pc := samplePiezo)))) = false /\
  state (XActiveStart (pc := samplePiezo) (sampleDrivers 100 NO_FLUID_DETECTED)
           (FluidicInit (bladder2DefaultParams (pc := samplePiezo)))) = S_Idle.
Proof.
  split; [reflexivity|].
  exact (proj1 (X25_construction_and_start (pc := samplePiezo)
                  (sampleDrivers 100 NO_FLUID_DETECTED)
                  (bladder2DefaultParams (pc := samplePiezo)) eq_refl eq_refl)).
Defined.

(** ** Overshoot compensation *)

(** X26: overshoot compensation after a forward move to a contact.  When
    the own piezo reports its stop, the target becomes the last known
    position and the voltage read from the piezo is taken as the voltage of
    the contact.  With compensation by piezo voltage, the controller then
    sends the piezo back, at the maximum ramp speed, by the compensation
    proportion of the step from the contact below, the three operations
    done in single precision (and their results finite), stores that lower
    voltage for the contact, publishes nothing and keeps waiting; the
    move-complete message is published when the piezo reports this move
    complete.  With compensation by breaking and remaking the contact, it
    turns the direction to reverse and starts the move to the same contact
    again, which sends the piezo towards its minimum voltage. *)
Theorem X26_overshoot_compensation {pc : PiezoConsts} (d d' : Drivers)
    (me : Fluidic_t) (volts volts' : Q) :
  DriversOk d -> DriversOk d' ->
  state me = S_WaitForPiezoStop ->
  eMoveDirection (status me) = FLUID_MOVE_FWD ->
  isContact (eTargetPos me) = true ->
  let tgt := eTargetPos me in
  let me1 := XDispatch d (XMSG_PIEZO_STOPPED (piezoChan d) volts) me in
  (eOvershootCompensationType (pParams me) = FLUID_OVERSHOOT_COMP_PIEZO_VOLTS ->
   let now := currentVoltage d in
   let step := f32_sub now (targetVolts (positionLimits (pParams me) (posPred tgt))) in
   let share := f32_mul step (compensationProportion (pParams me)) in
   let back := f32_sub now share in
   let me2 := XDispatch d' (XMSG_PIEZO_MOVE_COMPLTE (piezoChan d') volts') me1 in
   finite32 step -> finite32 share -> finite32 back ->
   state me1 = S_WaitForPiezoStop /\
   eLastKnownPos me1 = tgt /\
   eTargetPos me1 = tgt /\
   targetVolts (positionLimits (pParams me1) tgt) = back /\
   log me1
   = OutErrorCheck OK_COMMAND_ACCEPTED
     :: OutPiezoVoltageSet {| targetVoltage := back; rampSpeed := PIEZO_RAMP_MAX;
                              publishCompletion := false |}
     :: log me /\
   state me2 = (if monitorBreachAfterMove (pParams me)
                then S_MonitorFluidBreach else S_Idle) /\
   eLastKnownPos me2 = tgt /\
   publications (log me2)
   = publications (log me)
     ++ [Pub_moveSuccessMsg (eChannel (pParams me)) tgt (timeoutTimer me)
           (currentVoltage d')]) /\
  (eOvershootCompensationType (pParams me) = FLUID_OVERSHOOT_COMP_BREAK_REMAKE ->
   state me1 = S_MoveContact /\
   eMoveDirection (status me1) = FLUID_MOVE_REV /\
   eLastKnownPos me1 = tgt /\
   eTargetPos me1 = tgt /\
   timeoutTimer me1 = 0 /\
   In (OutPiezoVoltageSet {| targetVoltage := PIEZO_MIN_VOLTAGE;
                             rampSpeed := rampSpeedVoltsPerSec (pParams me);
                             publishCompletion := false |}) (log me1) /\
   publications (log me1) = publications (log me)).
Proof.
  intros Hok Hok' Hs Hd Hc tgt me1. subst tgt me1.
  destruct Hok as [Hset Hstop Hhome Hdis Hfill].
  destruct Hok' as [Hset' Hstop' Hhome' Hdis' Hfill'].
  destruct_obj me. subst xstate xdir. split.
  - intros -> _ _ _.
    destruct xtgt; try discriminate Hc;
      step_dispatch; cbn [state eLastKnownPos eTargetPos log pParams positionLimits];
      destruct xmonitor;
      step_dispatch; cbn [state eLastKnownPos eTargetPos log pParams positionLimits];
      pubs; repeat split; reflexivity.
  - intros ->.
    destruct xtgt; try discriminate Hc;
      step_dispatch;
      cbn [state eLastKnownPos eTargetPos log pParams status eMoveDirection timeoutTimer];
      pubs; repeat split; try reflexivity; cbn; auto 10.
Qed.

Lemma X26_witness :
  state sampleStoppingAtA = S_WaitForPiezoStop /\
  eOvershootCompensationType (pParams sampleStoppingAtA)
  = FLUID_OVERSHOOT_COMP_PIEZO_VOLTS /\
  state (XDispatch (pc := samplePiezo) (sampleDrivers 30 FLUID_POSITION_A)
           (XMSG_PIEZO_STOPPED (piezoChan (sampleDrivers 30 FLUID_POSITION_A)) 30)
           sampleStoppingAtA) = S_WaitForPiezoStop.
Proof.
  assert (Hs : state sampleStoppingAtA = S_WaitForPiezoStop) by (vm_compute; reflexivity).
  assert (Hd : eMoveDirection (status sampleStoppingAtA) = FLUID_MOVE_FWD)
    by (vm_compute; reflexivity).
  assert (Hc : isContact (eTargetPos sampleStoppingAtA) = true)
    by (vm_compute; reflexivity).
  assert (Ht : eOvershootCompensationType (pParams sampleStoppingAtA)
               = FLUID_OVERSHOOT_COMP_PIEZO_VOLTS)
    by (vm_compute; reflexivity).
  split; [exact Hs|]. split; [exact Ht|].
  exact (proj1 (proj1 (X26_overshoot_compensation (pc := samplePiezo)
                         (sampleDrivers 30 FLUID_POSITION_A)
                         (sampleDrivers 30 FLUID_POSITION_A) sampleStoppingAtA 30 30
                         (sampleDrivers_ok _ _) (sampleDrivers_ok _ _) Hs Hd Hc) Ht
                  ltac:(vm_compute; discriminate) ltac:(vm_compute; discriminate)
                  ltac:(vm_compute; discriminate))).
Defined.

(** X27: the end of a move to a bladder end.  In the move to Home or Down,
    the stopped or the move-complete event of the own piezo ends the move,
    whether or not a bladder event has been seen: the target becomes the
    last known position, the move-complete message is published with it, and
    the controller goes idle.  The table of positions is left as it is; in
    particular the voltage at which the piezo stopped is not stored for
    Down. *)
Theorem X27_bladder_end_move_completes {pc : PiezoConsts} (d : Drivers)
    (me : Fluidic_t) (volts : Q) (ev : XEvent) :
  DriversOk d ->
  state me = S_MoveOther ->
  ev = XMSG_PIEZO_STOPPED (piezoChan d) volts
  \/ ev = XMSG_PIEZO_MOVE_COMPLTE (piezoChan d) volts ->
  let me' := XDispatch d ev me in
  state me' = S_Idle /\
  eLastKnownPos me' = eTargetPos me /\
  eTargetPos me' = BC_NONE /\
  (forall p, positionLimits (pParams me') p = positionLimits (pParams me) p) /\
  publications (log me')
  = publications (log me)
    ++ [Pub_moveSuccessMsg (eChannel (pParams me)) (eTargetPos me) (timeoutTimer me)
          (currentVoltage d)].
Proof.
  intros Hok Hs Hev me'. subst me'. use_ok Hok. destruct_obj me. subst xstate.
  destruct Hev as [-> | ->];
    step_dispatch; cbn [state eLastKnownPos eTargetPos log pParams positionLimits];
    pubs; repeat split; reflexivity.
Qed.

Lemma X27_witness :
  state sampleHomingLate = S_MoveOther /\
  eLastKnownPos
    (XDispatch (pc := samplePiezo) (sampleDrivers 100 NO_FLUID_DETECTED)
       (XMSG_PIEZO_STOPPED (piezoChan (sampleDrivers 100 NO_FLUID_DETECTED)) 100)
       sampleHomingLate)
  = eTargetPos sampleHomingLate.
Proof.
  assert (Hs : state sampleHomingLate = S_MoveOther) by (vm_compute; reflexivity).
  split; [exact Hs|].
  exact (proj1 (proj2 (X27_bladder_end_move_completes (pc := samplePiezo)
                         (sampleDrivers 100 NO_FLUID_DETECTED) sampleHomingLate 100
                         _ (sampleDrivers_ok _ _) Hs (or_introl eq_refl)))).
Defined.

(** ** The strokes of a mix *)

(** X28: the continue event between two strokes of a mix swaps the last
    known position and the target and inverts the direction (reverse
    becomes forward, anything else reverse), without publishing or counting
    anything.  The next stroke is contact-controlled in a dual-point mix,
    piezo-controlled in an open-loop mix, and in a single-point mix
    contact-controlled forwards and piezo-controlled in reverse. *)
Theorem X28_mix_strokes_alternate {pc : PiezoConsts} (d : Drivers) (me : Fluidic_t) :
  DriversOk d ->
  state me = S_MixWaitContinue ->
  let me' := XDispatch d XMSG_FLUID_MIX_CONTINUE me in
  let dir' := if dir_eqb (eMoveDirection (status me)) FLUID_MOVE_REV
              then FLUID_MOVE_FWD else FLUID_MOVE_REV in
  eLastKnownPos me' = eTargetPos me /\
  eTargetPos me' = eLastKnownPos me /\
  eMoveDirection (status me') = dir' /\
  state me'
  = match eMixType (pParams me) with
    | FLUID_MIX_DUAL_POINT_LOOP => S_MixContactControlled
    | FLUID_MIX_SINGLE_POINT_LOOP =>
        if dir_eqb dir' FLUID_MOVE_FWD then S_MixContactControlled
        else S_MixPiezoControlled
    | FLUID_MIX_OPEN_LOOP => S_MixPiezoControlled
    end /\
  mixingStagesCompleted (status me') = mixingStagesCompleted (status me) /\
  publications (log me') = publications (log me).
Proof.
  intros Hok Hs me' dir'. subst me' dir'. use_ok Hok. destruct_obj me. subst xstate.
  destruct xtype; destruct xdir;
    step_dispatch;
    cbn [state eLastKnownPos eTargetPos log status eMoveDirection
         mixingStagesCompleted];
    pubs; repeat split; reflexivity.
Qed.

Lemma X28_witness :
  state (XRun (pc := samplePiezo)
           [(sampleDrivers 45 FLUID_POSITION_B,
             XMSG_FLUID_MIX (sampleMix 3 FLUID_MIX_SINGLE_POINT_LOOP 0));
            (sampleDrivers 38 FLUID_POSITION_B, XMSG_PIEZO_MOVE_COMPLTE 1 38)]
           sampleAtB) = S_MixWaitContinue /\
  state (XDispatch (pc := samplePiezo) (sampleDrivers 38 FLUID_POSITION_B)
           XMSG_FLUID_MIX_CONTINUE
           (XRun (pc := samplePiezo)
              [(sampleDrivers 45 FLUID_POSITION_B,
                XMSG_FLUID_MIX (sampleMix 3 FLUID_MIX_SINGLE_POINT_LOOP 0));
               (sampleDrivers 38 FLUID_POSITION_B, XMSG_PIEZO_MOVE_COMPLTE 1 38)]
              sampleAtB))
  = S_MixContactControlled.
Proof.
  assert (Hs : state (XRun (pc := samplePiezo)
                        [(sampleDrivers 45 FLUID_POSITION_B,
                          XMSG_FLUID_MIX (sampleMix 3 FLUID_MIX_SINGLE_POINT_LOOP 0));
                         (sampleDrivers 38 FLUID_POSITION_B,
                          XMSG_PIEZO_MOVE_COMPLTE 1 38)]
                        sampleAtB) = S_MixWaitContinue)
    by (vm_compute; reflexivity).
  split; [exact Hs|].
  rewrite (proj1 (proj2 (proj2 (proj2
             (X28_mix_strokes_alternate (pc := samplePiezo)
                (sampleDrivers 38 FLUID_POSITION_B) _ (sampleDrivers_ok _ _) Hs))))).
  vm_compute. reflexivity.
Defined.

(** ** The breach-monitoring switch *)

(** X29: the message that switches breach monitoring after a move on or
    off only stores the switch, in every state past the initial one.  It
    causes no transition: switched off while the controller is monitoring
    for a breach, the controller keeps monitoring. *)
Theorem X29_breach_monitoring_switch {pc : PiezoConsts} (d : Drivers)
    (me : Fluidic_t) (enable : bool) :
  state me <> S_Init ->
  XDispatch d (XMSG_FLUID_ENABLE_BREACH_DETECT enable) me
  = set_pParams (set_monitorBreachAfterMove enable (pParams me)) me.
Proof.
  intros Hs. destruct_obj me.
  destruct xstate; try (exfalso; apply Hs; reflexivity);
    unfold XDispatch; fl_eval; reflexivity.
Qed.

Lemma X29_witness :
  state sampleMonitoringB <> S_Init /\
  state (XDispatch (pc := samplePiezo) (sampleDrivers 45 FLUID_POSITION_B)
           (XMSG_FLUID_ENABLE_BREACH_DETECT false) sampleMonitoringB)
  = S_MonitorFluidBreach.
Proof.
  assert (Hs : state sampleMonitoringB <> S_Init) by (vm_compute; discriminate).
  split; [exact Hs|].
  rewrite (X29_breach_monitoring_switch (pc := samplePiezo)
             (sampleDrivers 45 FLUID_POSITION_B) sampleMonitoringB false Hs).
  vm_compute. reflexivity.
Defined.
